(** * Socrata tool gateway: response shaping, merge engine, schedule resolver

    A shallow embedding of the TypeScript sources
    [src/utils/socrata-utils.ts], [src/tools/asset-tools.ts],
    [src/tools/publishing-tools.ts], [src/tools/user-tools.ts],
    [src/tools/catalog-tools.ts], [src/tools/workflow-tools.ts] and
    [src/tools/activity-tools.ts], together with the properties the
    specification states about them.

    Conventions of the embedding.
    - A JavaScript string is a [string]: one [ascii] per UTF-16 code unit,
      which covers the code units U+0000 to U+00FF.  [String.length] is then
      the [length] property.
    - A JavaScript number is a [Z].  The numbers the tools handle are
      integers (counts, limits, offsets, HTTP statuses); the embedding covers
      the integers a double holds exactly and prints in decimal, those below
      10^21 in magnitude, and leaves fractions and exponent notation out.
    - A plain object is an association list in property enumeration order.
    - A thrown exception is the [message] of the [Error] it carries; every
      handler only ever reads that message.
    - Documents come from [JSON.parse]: they hold no function, so a field
      named [toString] shadows the inherited method with a value that cannot
      be called, and converting such an object to a string throws. *)

From Stdlib Require Import String Ascii List ZArith Lia Bool Arith.
From Stdlib Require Import Numbers.DecimalString.
From Stdlib Require Numbers.DecimalNat Numbers.DecimalFacts.
Import ListNotations.

Open Scope list_scope.
Open Scope string_scope.

(* ================================================================== *)
(** * JavaScript values *)
(* ================================================================== *)

Module JS.

#[warnings="-register-all"]
Inductive value : Type :=
| Undefined
| Null
| Bool (b : bool)
| Num (n : Z)
| Str (s : string)
| Arr (items : list value)
| Obj (fields : list (string * value)).

(** Outcome of an expression that may throw. *)
Inductive result (A : Type) : Type :=
| Ok (a : A)
| Throw (message : string).
Arguments Ok {A} a.
Arguments Throw {A} message.

Definition bindR {A B} (r : result A) (k : A -> result B) : result B :=
  match r with
  | Ok a => k a
  | Throw m => Throw m
  end.

(** [ToBoolean]. *)
Definition truthy (v : value) : bool :=
  match v with
  | Undefined | Null => false
  | Bool b => b
  | Num n => negb (n =? 0)%Z
  | Str s => negb (s =? "")
  | Arr _ | Obj _ => true
  end.

(** [a || b] on values. *)
Definition or_else (a b : value) : value := if truthy a then a else b.

(** [a === b] between two values that come from different documents:
    primitives compare by value, and two separately allocated objects or
    arrays are never identical. *)
Definition strictEq (a b : value) : bool :=
  match a, b with
  | Undefined, Undefined => true
  | Null, Null => true
  | Bool x, Bool y => Bool.eqb x y
  | Num x, Num y => (x =? y)%Z
  | Str x, Str y => (x =? y)
  | _, _ => false
  end.

(** [Number.prototype.toString] on an integer that is printed in decimal
    (below 10^21 in magnitude). *)
Definition numberToString (n : Z) : string :=
  NilZero.string_of_int (Z.to_int n).

Definition indexToString (i : nat) : string :=
  NilZero.string_of_uint (Nat.to_uint i).

Definition join (sep : string) (parts : list string) : string :=
  String.concat sep parts.

(** Pair every element with its 0-based index, from [start]. *)
Fixpoint indexed {A} (start : nat) (l : list A) : list (string * A) :=
  match l with
  | [] => []
  | x :: rest => (indexToString start, x) :: indexed (S start) rest
  end.

Fixpoint chars (s : string) : list value :=
  match s with
  | EmptyString => []
  | String c rest => Str (String c EmptyString) :: chars rest
  end.

(** Own enumerable properties, in enumeration order: what the object
    spread [{...v}] copies. *)
Definition ownEnumerable (v : value) : list (string * value) :=
  match v with
  | Obj fields => fields
  | Arr items => indexed 0 items
  | Str s => indexed 0 (chars s)
  | Undefined | Null | Bool _ | Num _ => []
  end.

Fixpoint lookup (k : string) (fields : list (string * value)) : option value :=
  match fields with
  | [] => None
  | (k', v) :: rest => if k' =? k then Some v else lookup k rest
  end.

(** Assignment [o[k] = v] for a key that is not an array index: an
    existing property keeps its place, a new one goes last.  Every key the
    program writes is of that kind. *)
Fixpoint setProp (k : string) (v : value) (fields : list (string * value))
  : list (string * value) :=
  match fields with
  | [] => [(k, v)]
  | (k', v') :: rest =>
      if k' =? k then (k, v) :: rest else (k', v') :: setProp k v rest
  end.

(** Property read [v.k] on a value that is neither [null] nor
    [undefined], for a name [k] that no prototype defines. *)
Definition getOwn (v : value) (k : string) : value :=
  match lookup k (ownEnumerable v) with
  | Some x => x
  | None =>
      if k =? "length" then
        match v with
        | Arr items => Num (Z.of_nat (List.length items))
        | Str s => Num (Z.of_nat (String.length s))
        | _ => Undefined
        end
      else Undefined
  end.

Definition typeName (v : value) : string :=
  match v with
  | Undefined => "undefined"
  | _ => "null"
  end.

(** Property read [v.k]; reading from [null] or [undefined] throws a
    [TypeError]. *)
Definition getProp (v : value) (k : string) : result value :=
  match v with
  | Undefined | Null =>
      Throw ("Cannot read properties of " ++ typeName v
               ++ " (reading '" ++ k ++ "')")
  | _ => Ok (getOwn v k)
  end.

(** Optional chaining [v?.k]. *)
Definition getOpt (v : value) (k : string) : value :=
  match v with
  | Undefined | Null => Undefined
  | _ => getOwn v k
  end.

Definition cannotConvert : string := "Cannot convert object to primitive value".

(** [ToString], as used by template literals.  An object is converted
    through its [toString] method: a parsed document inherits the one of
    [Object.prototype] unless it has a field of that name, which is never a
    function, and then the conversion throws a [TypeError].  An array
    joins the conversions of its elements. *)
Fixpoint toString (v : value) : result string :=
  match v with
  | Undefined => Ok "undefined"
  | Null => Ok "null"
  | Bool true => Ok "true"
  | Bool false => Ok "false"
  | Num n => Ok (numberToString n)
  | Str s => Ok s
  | Arr items =>
      bindR ((fix elements (l : list value) : result (list string) :=
                match l with
                | [] => Ok []
                | x :: rest =>
                    bindR (match x with
                           | Undefined | Null => Ok ""
                           | _ => toString x
                           end) (fun s =>
                    bindR (elements rest) (fun parts => Ok (s :: parts)))
                end) items)
        (fun parts => Ok (join "," parts))
  | Obj fields =>
      match lookup "toString" fields with
      | Some _ => Throw cannotConvert
      | None => Ok "[object Object]"
      end
  end.

(** ** [JSON.stringify] *)

Definition hexDigit (n : nat) : ascii :=
  match n with
  | 0 => "0" | 1 => "1" | 2 => "2" | 3 => "3" | 4 => "4" | 5 => "5"
  | 6 => "6" | 7 => "7" | 8 => "8" | 9 => "9" | 10 => "a" | 11 => "b"
  | 12 => "c" | 13 => "d" | 14 => "e" | _ => "f"
  end%char.

Definition backslash : ascii := ascii_of_nat 92.
Definition dquote : ascii := ascii_of_nat 34.
Definition newline : string := String (ascii_of_nat 10) EmptyString.

(** One code unit of [QuoteJSONString]. *)
Definition quoteChar (c : ascii) : string :=
  let n := nat_of_ascii c in
  let esc (x : ascii) := String backslash (String x EmptyString) in
  match n with
  | 8 => esc "b"%char
  | 9 => esc "t"%char
  | 10 => esc "n"%char
  | 12 => esc "f"%char
  | 13 => esc "r"%char
  | 34 => esc dquote
  | 92 => esc backslash
  | _ =>
      if (n <? 32)%nat then
        String backslash
          (String "u" (String "0" (String "0"
             (String (hexDigit (n / 16)) (String (hexDigit (n mod 16)) EmptyString)))))
      else String c EmptyString
  end.

Fixpoint quoteBody (s : string) : string :=
  match s with
  | EmptyString => EmptyString
  | String c rest => quoteChar c ++ quoteBody rest
  end.

Definition quote (s : string) : string :=
  String dquote (quoteBody s ++ String dquote EmptyString).

(** Wrap the serialized members of an array or object. *)
Definition wrap (gap indent opening closing : string) (partial : list string)
  : string :=
  match partial with
  | [] => opening ++ closing
  | _ =>
      if gap =? "" then opening ++ join "," partial ++ closing
      else
        let inner := indent ++ gap in
        opening ++ newline ++ inner
          ++ join ("," ++ newline ++ inner) partial
          ++ newline ++ indent ++ closing
  end.

(** [SerializeJSONProperty] with a fixed [gap]; [None] is [undefined]. *)
Fixpoint serialize (gap indent : string) (v : value) : option string :=
  match v with
  | Undefined => None
  | Null => Some "null"
  | Bool true => Some "true"
  | Bool false => Some "false"
  | Num n => Some (numberToString n)
  | Str s => Some (quote s)
  | Arr items =>
      Some (wrap gap indent "[" "]"
              (map (fun x => match serialize gap (indent ++ gap) x with
                             | Some s => s
                             | None => "null"
                             end) items))
  | Obj fields =>
      Some (wrap gap indent "{" "}"
              (flat_map (fun kv =>
                           match serialize gap (indent ++ gap) (snd kv) with
                           | Some s =>
                               [quote (fst kv) ++ ":"
                                  ++ (if gap =? "" then "" else " ") ++ s]
                           | None => []
                           end) fields))
  end.

(** [JSON.stringify(v)]. *)
Definition stringify (v : value) : option string := serialize "" "" v.

(** [JSON.stringify(v, null, 2)]. *)
Definition stringify2 (v : value) : option string := serialize "  " "" v.

(** A template literal or string concatenation applied to the outcome of
    [JSON.stringify]. *)
Definition interpolate (o : option string) : string :=
  match o with
  | Some s => s
  | None => "undefined"
  end.

End JS.
Import JS.

(* ================================================================== *)
(** * The process environment and the remote platform *)
(* ================================================================== *)

Record Request : Type := {
  method : string;
  url : string;
  body : option string
}.

(** What [fetch] comes back with: a rejected promise, or a response whose
    body can be read as text or parsed as JSON. *)
Inductive Reply : Type :=
| Rejected (message : string)
| Response (status : Z) (statusText : string) (text : string) (json : result value).

(** Everything a handler reads from outside: the allowlist variable of the
    process, the remote platform (its reply may depend on the requests that
    were issued before) and the locale used to print dates. *)
Record Env : Type := {
  SOCRATA_DOMAIN : option string;
  fetch : list Request -> Request -> Reply;
  toLocaleDateString : value -> string
}.

(** A computation that issues requests: it extends the log of requests and
    returns or throws. *)
Definition M (A : Type) : Type := list Request -> result A * list Request.

Definition ret {A} (a : A) : M A := fun log => (Ok a, log).
Definition throw {A} (message : string) : M A := fun log => (Throw message, log).
Definition lift {A} (r : result A) : M A := fun log => (r, log).

Definition bind {A B} (c : M A) (k : A -> M B) : M B :=
  fun log =>
    match c log with
    | (Ok a, log') => k a log'
    | (Throw m, log') => (Throw m, log')
    end.

(** [try { c } catch (error) { handler(error.message) }]. *)
Definition tryCatch {A} (c : M A) (handler : string -> M A) : M A :=
  fun log =>
    match c log with
    | (Ok a, log') => (Ok a, log')
    | (Throw m, log') => handler m log'
    end.

Notation "x <- c ;; k" := (bind c (fun x => k))
  (at level 61, c at next level, right associativity).
Notation "c ;;; k" := (bind c (fun _ => k))
  (at level 61, right associativity).

(** Run a handler from an empty log. *)
Definition run {A} (c : M A) : result A * list Request := c [].

(* ================================================================== *)
(** * [src/utils/socrata-utils.ts] *)
(* ================================================================== *)

Definition CHARACTER_LIMIT : Z := 25000.
Definition DEFAULT_LIMIT : Z := 100.

(** ** Domain guard *)

(** [s.split(',')]. *)
Fixpoint split (sep : ascii) (s : string) : list string :=
  match s with
  | EmptyString => [EmptyString]
  | String c rest =>
      if Ascii.eqb c sep then EmptyString :: split sep rest
      else match split sep rest with
           | [] => [String c EmptyString]
           | t :: ts => String c t :: ts
           end
  end.

Definition isWhiteSpace (c : ascii) : bool :=
  let n := nat_of_ascii c in
  ((9 <=? n) && (n <=? 13) || (n =? 32) || (n =? 160))%nat.

Fixpoint trimStart (s : string) : string :=
  match s with
  | EmptyString => EmptyString
  | String c rest => if isWhiteSpace c then trimStart rest else s
  end.

Fixpoint trimEnd (s : string) : string :=
  match s with
  | EmptyString => EmptyString
  | String c rest =>
      match trimEnd rest with
      | EmptyString => if isWhiteSpace c then EmptyString else String c EmptyString
      | t => String c t
      end
  end.

Definition trim (s : string) : string := trimEnd (trimStart s).

Definition ALLOWED_DOMAINS (env : Env) : list string :=
  match SOCRATA_DOMAIN env with
  | Some s => if s =? "" then [] else map trim (split "," s)
  | None => []
  end.

(** [allowed.includes(domain)]. *)
Definition includes (allowed : list string) (domain : string) : bool :=
  existsb (String.eqb domain) allowed.

Definition domainNotAllowed (allowed : list string) (domain : string) : string :=
  "Domain " ++ String dquote domain ++ String dquote
    " is not in the allowlist. Allowed domains: " ++ join ", " allowed.

Definition validateDomain (allowed : list string) (domain : string) : result unit :=
  if (0 <? List.length allowed)%nat && negb (includes allowed domain)
  then Throw (domainNotAllowed allowed domain)
  else Ok tt.

(** ** Remote call adapter *)

Definition responseOk (status : Z) : bool :=
  ((200 <=? status) && (status <=? 299))%Z.

Definition apiError (status : Z) (statusText text : string) : string :=
  "Socrata API error (" ++ numberToString status ++ "): "
    ++ statusText ++ " - " ++ text.

Definition request (env : Env) (req : Request) : M value :=
  fun log =>
    let log' := (log ++ [req])%list in
    match fetch env log req with
    | Rejected m => (Throw m, log')
    | Response status statusText text json =>
        if responseOk status then (json, log')
        else (Throw (apiError status statusText text), log')
    end.

Definition socrataGet (env : Env) (url : string) : M value :=
  request env {| method := "GET"; url := url; body := None |}.

Definition socrataPost (env : Env) (url : string) (data : value) : M value :=
  request env {| method := "POST"; url := url; body := stringify data |}.

Definition socrataPut (env : Env) (url : string) (data : value) : M value :=
  request env {| method := "PUT"; url := url; body := stringify data |}.

(** ** Array or comma-separated string *)

Inductive StringOrArray : Type :=
| OneString (s : string)
| ManyStrings (l : list string).

Definition normalizeToCommaSeparated (value : option StringOrArray) : option string :=
  match value with
  | None => None
  | Some (OneString s) => if s =? "" then None else Some s
  | Some (ManyStrings l) =>
      if (0 <? List.length l)%nat then Some (join "," l) else None
  end.

(** ** Response shaper *)

Definition truncationMessage (limit : Z) (original : nat) : string :=
  "Response truncated at " ++ numberToString limit
    ++ " characters. Original length: " ++ numberToString (Z.of_nat original).

(** [truncateResponse(data, limit)].  The local [truncated] is computed and
    not used, as in the source. *)
Definition truncateResponseAt (data : value) (limit : Z) : result value :=
  match stringify2 data with
  | None => Throw "Cannot read properties of undefined (reading 'length')"
  | Some jsonString =>
      if (Z.of_nat (String.length jsonString) <=? limit)%Z then Ok data
      else
        let truncated := substring 0 (Z.to_nat (limit - 100)) jsonString in
        Ok (Obj (setProp "_message"
                   (Str (truncationMessage limit (String.length jsonString)))
                   (setProp "_truncated" (Bool true) (ownEnumerable data))))
  end.

(** [truncateResponse(data)], with the default limit. *)
Definition truncateResponse (data : value) : result value :=
  truncateResponseAt data CHARACTER_LIMIT.

Inductive Format : Type := json | markdown.
Inductive Detail : Type := concise | detailed.

Record FormatOptions : Type := {
  format : option Format;
  detail : option Detail
}.

(** [typeof item === 'object' && item !== null]: arrays are objects too. *)
Definition isObject (item : value) : bool :=
  match item with
  | Arr _ | Obj _ => true
  | _ => false
  end.

(** The callback of [data.map] in [formatResponse]. *)
Definition conciseItem (item : value) : value :=
  if isObject item then
    Obj [("id", getOwn item "id");
         ("name", getOwn item "name");
         ("title", getOwn item "title");
         ("description", getOwn item "description");
         ("domain", getOwn item "domain")]
  else item.

Definition formatResponse (data : value) (options : FormatOptions) : result value :=
  let detail := match detail options with Some d => d | None => detailed end in
  let data :=
    match detail, data with
    | concise, Arr items => Arr (map conciseItem items)
    | _, _ => data
    end in
  truncateResponse data.

(** The text of a tool result: the shaped value printed with two spaces of
    indentation, bare or inside a fenced block under a heading.  A shaped
    value is never [undefined], so its serialization is a string. *)
Definition fenced (formatted : value) : string :=
  "```json" ++ newline ++ interpolate (stringify2 formatted) ++ newline ++ "```".

Definition render (fmt : Format) (heading : string) (formatted : value) : string :=
  match fmt with
  | markdown => heading ++ newline ++ newline ++ fenced formatted
  | json => interpolate (stringify2 formatted)
  end.

(* ================================================================== *)
(** * [src/tools/asset-tools.ts] *)
(* ================================================================== *)

Module AssetTools.

Record AccessLevel : Type := {
  levelName : string;
  version : string
}.

(** [userPermissionSchema]. *)
Record UserPermission : Type := {
  id : option string;
  email : option string;
  accessLevels : list AccessLevel
}.

Definition accessLevelFields (a : AccessLevel) : list (string * value) :=
  [("name", Str (levelName a)); ("version", Str (version a))].

Definition optionalField (k : string) (v : option string) : list (string * value) :=
  match v with
  | Some s => [(k, Str s)]
  | None => []
  end.

(** The object a validated grant is: its fields in schema order, the
    optional ones only when given. *)
Definition userFields (u : UserPermission) : list (string * value) :=
  (optionalField "id" (id u) ++ optionalField "email" (email u)
     ++ [("accessLevels", Arr (map (fun a => Obj (accessLevelFields a)) (accessLevels u)))])%list.

Definition userObject (u : UserPermission) : value := Obj (userFields u).

(** [{ ...base, ...top }]. *)
Definition spreadOver (base top : list (string * value)) : list (string * value) :=
  fold_left (fun acc kv => setProp (fst kv) (snd kv) acc) top base.

(** ** Metadata *)

Record MetadataArgs : Type := {
  m_domain : string;
  m_assetId : string;
  name : option string;
  description : option string;
  tags : option (list string);
  category : option string;
  attribution : option string;
  license : option string;
  m_format : Format
}.

(** [if (x !== undefined) o.k = x]. *)
Definition assign (k : string) (x : option value) (o : list (string * value))
  : list (string * value) :=
  match x with
  | Some v => setProp k v o
  | None => o
  end.

(** Lines 99-105: the merged document that is written back. *)
Definition mergeMetadata (currentMetadata : value) (args : MetadataArgs) : value :=
  let updatedMetadata := ownEnumerable currentMetadata in
  let updatedMetadata := assign "name" (option_map Str (name args)) updatedMetadata in
  let updatedMetadata :=
    assign "description" (option_map Str (description args)) updatedMetadata in
  let updatedMetadata :=
    assign "tags" (option_map (fun l => Arr (map Str l)) (tags args)) updatedMetadata in
  let updatedMetadata := assign "category" (option_map Str (category args)) updatedMetadata in
  let updatedMetadata :=
    assign "attribution" (option_map Str (attribution args)) updatedMetadata in
  let updatedMetadata := assign "license" (option_map Str (license args)) updatedMetadata in
  Obj updatedMetadata.

Definition given {A} (k : string) (x : option A) : list string :=
  match x with
  | Some _ => [k]
  | None => []
  end.

Definition updatedFields (args : MetadataArgs) : list string :=
  (given "name" (name args) ++ given "description" (description args)
     ++ given "tags" (tags args) ++ given "category" (category args)
     ++ given "attribution" (attribution args) ++ given "license" (license args))%list.

Definition viewUrl (domain assetId : string) : string :=
  "https://" ++ domain ++ "/api/views/" ++ assetId ++ ".json".

Definition assetMetadataUpdateTool_handler (env : Env) (args : MetadataArgs) : M string :=
  let domain := m_domain args in
  let assetId := m_assetId args in
  tryCatch
    (lift (validateDomain (ALLOWED_DOMAINS env) domain) ;;;
     currentMetadata <- socrataGet env (viewUrl domain assetId) ;;
     let updatedMetadata := mergeMetadata currentMetadata args in
     result <- socrataPut env (viewUrl domain assetId) updatedMetadata ;;
     formatted <- lift (formatResponse result
                          {| format := Some (m_format args); detail := None |}) ;;
     ret (render (m_format args)
            ("# Metadata Updated Successfully" ++ newline ++ newline
               ++ "**Domain:** " ++ domain ++ newline
               ++ "**Asset ID:** " ++ assetId ++ newline
               ++ "**Updated Fields:** " ++ join ", " (updatedFields args))
            formatted))
    (fun message =>
       throw ("Failed to update metadata for asset " ++ assetId ++ " on " ++ domain
                ++ ": " ++ message
                ++ ". Check if you have edit permissions for this asset.")).

(** ** Permissions *)

Inductive Scope : Type := private | public | site.

Definition scopeName (s : Scope) : string :=
  match s with
  | private => "private"
  | public => "public"
  | site => "site"
  end.

Record PermissionsArgs : Type := {
  p_domain : string;
  p_assetId : string;
  scope : option Scope;
  users : option (list UserPermission);
  replaceUsers : bool;
  p_format : Format
}.

(** [x && u.k === x] for an optional string [x] of the incoming grant. *)
Definition sameField (x : option string) (u : value) (k : string) : result bool :=
  match x with
  | None => Ok false
  | Some s =>
      if s =? "" then Ok false
      else bindR (getProp u k) (fun v => Ok (strictEq v (Str s)))
  end.

(** The predicate handed to [findIndex]. *)
Definition matchesUser (newUser : UserPermission) (u : value) : result bool :=
  bindR (sameField (id newUser) u "id") (fun byId =>
    if byId then Ok true else sameField (email newUser) u "email").

(** [l.findIndex(p)], counting from [i]; [None] is [-1]. *)
Fixpoint findIndexFrom (p : value -> result bool) (i : nat) (l : list value)
  : result (option nat) :=
  match l with
  | [] => Ok None
  | u :: rest =>
      bindR (p u) (fun b => if b then Ok (Some i) else findIndexFrom p (S i) rest)
  end.

Definition findIndex (p : value -> result bool) (l : list value) : result (option nat) :=
  findIndexFrom p 0 l.

(** [l[i] = x] for an index inside the array. *)
Fixpoint replaceAt (i : nat) (x : value) (l : list value) : list value :=
  match l, i with
  | [], _ => []
  | _ :: rest, O => x :: rest
  | y :: rest, S j => y :: replaceAt j x rest
  end.

(** One turn of the loop over the incoming grants. *)
Definition upsertUser (existingUsers updatedUsers : list value) (newUser : UserPermission)
  : result (list value) :=
  bindR (findIndex (matchesUser newUser) existingUsers) (fun existingIndex =>
    match existingIndex with
    | Some i =>
        Ok (replaceAt i
              (Obj (spreadOver (ownEnumerable (nth i updatedUsers Undefined))
                      (userFields newUser)))
              updatedUsers)
    | None => Ok (updatedUsers ++ [userObject newUser])%list
    end).

Fixpoint upsertAll (existingUsers updatedUsers : list value) (users : list UserPermission)
  : result (list value) :=
  match users with
  | [] => Ok updatedUsers
  | newUser :: rest =>
      bindR (upsertUser existingUsers updatedUsers newUser) (fun updatedUsers' =>
        upsertAll existingUsers updatedUsers' rest)
  end.

(** Lines 212-229: merge the incoming grants into
    [updatedPermissions.users || []]. *)
Definition mergeUsers (existing : value) (users : list UserPermission) : result value :=
  match or_else existing (Arr []) with
  | Arr existingUsers =>
      bindR (upsertAll existingUsers existingUsers users) (fun updatedUsers =>
        Ok (Arr updatedUsers))
  | Str s =>
      match users with
      | [] => Ok (Arr (chars s))
      | _ :: _ => Throw "existingUsers.findIndex is not a function"
      end
  | _ => Throw "existingUsers is not iterable"
  end.

(** Lines 202-231: the merged document that is written back. *)
Definition mergePermissions (currentPermissions : value) (args : PermissionsArgs)
  : result value :=
  let updatedPermissions := ownEnumerable currentPermissions in
  let updatedPermissions :=
    match scope args with
    | Some s => setProp "scope" (Str (scopeName s)) updatedPermissions
    | None => updatedPermissions
    end in
  match users args with
  | None => Ok (Obj updatedPermissions)
  | Some users =>
      if replaceUsers args then
        Ok (Obj (setProp "users" (Arr (map userObject users)) updatedPermissions))
      else
        bindR (mergeUsers (getOwn (Obj updatedPermissions) "users") users)
          (fun updatedUsers =>
             Ok (Obj (setProp "users" updatedUsers updatedPermissions)))
  end.

Definition permissionsUrl (domain assetId : string) : string :=
  "https://" ++ domain ++ "/api/assets/" ++ assetId ++ "/permissions.json".

Definition userUpdates (args : PermissionsArgs) : string :=
  match users args with
  | Some l =>
      numberToString (Z.of_nat (List.length l)) ++ " users "
        ++ (if replaceUsers args then "replaced" else "merged")
  | None => "None"
  end.

Definition assetPermissionsUpdateTool_handler (env : Env) (args : PermissionsArgs)
  : M string :=
  let domain := p_domain args in
  let assetId := p_assetId args in
  tryCatch
    (lift (validateDomain (ALLOWED_DOMAINS env) domain) ;;;
     currentPermissions <- socrataGet env (permissionsUrl domain assetId) ;;
     updatedPermissions <- lift (mergePermissions currentPermissions args) ;;
     result <- socrataPut env (permissionsUrl domain assetId) updatedPermissions ;;
     formatted <- lift (formatResponse result
                          {| format := Some (p_format args); detail := None |}) ;;
     ret (render (p_format args)
            ("# Permissions Updated Successfully" ++ newline ++ newline
               ++ "**Domain:** " ++ domain ++ newline
               ++ "**Asset ID:** " ++ assetId ++ newline
               ++ "**New Scope:** "
               ++ match scope args with Some s => scopeName s | None => "Unchanged" end
               ++ newline
               ++ "**User Updates:** " ++ userUpdates args)
            formatted))
    (fun message =>
       throw ("Failed to update permissions for asset " ++ assetId ++ " on " ++ domain
                ++ ": " ++ message
                ++ ". Check if you have admin permissions for this asset and the user/email addresses are valid.")).

End AssetTools.

(* ================================================================== *)
(** * [src/tools/publishing-tools.ts] *)
(* ================================================================== *)

Module PublishingTools.

Record ScheduleArgs : Type := {
  s_domain : string;
  fxf : option string;
  assetName : option string;
  s_format : Format;
  s_detail : Detail
}.

(** An optional string argument when it is truthy: given and not empty. *)
Definition whenTruthy (x : option string) : option string :=
  match x with
  | Some s => if s =? "" then None else Some s
  | None => None
  end.

Definition supplied (x : option string) : bool :=
  match whenTruthy x with
  | Some _ => true
  | None => false
  end.

Definition upperHexDigit (n : nat) : ascii :=
  match n with
  | 10 => "A" | 11 => "B" | 12 => "C" | 13 => "D" | 14 => "E" | 15 => "F"
  | _ => hexDigit n
  end%char.

Definition percent (n : nat) : string :=
  String "%" (String (upperHexDigit (n / 16)) (String (upperHexDigit (n mod 16)) EmptyString)).

Definition isUnreserved (n : nat) : bool :=
  ((65 <=? n) && (n <=? 90) || (97 <=? n) && (n <=? 122) || (48 <=? n) && (n <=? 57)
   || (n =? 45) || (n =? 95) || (n =? 46) || (n =? 33) || (n =? 126)
   || (n =? 42) || (n =? 39) || (n =? 40) || (n =? 41))%nat.

(** [encodeURIComponent]: unreserved characters stay, every other code
    unit is percent-encoded in UTF-8. *)
Fixpoint encodeURIComponent (s : string) : string :=
  match s with
  | EmptyString => EmptyString
  | String c rest =>
      let n := nat_of_ascii c in
      (if isUnreserved n then String c EmptyString
       else if (n <? 128)%nat then percent n
       else percent (192 + n / 64) ++ percent (128 + n mod 64))
        ++ encodeURIComponent rest
  end.

Definition lowerChar (c : ascii) : ascii :=
  let n := nat_of_ascii c in
  if ((65 <=? n) && (n <=? 90)
      || (192 <=? n) && (n <=? 222) && negb (n =? 215))%nat
  then ascii_of_nat (n + 32)
  else c.

Fixpoint toLowerCase (s : string) : string :=
  match s with
  | EmptyString => EmptyString
  | String c rest => String (lowerChar c) (toLowerCase rest)
  end.

Definition catalogUrl (domain query : string) : string :=
  "https://" ++ domain ++ "/api/catalog/v1?domains=" ++ domain
    ++ "&q=" ++ encodeURIComponent query.

(** The URL of [getSchedule], from the text of the identifier. *)
Definition scheduleUrl (domain fxf : string) : string :=
  "https://" ++ domain ++ "/api/publishing/v1/revision/datasets/" ++ fxf.

Definition searchCatalog (env : Env) (domain query : string) : M value :=
  lift (validateDomain (ALLOWED_DOMAINS env) domain) ;;;
  response <- socrataGet env (catalogUrl domain query) ;;
  results <- lift (getProp response "results") ;;
  ret (or_else results (Arr [])).

(** The identifier is put into the URL by a template literal: one that
    cannot be converted to a string throws before any request is made. *)
Definition getSchedule (env : Env) (domain : string) (fxf : value) : M value :=
  lift (validateDomain (ALLOWED_DOMAINS env) domain) ;;;
  text <- lift (toString fxf) ;;
  socrataGet env (scheduleUrl domain text).

Definition manualSummary : string :=
  "Dataset is updated manually - no automated publishing schedule".

(** [new Date(v).toLocaleDateString()].  The constructor converts an
    array or an object to a primitive first, which throws exactly when
    [ToString] does; the text of the date is the locale's. *)
Definition localeDate (env : Env) (v : value) : result string :=
  bindR (toString v) (fun _ => Ok (toLocaleDateString env v)).

(** [v ? new Date(v).toLocaleDateString() : missing]. *)
Definition dateOr (env : Env) (v : value) (missing : string) : result string :=
  if truthy v then localeDate env v else Ok missing.

Definition generateScheduleSummary (env : Env) (schedule : value) : result string :=
  let cadence := getOwn schedule "cadence" in
  if negb (truthy (getOwn schedule "enabled")) || strictEq cadence (Str "Manual/None")
  then Ok manualSummary
  else if truthy cadence && negb (strictEq cadence (Str "Manual/None")) then
    bindR (dateOr env (getOwn schedule "lastRun") "Unknown") (fun lastUpdate =>
    bindR (dateOr env (getOwn schedule "nextRun") "Not scheduled") (fun nextUpdate =>
      match cadence with
      | Str c =>
          Ok ("Updates " ++ toLowerCase c ++ ", last updated: " ++ lastUpdate
                ++ ", next update: " ++ nextUpdate)
      | _ => Throw "schedule.cadence.toLowerCase is not a function"
      end))
  else Ok "Schedule information available but status unclear".

Definition unknownDataset : value :=
  Obj [("name", Str "Unknown"); ("fxf", Str "Unknown")].

Definition noScheduleData : string :=
  "No schedule data available - dataset may not have automated publishing".

Definition formatScheduleResponse (env : Env) (scheduleData : value)
  (assetInfo : option value) : result value :=
  if negb (truthy scheduleData) then
    Ok (Obj [("dataset", match assetInfo with Some a => a | None => unknownDataset end);
             ("schedule", Null);
             ("error", Str noScheduleData)])
  else
    let schedule :=
      Obj [("cadence", or_else (getOwn scheduleData "cadence") (Str "Manual/None"));
           ("status", or_else (getOwn scheduleData "status") (Str "Unknown"));
           ("enabled", or_else (getOwn scheduleData "enabled") (Bool false));
           ("lastRun", or_else (getOwn scheduleData "lastRun") Null);
           ("nextRun", or_else (getOwn scheduleData "nextRun") Null);
           ("rowCount", or_else (getOwn scheduleData "rowCount") (Num 0));
           ("owner", or_else (getOwn scheduleData "owner") (Str "Unknown"));
           ("frequency", or_else (getOwn scheduleData "frequency") Null);
           ("timezone", or_else (getOwn scheduleData "timezone") Null)] in
    let dataset :=
      match assetInfo with
      | Some a => a
      | None =>
          Obj [("name", or_else (getOwn scheduleData "name") (Str "Unknown"));
               ("fxf", or_else (getOwn scheduleData "fxf") (Str "Unknown"))]
      end in
    bindR (generateScheduleSummary env schedule) (fun summary =>
      Ok (Obj [("dataset", dataset); ("schedule", schedule); ("summary", Str summary)])).

(** [asset.resource?.k || asset.k]. *)
Definition resourceOr (asset : value) (k : string) : result value :=
  bindR (getProp asset "resource") (fun resource =>
    Ok (or_else (getOpt resource k) (getOwn asset k))).

(** The callback of [catalogResponse.filter]. *)
Definition isDataset (asset : value) : result bool :=
  bindR (getProp asset "resource") (fun resource =>
    if strictEq (getOpt resource "type") (Str "dataset") then Ok true
    else Ok (strictEq (getOpt (getOwn asset "classification") "domain_category")
               (Str "dataset"))).

Fixpoint filterR (p : value -> result bool) (l : list value) : result (list value) :=
  match l with
  | [] => Ok []
  | x :: rest =>
      bindR (p x) (fun keep =>
        bindR (filterR p rest) (fun rest' =>
          Ok (if keep then x :: rest' else rest')))
  end.

Definition fetchFailed (message : string) : string :=
  "Unable to fetch schedule: " ++ message.

(** The body of the loop over the dataset matches. *)
Definition scheduleOf (env : Env) (domain : string) (asset : value) : M value :=
  tryCatch
    (name <- lift (resourceOr asset "name") ;;
     assetFxf <- lift (resourceOr asset "id") ;;
     scheduleData <- getSchedule env domain assetFxf ;;
     lift (formatScheduleResponse env scheduleData
             (Some (Obj [("name", name); ("fxf", assetFxf)]))))
    (fun message =>
       name <- lift (resourceOr asset "name") ;;
       assetFxf <- lift (resourceOr asset "id") ;;
       ret (Obj [("dataset", Obj [("name", name); ("fxf", assetFxf)]);
                 ("schedule", Null);
                 ("error", Str (fetchFailed message))])).

Fixpoint scheduleAll (env : Env) (domain : string) (assets : list value)
  : M (list value) :=
  match assets with
  | [] => ret []
  | asset :: rest =>
      summary <- scheduleOf env domain asset ;;
      summaries <- scheduleAll env domain rest ;;
      ret (summary :: summaries)
  end.

Definition invalidArguments : string :=
  "Either 'fxf' (dataset ID) or 'assetName' (dataset name) must be provided".

Definition noDatasetsFound (assetName : string) : string :=
  "No datasets found matching name: " ++ String dquote assetName ++ String dquote
    ". Try searching the catalog first to find available datasets.".

(** The message of line 71; the type of the first result is put into it
    by a template literal. *)
Definition notADataset (assetName : string) (first : value) : result string :=
  let assetType :=
    or_else (getOpt (getOpt first "resource") "type")
      (or_else (getOpt (getOpt first "classification") "domain_category")
         (Str "asset")) in
  bindR (toString assetType) (fun typeText =>
    Ok (String dquote assetName ++ String dquote " is a " ++ typeText
          ++ " and does not have a publishing schedule. Only datasets have schedules.")).

(** [scheduleResults.length === 1 ? scheduleResults[0] : scheduleResults]. *)
Definition unwrapSingle (scheduleResults : list value) : value :=
  match scheduleResults with
  | [only] => only
  | _ => Arr scheduleResults
  end.

Definition directHeading (domain fxf : string) : string :=
  "# Publishing Schedule" ++ newline ++ newline
    ++ "**Domain:** " ++ domain ++ newline ++ "**Dataset ID:** " ++ fxf.

Definition searchHeading (domain assetName : string) (found : nat) : string :=
  "# Publishing Schedule Results" ++ newline ++ newline
    ++ "**Domain:** " ++ domain ++ newline
    ++ "**Search:** " ++ assetName ++ newline
    ++ "**Datasets Found:** " ++ numberToString (Z.of_nat found).

(** Lines 40-54: the identifier is known.  [directSummary] is the value
    [formatted]; [directMode] prints it. *)
Definition directSummary (env : Env) (args : ScheduleArgs) (fxf : string) : M value :=
  scheduleData <- getSchedule env (s_domain args) (Str fxf) ;;
  lift (formatScheduleResponse env scheduleData None).

Definition directMode (env : Env) (args : ScheduleArgs) (fxf : string) : M string :=
  formatted <- directSummary env args fxf ;;
  ret (render (s_format args) (directHeading (s_domain args) fxf) formatted).

(** Lines 57-107: search the catalog by name first.  [searchResults] is
    the value [formatted] with [scheduleResults.length]; [searchMode]
    prints them. *)
Definition searchResults (env : Env) (args : ScheduleArgs) (assetName : string)
  : M (value * nat) :=
  let domain := s_domain args in
  catalogResponse <- searchCatalog env domain assetName ;;
  if negb (truthy catalogResponse) || strictEq (getOwn catalogResponse "length") (Num 0)
  then throw (noDatasetsFound assetName)
  else
    match catalogResponse with
    | Arr assets =>
        datasetAssets <- lift (filterR isDataset assets) ;;
        match datasetAssets with
        | [] =>
            message <- lift (notADataset assetName (nth 0 assets Undefined)) ;;
            throw message
        | _ :: _ =>
            scheduleResults <- scheduleAll env domain datasetAssets ;;
            let result := unwrapSingle scheduleResults in
            formatted <- lift (formatResponse result
                                 {| format := Some (s_format args);
                                    detail := Some (s_detail args) |}) ;;
            ret (formatted, List.length scheduleResults)
        end
    | _ => throw "catalogResponse.filter is not a function"
    end.

Definition searchMode (env : Env) (args : ScheduleArgs) (assetName : string) : M string :=
  shaped <- searchResults env args assetName ;;
  ret (render (s_format args)
         (searchHeading (s_domain args) assetName (snd shaped))
         (fst shaped)).

Definition failedToGet (domain message : string) : string :=
  "Failed to get publishing schedule on " ++ domain ++ ": " ++ message
    ++ ". Try using a specific dataset ID or check if the dataset name is correct.".

Definition publishingScheduleGetTool_handler (env : Env) (args : ScheduleArgs) : M string :=
  tryCatch
    (if negb (supplied (fxf args)) && negb (supplied (assetName args))
     then throw invalidArguments
     else
       lift (validateDomain (ALLOWED_DOMAINS env) (s_domain args)) ;;;
       match whenTruthy (fxf args) with
       | Some f => directMode env args f
       | None =>
           match whenTruthy (assetName args) with
           | Some n => searchMode env args n
           | None => throw "Implementation error: function ended without return"
           end
       end)
    (fun message => throw (failedToGet (s_domain args) message)).

End PublishingTools.

(* ================================================================== *)
(** * [src/tools/user-tools.ts] *)
(* ================================================================== *)

Module UserTools.

Record UserSearchArgs : Type := {
  u_domain : string;
  u_ids : option StringOrArray;
  emails : option StringOrArray;
  roles : option StringOrArray;
  disabled : option bool;
  future : option bool;
  u_limit : Z;
  u_offset : Z
}.

Record TeamSearchArgs : Type := {
  t_domain : string;
  t_ids : option StringOrArray;
  names : option StringOrArray;
  t_limit : Z;
  t_offset : Z
}.

(** [if (param) url.searchParams.append(k, param)]. *)
Definition appendIfTruthy (k : string) (param : option string)
  (searchParams : list (string * string)) : list (string * string) :=
  match param with
  | Some s => if s =? "" then searchParams else (searchParams ++ [(k, s)])%list
  | None => searchParams
  end.

(** [if (flag !== undefined) url.searchParams.append(k, flag ? 't' : 'f')]. *)
Definition appendFlag (k : string) (flag : option bool)
  (searchParams : list (string * string)) : list (string * string) :=
  match flag with
  | Some b => (searchParams ++ [(k, if b then "t" else "f")])%list
  | None => searchParams
  end.

(** Lines 36-53 of [userSearchTool]: the query parameters appended to the
    request URL, in order. *)
Definition userSearchParams (args : UserSearchArgs) : list (string * string) :=
  let searchParams := [("domain", u_domain args)] in
  let idsParam := normalizeToCommaSeparated (u_ids args) in
  let searchParams := appendIfTruthy "ids" idsParam searchParams in
  let emailsParam := normalizeToCommaSeparated (emails args) in
  let searchParams := appendIfTruthy "emails" emailsParam searchParams in
  let rolesParam := normalizeToCommaSeparated (roles args) in
  let searchParams := appendIfTruthy "roles" rolesParam searchParams in
  let searchParams := appendFlag "disabled" (disabled args) searchParams in
  let searchParams := appendFlag "future" (future args) searchParams in
  (searchParams ++ [("limit", numberToString (u_limit args));
                    ("offset", numberToString (u_offset args))])%list.

(** Lines 98-107 of [teamSearchTool]. *)
Definition teamSearchParams (args : TeamSearchArgs) : list (string * string) :=
  let searchParams := [("domain", t_domain args)] in
  let idsParam := normalizeToCommaSeparated (t_ids args) in
  let searchParams := appendIfTruthy "ids" idsParam searchParams in
  let namesParam := normalizeToCommaSeparated (names args) in
  let searchParams := appendIfTruthy "names" namesParam searchParams in
  (searchParams ++ [("limit", numberToString (t_limit args));
                    ("offset", numberToString (t_offset args))])%list.

End UserTools.

(* ================================================================== *)
(** * [src/tools/catalog-tools.ts] *)
(* ================================================================== *)

Module CatalogTools.

Inductive ResourceType : Type := datasets | filters | files.

Definition typeText (t : ResourceType) : string :=
  match t with
  | datasets => "dataset"
  | filters => "filter"
  | files => "file"
  end.

Record CatalogArgs : Type := {
  c_domain : string;
  c_type : ResourceType;
  category : option string;
  c_format : Format;
  c_detail : Detail
}.

(** Lines 31-34: the listing URL, with the category when it is truthy. *)
Definition catalogGetUrl (domain : string) (t : ResourceType) (category : option string)
  : string :=
  let url := "https://" ++ domain ++ "/api/catalog/v1?domains=" ++ domain
               ++ "&only=" ++ typeText t in
  match PublishingTools.whenTruthy category with
  | Some c => url ++ "&categories=" ++ PublishingTools.encodeURIComponent c
  | None => url
  end.

(** The text of a result: the heading is only built for markdown. *)
Definition present (fmt : Format) (heading : M string) (formatted : value) : M string :=
  match fmt with
  | markdown => h <- heading ;; ret (render markdown h formatted)
  | json => ret (render json "" formatted)
  end.

Definition catalogGetTool_handler (env : Env) (args : CatalogArgs) : M string :=
  let domain := c_domain args in
  tryCatch
    (lift (validateDomain (ALLOWED_DOMAINS env) domain) ;;;
     response <- socrataGet env (catalogGetUrl domain (c_type args) (category args)) ;;
     formatted <- lift (formatResponse response
                          {| format := Some (c_format args);
                             detail := Some (c_detail args) |}) ;;
     present (c_format args)
       (resultSetSize <- lift (getProp response "resultSetSize") ;;
        results <- lift (toString (or_else resultSetSize (Num 0))) ;;
        ret ("# Catalog Results" ++ newline ++ newline
               ++ "**Domain:** " ++ domain ++ newline
               ++ "**Type:** " ++ typeText (c_type args) ++ newline
               ++ "**Category:** "
               ++ match PublishingTools.whenTruthy (category args) with
                  | Some c => c
                  | None => "All"
                  end ++ newline
               ++ "**Results:** " ++ results))
       formatted)
    (fun message =>
       throw ("Failed to get catalog from " ++ domain ++ ": " ++ message
                ++ ". Try checking if the domain is accessible or adjust your filters.")).

Inductive Visibility : Type := open | private | internal.

Definition visibilityText (v : Visibility) : string :=
  match v with
  | open => "open"
  | private => "private"
  | internal => "internal"
  end.

Inductive Order : Type := relevance | byName | createdAt | updatedAt | page_views_last_month.

Definition orderText (o : Order) : string :=
  match o with
  | relevance => "relevance"
  | byName => "name"
  | createdAt => "createdAt"
  | updatedAt => "updatedAt"
  | page_views_last_month => "page_views_last_month"
  end.

Record CatalogSearchArgs : Type := {
  cs_domain : string;
  q : option string;
  categories : option (list string);
  tags : option (list string);
  attribution : option string;
  provenance : option string;
  visibility : option Visibility;
  order : Order;
  cs_limit : Z;
  cs_offset : Z
}.

(** [if (l && l.length > 0) url.searchParams.append(k, l.join(','))]. *)
Definition appendJoined (k : string) (l : option (list string))
  (searchParams : list (string * string)) : list (string * string) :=
  match l with
  | Some (x :: rest) => (searchParams ++ [(k, join "," (x :: rest))])%list
  | _ => searchParams
  end.

(** Lines 84-101 of [catalogSearchTool]: the query parameters appended to
    the request URL, in order. *)
Definition catalogSearchParams (args : CatalogSearchArgs) : list (string * string) :=
  let searchParams := [("domains", cs_domain args)] in
  let searchParams := UserTools.appendIfTruthy "q" (q args) searchParams in
  let searchParams := appendJoined "categories" (categories args) searchParams in
  let searchParams := appendJoined "tags" (tags args) searchParams in
  let searchParams := UserTools.appendIfTruthy "attribution" (attribution args) searchParams in
  let searchParams := UserTools.appendIfTruthy "provenance" (provenance args) searchParams in
  let searchParams :=
    UserTools.appendIfTruthy "visibility" (option_map visibilityText (visibility args))
      searchParams in
  (searchParams ++ [("order", orderText (order args));
                    ("limit", numberToString (cs_limit args));
                    ("offset", numberToString (cs_offset args))])%list.

End CatalogTools.

(* ================================================================== *)
(** * [src/tools/asset-tools.ts]: the read tools *)
(* ================================================================== *)

Module AssetReadTools.

Record AssetArgs : Type := {
  a_domain : string;
  a_assetId : string;
  a_format : Format;
  a_detail : Detail
}.

Definition assetMetadataGetTool_handler (env : Env) (args : AssetArgs) : M string :=
  let domain := a_domain args in
  let assetId := a_assetId args in
  tryCatch
    (lift (validateDomain (ALLOWED_DOMAINS env) domain) ;;;
     metadata <- socrataGet env (AssetTools.viewUrl domain assetId) ;;
     formatted <- lift (formatResponse metadata
                          {| format := Some (a_format args);
                             detail := Some (a_detail args) |}) ;;
     CatalogTools.present (a_format args)
       (name <- lift (getProp metadata "name") ;;
        nameText <- lift (toString (or_else name (Str "Unknown"))) ;;
        description <- lift (getProp metadata "description") ;;
        descriptionText <- lift (toString (or_else description (Str "None"))) ;;
        ret ("# Dataset Metadata" ++ newline ++ newline
               ++ "**Domain:** " ++ domain ++ newline
               ++ "**Asset ID:** " ++ assetId ++ newline
               ++ "**Name:** " ++ nameText ++ newline
               ++ "**Description:** " ++ descriptionText))
       formatted)
    (fun message =>
       throw ("Failed to get metadata for asset " ++ assetId ++ " on " ++ domain
                ++ ": " ++ message
                ++ ". Check if the asset ID is correct and publicly accessible.")).

(** [Array.isArray(users) ? users.length : 'Unknown']. *)
Definition usersWithAccess (users : value) : string :=
  match users with
  | Arr l => numberToString (Z.of_nat (List.length l))
  | _ => "Unknown"
  end.

Definition assetPermissionsGetTool_handler (env : Env) (args : AssetArgs) : M string :=
  let domain := a_domain args in
  let assetId := a_assetId args in
  tryCatch
    (lift (validateDomain (ALLOWED_DOMAINS env) domain) ;;;
     permissions <- socrataGet env (AssetTools.permissionsUrl domain assetId) ;;
     formatted <- lift (formatResponse permissions
                          {| format := Some (a_format args);
                             detail := Some (a_detail args) |}) ;;
     CatalogTools.present (a_format args)
       (scope <- lift (getProp permissions "scope") ;;
        scopeText <- lift (toString (or_else scope (Str "Unknown"))) ;;
        users <- lift (getProp permissions "users") ;;
        ret ("# Asset Permissions" ++ newline ++ newline
               ++ "**Domain:** " ++ domain ++ newline
               ++ "**Asset ID:** " ++ assetId ++ newline
               ++ "**Scope:** " ++ scopeText ++ newline
               ++ "**Users with Access:** " ++ usersWithAccess users))
       formatted)
    (fun message =>
       throw ("Failed to get permissions for asset " ++ assetId ++ " on " ++ domain
                ++ ": " ++ message
                ++ ". Check if you have permission to view access settings for this asset.")).

End AssetReadTools.

(* ================================================================== *)
(** * [src/tools/user-tools.ts]: roles *)
(* ================================================================== *)

Module UserRoleTools.

Record RolesGetArgs : Type := {
  g_domain : string;
  g_userId : string;
  g_format : Format;
  g_detail : Detail
}.

Record RolesUpdateArgs : Type := {
  r_domain : string;
  r_userId : string;
  roles : list string;
  r_format : Format
}.

Definition rolesUrl (domain userId : string) : string :=
  "https://" ++ domain ++ "/api/catalog/v1/users/" ++ userId ++ "/roles".

Definition userRolesGetTool_handler (env : Env) (args : RolesGetArgs) : M string :=
  let domain := g_domain args in
  let userId := g_userId args in
  tryCatch
    (lift (validateDomain (ALLOWED_DOMAINS env) domain) ;;;
     roles <- socrataGet env (rolesUrl domain userId) ;;
     formatted <- lift (formatResponse roles
                          {| format := Some (g_format args);
                             detail := Some (g_detail args) |}) ;;
     ret (render (g_format args)
            ("# User Roles" ++ newline ++ newline
               ++ "**Domain:** " ++ domain ++ newline
               ++ "**User ID:** " ++ userId)
            formatted))
    (fun message =>
       throw ("Failed to get roles for user " ++ userId ++ " on " ++ domain
                ++ ": " ++ message
                ++ ". Check if the user exists and you have permission to view their roles.")).

(** The body of the write: [{ roles }]. *)
Definition rolesBody (roles : list string) : value :=
  Obj [("roles", Arr (map Str roles))].

Definition userRolesUpdateTool_handler (env : Env) (args : RolesUpdateArgs) : M string :=
  let domain := r_domain args in
  let userId := r_userId args in
  tryCatch
    (lift (validateDomain (ALLOWED_DOMAINS env) domain) ;;;
     result <- socrataPut env (rolesUrl domain userId) (rolesBody (roles args)) ;;
     formatted <- lift (formatResponse result
                          {| format := Some (r_format args); detail := None |}) ;;
     ret (render (r_format args)
            ("# User Roles Updated" ++ newline ++ newline
               ++ "**Domain:** " ++ domain ++ newline
               ++ "**User ID:** " ++ userId ++ newline
               ++ "**New Roles:** " ++ join ", " (roles args) ++ newline
               ++ "**Status:** Success")
            formatted))
    (fun message =>
       throw ("Failed to update roles for user " ++ userId ++ " on " ++ domain
                ++ ": " ++ message
                ++ ". Check if you have admin permissions and the roles are valid for this domain.")).

End UserRoleTools.

(* ================================================================== *)
(** * [src/tools/workflow-tools.ts] *)
(* ================================================================== *)

Module WorkflowTools.

Record ContextGetArgs : Type := {
  w_domain : string;
  w_workflowId : string;
  w_format : Format;
  w_detail : Detail
}.

Record ContextUpdateArgs : Type := {
  wu_domain : string;
  wu_workflowId : string;
  context : list (string * value);
  wu_format : Format
}.

Definition contextUrl (domain workflowId : string) : string :=
  "https://" ++ domain ++ "/api/catalog/v1/workflows/" ++ workflowId ++ "/context".

Definition getWorkflowContext (env : Env) (domain workflowId : string) : M value :=
  lift (validateDomain (ALLOWED_DOMAINS env) domain) ;;;
  socrataGet env (contextUrl domain workflowId).

Definition updateWorkflowContext (env : Env) (domain workflowId : string)
  (context : value) : M value :=
  lift (validateDomain (ALLOWED_DOMAINS env) domain) ;;;
  socrataPut env (contextUrl domain workflowId) context.

Definition workflowContextGetTool_handler (env : Env) (args : ContextGetArgs) : M string :=
  let domain := w_domain args in
  let workflowId := w_workflowId args in
  tryCatch
    (lift (validateDomain (ALLOWED_DOMAINS env) domain) ;;;
     context <- getWorkflowContext env domain workflowId ;;
     formatted <- lift (formatResponse context
                          {| format := Some (w_format args);
                             detail := Some (w_detail args) |}) ;;
     CatalogTools.present (w_format args)
       (status <- lift (getProp context "status") ;;
        statusText <- lift (toString (or_else status (Str "Unknown"))) ;;
        ret ("# Workflow Context" ++ newline ++ newline
               ++ "**Domain:** " ++ domain ++ newline
               ++ "**Workflow ID:** " ++ workflowId ++ newline
               ++ "**Status:** " ++ statusText))
       formatted)
    (fun message =>
       throw ("Failed to get workflow context for " ++ workflowId ++ " on " ++ domain
                ++ ": " ++ message
                ++ ". Check if the workflow ID is correct and you have permission to access workflow information.")).

Definition workflowContextUpdateTool_handler (env : Env) (args : ContextUpdateArgs)
  : M string :=
  let domain := wu_domain args in
  let workflowId := wu_workflowId args in
  tryCatch
    (lift (validateDomain (ALLOWED_DOMAINS env) domain) ;;;
     result <- updateWorkflowContext env domain workflowId (Obj (context args)) ;;
     formatted <- lift (formatResponse result
                          {| format := Some (wu_format args); detail := None |}) ;;
     ret (render (wu_format args)
            ("# Workflow Context Updated" ++ newline ++ newline
               ++ "**Domain:** " ++ domain ++ newline
               ++ "**Workflow ID:** " ++ workflowId ++ newline
               ++ "**Status:** Success" ++ newline
               ++ "**Updated Fields:** " ++ join ", " (map fst (context args)))
            formatted))
    (fun message =>
       throw ("Failed to update workflow context for " ++ workflowId ++ " on " ++ domain
                ++ ": " ++ message
                ++ ". Check if you have permission to modify workflows and the context data is valid.")).

End WorkflowTools.

(* ================================================================== *)
(** * [src/tools/activity-tools.ts] *)
(* ================================================================== *)

Module ActivityTools.

Record ActivityOptions : Type := {
  limit : option Z;
  offset : option Z;
  startDate : option string;
  endDate : option string;
  activityType : option string
}.

(** [if (n) url.searchParams.append(k, n.toString())]: zero is falsy. *)
Definition appendNumber (k : string) (n : option Z)
  (searchParams : list (string * string)) : list (string * string) :=
  match n with
  | Some z => if (z =? 0)%Z then searchParams
              else (searchParams ++ [(k, numberToString z)])%list
  | None => searchParams
  end.

(** Lines 87-94 of [getActivityLog]: the query parameters appended to the
    request URL, in order. *)
Definition activityLogParams (assetId : string) (options : ActivityOptions)
  : list (string * string) :=
  let searchParams := [("asset_id", assetId)] in
  let searchParams := appendNumber "limit" (limit options) searchParams in
  let searchParams := appendNumber "offset" (offset options) searchParams in
  let searchParams := UserTools.appendIfTruthy "start_date" (startDate options) searchParams in
  let searchParams := UserTools.appendIfTruthy "end_date" (endDate options) searchParams in
  UserTools.appendIfTruthy "activity_type" (activityType options) searchParams.

(** Lines 49-55 of the handler: the summary line of the markdown text. *)
Definition activitySummary (fmt : Format) (activityLog : value) (options : ActivityOptions)
  : string :=
  match fmt, activityLog with
  | markdown, Arr entries =>
      let totalEntries := List.length entries in
      let startDate := PublishingTools.whenTruthy (startDate options) in
      let endDate := PublishingTools.whenTruthy (endDate options) in
      let dateRange :=
        match startDate, endDate with
        | None, None => ""
        | _, _ =>
            " (" ++ match startDate with Some d => d | None => "beginning" end
              ++ " to " ++ match endDate with Some d => d | None => "now" end ++ ")"
        end in
      let typeFilter :=
        match PublishingTools.whenTruthy (activityType options) with
        | Some t => " of type " ++ String dquote t ++ String dquote ""
        | None => ""
        end in
      "**Activity Summary:** " ++ numberToString (Z.of_nat totalEntries)
        ++ " entries found" ++ typeFilter ++ dateRange
  | _, _ => ""
  end.

End ActivityTools.

(* ================================================================== *)
(** * Vocabulary of the specification *)
(* ================================================================== *)

(** The value a metadata patch carries for the field [k], if any: only the
    six named fields can be patched. *)
Definition patchValue (args : AssetTools.MetadataArgs) (k : string) : option value :=
  if k =? "name" then option_map Str (AssetTools.name args)
  else if k =? "description" then option_map Str (AssetTools.description args)
  else if k =? "tags" then option_map (fun l => Arr (map Str l)) (AssetTools.tags args)
  else if k =? "category" then option_map Str (AssetTools.category args)
  else if k =? "attribution" then option_map Str (AssetTools.attribution args)
  else if k =? "license" then option_map Str (AssetTools.license args)
  else None.

(** An argument of user or team search that is left out, the empty string
    or the empty array. *)
Definition emptyArgument (value : option StringOrArray) : Prop :=
  value = None \/ value = Some (OneString "") \/ value = Some (ManyStrings []).

(** The query parameter [k] is not part of the request. *)
Definition omitted (k : string) (searchParams : list (string * string)) : Prop :=
  ~ In k (map fst searchParams).

(** ** Per-grant upsert *)

Definition isNullish (v : value) : bool :=
  match v with
  | Undefined | Null => true
  | _ => false
  end.

(** The incoming grant's optional string [x] is given, not empty, and equal
    to the field [k] of the entry [u]. *)
Definition sameFieldOf (x : option string) (u : value) (k : string) : bool :=
  match x with
  | Some s => negb (s =? "") && strictEq (getOwn u k) (Str s)
  | None => false
  end.

(** The entry [u] matches the incoming grant by [id] or by [email]. *)
Definition matchesEntry (newUser : AssetTools.UserPermission) (u : value) : bool :=
  sameFieldOf (AssetTools.id newUser) u "id"
  || sameFieldOf (AssetTools.email newUser) u "email".

Fixpoint firstMatchFrom (newUser : AssetTools.UserPermission) (i : nat)
  (existing : list value) : option nat :=
  match existing with
  | [] => None
  | u :: rest =>
      if matchesEntry newUser u then Some i else firstMatchFrom newUser (S i) rest
  end.

(** Position of the first entry of the pre-merge list that matches. *)
Definition firstMatch (existing : list value) (newUser : AssetTools.UserPermission)
  : option nat :=
  firstMatchFrom newUser 0 existing.

(** The incoming grant [newUser] is aimed at position [j]. *)
Definition aimedAt (target : AssetTools.UserPermission -> option nat) (j : nat)
  (newUser : AssetTools.UserPermission) : bool :=
  match target newUser with
  | Some i => (i =? j)%nat
  | None => false
  end.

Definition unmatched (target : AssetTools.UserPermission -> option nat)
  (newUser : AssetTools.UserPermission) : bool :=
  match target newUser with
  | Some _ => false
  | None => true
  end.

(** One shallow merge of a grant over an entry. *)
Definition mergeOver (u : value) (newUser : AssetTools.UserPermission) : value :=
  Obj (AssetTools.spreadOver (ownEnumerable u) (AssetTools.userFields newUser)).

(** An entry after the grants aimed at it were merged over it, in order. *)
Definition mergedEntry (u : value) (grants : list AssetTools.UserPermission) : value :=
  fold_left mergeOver grants u.

Fixpoint upsertedFrom (target : AssetTools.UserPermission -> option nat) (j : nat)
  (existing : list value) (incoming : list AssetTools.UserPermission) : list value :=
  match existing with
  | [] => []
  | u :: rest =>
      mergedEntry u (filter (aimedAt target j) incoming)
        :: upsertedFrom target (S j) rest incoming
  end.

(** The grant list the upsert is specified to produce: every existing entry
    in its place, with the grants aimed at it merged over it, followed by
    the grants that match no entry. *)
Definition upserted (existing : list value) (incoming : list AssetTools.UserPermission)
  : list value :=
  (upsertedFrom (firstMatch existing) 0 existing incoming
     ++ map AssetTools.userObject (filter (unmatched (firstMatch existing)) incoming))%list.

(** The reading of the upsert under which an [id] match has priority: an
    entry whose [id] is the incoming grant's is the one merged over. *)
Definition idMatchUpdated (existing : list value) (newUser : AssetTools.UserPermission)
  : Prop :=
  forall i j u,
    AssetTools.id newUser = Some i ->
    nth_error existing j = Some u ->
    getOwn u "id" = Str i ->
    exists updated,
      AssetTools.mergeUsers (Arr existing) [newUser] = Ok (Arr updated)
      /\ nth_error updated j = Some (mergeOver u newUser).

(** ** Response shaping *)

Fixpoint repeatChar (c : ascii) (n : nat) : string :=
  match n with
  | O => EmptyString
  | S m => String c (repeatChar c m)
  end.

(** A record with one field of [n] characters; its serialization has
    [n + 13] characters. *)
Definition recordOfSize (n : nat) : value := Obj [("a", Str (repeatChar "x" n))].

(** A record whose serialization has 25,013 characters. *)
Definition longRecord : value := recordOfSize (Z.to_nat 25000).

(** A record that already has a field named [_truncated]. *)
Definition flaggedRecordOfSize (n : nat) : value :=
  Obj [("_truncated", Bool false); ("a", Str (repeatChar "x" n))].

Definition flaggedRecord : value := flaggedRecordOfSize (Z.to_nat 25000).

(** The reading of truncation under which the marker record preserves every
    top-level field of the data. *)
Definition keepsTopLevelFields (data shaped : value) : Prop :=
  forall k v, lookup k (ownEnumerable data) = Some v -> getOwn shaped k = v.

(** The fields the concise view keeps. *)
Definition conciseFields : list string :=
  ["id"; "name"; "title"; "description"; "domain"].

Definition isDefined (v : value) : bool :=
  match v with
  | Undefined => false
  | _ => true
  end.

(** Those of the concise fields that the element has, with its values. *)
Definition presentOf (item : value) : list (string * value) :=
  filter (fun kv => isDefined (snd kv)) (map (fun k => (k, getOwn item k)) conciseFields).

Definition isRecord (item : value) : bool :=
  match item with
  | Obj _ => true
  | _ => false
  end.

Definition conciseOptions : FormatOptions :=
  {| format := None; detail := Some concise |}.

(** The reading of the concise view under which every element that is not a
    record is passed through. *)
Definition nonRecordsPassThrough (items : list value) : Prop :=
  forall shaped i item,
    formatResponse (Arr items) conciseOptions = Ok shaped ->
    nth_error items i = Some item ->
    isRecord item = false ->
    getOwn shaped (indexToString i) = item.

Definition startsWithDigit (s : string) : bool :=
  match s with
  | String c _ => ((48 <=? nat_of_ascii c) && (nat_of_ascii c <=? 57))%nat
  | EmptyString => false
  end.

(** ** Schedule resolver *)

Definition GET (u : string) : Request := {| method := "GET"; url := u; body := None |}.

(** A remote that cannot be reached, and a fixed date format. *)
Definition offlineEnv : Env :=
  {| SOCRATA_DOMAIN := None;
     fetch := fun _ _ => Rejected "fetch failed";
     toLocaleDateString := fun _ => "1/1/2024" |}.

(** The reading of the resolver under which a given [fxf] always wins: every
    request of the call is the schedule request for that identifier. *)
Definition fxfWins (env : Env) (args : PublishingTools.ScheduleArgs) : Prop :=
  forall f req,
    PublishingTools.fxf args = Some f ->
    In req (snd (run (PublishingTools.publishingScheduleGetTool_handler env args))) ->
    req = GET (PublishingTools.scheduleUrl (PublishingTools.s_domain args) f).

(** [asset.resource?.k || asset.k] for an asset that is an object. *)
Definition resourceField (asset : value) (k : string) : value :=
  or_else (getOpt (getOwn asset "resource") k) (getOwn asset k).

(** The [dataset] descriptor of a catalog match. *)
Definition datasetOf (asset : value) : value :=
  Obj [("name", resourceField asset "name"); ("fxf", resourceField asset "id")].

(** The schedule requests of a catalog match: one, when its identifier can
    be converted to a string, and none when it cannot. *)
Definition scheduleRequests (domain : string) (asset : value) : list Request :=
  match toString (resourceField asset "id") with
  | Ok text => [GET (PublishingTools.scheduleUrl domain text)]
  | Throw _ => []
  end.

(** The summary recorded when the schedule of a match cannot be had. *)
Definition failed (asset : value) (message : string) : value :=
  Obj [("dataset", datasetOf asset); ("schedule", Null);
       ("error", Str (PublishingTools.fetchFailed message))].

(** The request fails whenever it is issued. *)
Definition fetchFails (env : Env) (req : Request) : Prop :=
  forall log,
    match fetch env log req with
    | Rejected _ => True
    | Response status _ _ parsed => responseOk status = false \/ exists m, parsed = Throw m
    end.

(** The request returns [data] whenever it is issued. *)
Definition fetchGives (env : Env) (req : Request) (data : value) : Prop :=
  forall log,
    exists status statusText text,
      fetch env log req = Response status statusText text (Ok data)
      /\ responseOk status = true.

(** A summary without schedule: [schedule] is [null] and [error] is a
    non-empty string. *)
Definition failedSummary (summary : value) : Prop :=
  getOwn summary "schedule" = Null
  /\ exists message, getOwn summary "error" = Str message /\ message <> "".

(** A summary with its schedule and the derived text. *)
Definition populatedSummary (summary : value) : Prop :=
  exists dataset schedule text,
    summary = Obj [("dataset", dataset); ("schedule", Obj schedule); ("summary", Str text)].

(** What the summary of one catalog match has to be. *)
Definition summaryOf (env : Env) (domain : string) (asset summary : value) : Prop :=
  getOwn summary "dataset" = datasetOf asset
  /\ (failedSummary summary \/ populatedSummary summary)
  /\ (forall message,
        toString (resourceField asset "id") = Throw message ->
        summary = failed asset message)
  /\ (forall text,
        toString (resourceField asset "id") = Ok text ->
        fetchFails env (GET (PublishingTools.scheduleUrl domain text)) ->
        failedSummary summary)
  /\ (forall text data formatted,
        toString (resourceField asset "id") = Ok text ->
        fetchGives env (GET (PublishingTools.scheduleUrl domain text)) data ->
        truthy data = true ->
        PublishingTools.formatScheduleResponse env data (Some (datasetOf asset))
        = Ok formatted ->
        summary = formatted /\ populatedSummary summary).

(** A catalog with two datasets named alike; the schedule of the first can
    be fetched, the schedule of the second cannot. *)
Definition twoBusDatasets : value :=
  Obj [("results",
        Arr [Obj [("resource",
                   Obj [("type", Str "dataset"); ("name", Str "Bus routes");
                        ("id", Str "aaaa-1111")])];
             Obj [("resource",
                   Obj [("type", Str "dataset"); ("name", Str "Bus stops");
                        ("id", Str "bbbb-2222")])]])].

Definition busEnv : Env :=
  {| SOCRATA_DOMAIN := None;
     fetch := fun _ req =>
       if url req =? PublishingTools.catalogUrl "data.x.org" "bus"
       then Response 200 "OK" "" (Ok twoBusDatasets)
       else if url req =? PublishingTools.scheduleUrl "data.x.org" "aaaa-1111"
       then Response 200 "OK" ""
              (Ok (Obj [("cadence", Str "Daily"); ("enabled", Bool true)]))
       else Response 500 "Internal Server Error" "boom" (Throw "Unexpected token");
     toLocaleDateString := fun _ => "1/1/2024" |}.

(** A call on [data.x.org] that asks for JSON. *)
Definition scheduleArgs (fxf assetName : option string) (d : Detail)
  : PublishingTools.ScheduleArgs :=
  {| PublishingTools.s_domain := "data.x.org";
     PublishingTools.fxf := fxf;
     PublishingTools.assetName := assetName;
     PublishingTools.s_format := json;
     PublishingTools.s_detail := d |}.

Definition busArgs (d : Detail) : PublishingTools.ScheduleArgs :=
  scheduleArgs None (Some "bus") d.


(** ** Strings *)

(** Every character of [s] satisfies [p]. *)
Fixpoint allChars (p : ascii -> bool) (s : string) : bool :=
  match s with
  | EmptyString => true
  | String c rest => p c && allChars p rest
  end.

Definition firstChar (s : string) : option ascii :=
  match s with
  | EmptyString => None
  | String c _ => Some c
  end.

Fixpoint lastChar (s : string) : option ascii :=
  match s with
  | EmptyString => None
  | String c EmptyString => Some c
  | String _ rest => lastChar rest
  end.

(** A name that can stand between commas. *)
Definition commaFree (s : string) : bool :=
  allChars (fun c => negb (Ascii.eqb c ",")) s.

(** A character [encodeURIComponent] may produce. *)
Definition uriSafe (c : ascii) : bool :=
  PublishingTools.isUnreserved (nat_of_ascii c) || Ascii.eqb c "%".

Definition unreservedChar (c : ascii) : bool :=
  PublishingTools.isUnreserved (nat_of_ascii c).

(** ** Requests *)

(** A request that only reads. *)
Definition isGet (req : Request) : bool :=
  (method req =? "GET")
  && match body req with
     | None => true
     | Some _ => false
     end.

Definition PUT (u : string) (data : value) : Request :=
  {| method := "PUT"; url := u; body := stringify data |}.

(** Whatever log a computation starts from, it only adds reading
    requests. *)
Definition readsOnly {A} (c : M A) : Prop :=
  forall log, forallb isGet log = true -> forallb isGet (snd (c log)) = true.

(** The names of the nine fields of a formatted schedule. *)
Definition scheduleFields : list string :=
  ["cadence"; "status"; "enabled"; "lastRun"; "nextRun"; "rowCount"; "owner";
   "frequency"; "timezone"].

(** The text of a date field of a schedule that can be converted. *)
Definition dateText (env : Env) (v : value) (missing : string) : string :=
  if truthy v then toLocaleDateString env v else missing.

(** The default of each field of a formatted schedule. *)
Definition scheduleDefault (k : string) : value :=
  if (k =? "cadence") then Str "Manual/None"
  else if (k =? "status") || (k =? "owner") then Str "Unknown"
  else if (k =? "enabled") then Bool false
  else if (k =? "rowCount") then Num 0
  else Null.

(** The value can be converted to a string. *)
Definition printable (v : value) : bool :=
  match toString v with
  | Ok _ => true
  | Throw _ => false
  end.

(** The schedule a payload is formatted to: every field the payload has
    with a truthy value, and the default for every other. *)
Definition scheduleOfData (scheduleData : value) : value :=
  Obj [("cadence", or_else (getOwn scheduleData "cadence") (Str "Manual/None"));
       ("status", or_else (getOwn scheduleData "status") (Str "Unknown"));
       ("enabled", or_else (getOwn scheduleData "enabled") (Bool false));
       ("lastRun", or_else (getOwn scheduleData "lastRun") Null);
       ("nextRun", or_else (getOwn scheduleData "nextRun") Null);
       ("rowCount", or_else (getOwn scheduleData "rowCount") (Num 0));
       ("owner", or_else (getOwn scheduleData "owner") (Str "Unknown"));
       ("frequency", or_else (getOwn scheduleData "frequency") Null);
       ("timezone", or_else (getOwn scheduleData "timezone") Null)].

(** The summary of a payload, told from the payload's own fields: manual
    when it is not enabled or has no cadence; otherwise the two dates are
    converted, then the cadence is put in lower case, and each of the three
    steps can fail. *)
Definition summaryOfData (env : Env) (scheduleData : value) : result string :=
  let cadence := getOwn scheduleData "cadence" in
  if negb (truthy (getOwn scheduleData "enabled")) || negb (truthy cadence)
     || strictEq cadence (Str "Manual/None")
  then Ok PublishingTools.manualSummary
  else
    bindR (PublishingTools.dateOr env (getOwn scheduleData "lastRun") "Unknown")
      (fun lastUpdate =>
    bindR (PublishingTools.dateOr env (getOwn scheduleData "nextRun") "Not scheduled")
      (fun nextUpdate =>
      match cadence with
      | Str c =>
          Ok ("Updates " ++ PublishingTools.toLowerCase c
                ++ ", last updated: " ++ lastUpdate ++ ", next update: " ++ nextUpdate)
      | _ => Throw "schedule.cadence.toLowerCase is not a function"
      end)).



(** A catalog whose second dataset has an identifier that cannot be put
    into a URL. *)
Definition oddIdDatasets : value :=
  Obj [("results",
        Arr [Obj [("resource",
                   Obj [("type", Str "dataset"); ("name", Str "Bus routes");
                        ("id", Str "aaaa-1111")])];
             Obj [("resource",
                   Obj [("type", Str "dataset"); ("name", Str "Bus stops");
                        ("id", Obj [("toString", Num 1)])])]])].

Definition oddIdEnv : Env :=
  {| SOCRATA_DOMAIN := None;
     fetch := fun _ _ => Response 200 "OK" "" (Ok oddIdDatasets);
     toLocaleDateString := fun _ => "1/1/2024" |}.

(** No control character: nothing below U+0020. *)
Definition notControl (c : ascii) : bool := (32 <=? nat_of_ascii c)%nat.

(** The call is refused before any request is made. *)
Definition refusedUnrequested {A} (c : M A) : Prop :=
  exists message, run c = (Throw message, []).

(** The incoming grant carries neither a usable [id] nor a usable
    [email]. *)
Definition anonymous (newUser : AssetTools.UserPermission) : bool :=
  negb (PublishingTools.supplied (AssetTools.id newUser))
  && negb (PublishingTools.supplied (AssetTools.email newUser)).

(** A remote that answers every request with the same document. *)
Definition constantEnv (document : value) : Env :=
  {| SOCRATA_DOMAIN := None;
     fetch := fun _ _ => Response 200 "OK" "" (Ok document);
     toLocaleDateString := fun _ => "1/1/2024" |}.

Definition renameArgs (name : string) : AssetTools.MetadataArgs :=
  {| AssetTools.m_domain := "data.x.org"; AssetTools.m_assetId := "abcd-1234";
     AssetTools.name := Some name; AssetTools.description := None;
     AssetTools.tags := None; AssetTools.category := None;
     AssetTools.attribution := None; AssetTools.license := None;
     AssetTools.m_format := json |}.

(** ** Outcomes of the read tools *)

(** The call returns a text. *)
Definition returns {A} (r : result A) : bool :=
  match r with
  | Ok _ => true
  | Throw _ => false
  end.

(** Every read of the remote is answered with the same document and a
    status of the 2xx range. *)
Definition answers (env : Env) (document : value) : Prop :=
  forall u, exists status statusText text,
    fetch env [] (GET u) = Response status statusText text (Ok document)
    /\ responseOk status = true.

Definition nullBodyArgs (fmt : Format) : AssetReadTools.AssetArgs :=
  {| AssetReadTools.a_domain := "data.x.org"; AssetReadTools.a_assetId := "abcd-1234";
     AssetReadTools.a_format := fmt; AssetReadTools.a_detail := detailed |}.

(** ** Query parameters *)

(** A parameter of the name [k] is part of the query. *)
Definition sent (k : string) (searchParams : list (string * string)) : bool :=
  includes (map fst searchParams) k.

(** No name occurs twice. *)
Fixpoint distinct (names : list string) : bool :=
  match names with
  | [] => true
  | k :: rest => negb (includes rest k) && distinct rest
  end.

(** A number that is given and not zero. *)
Definition nonZero (n : option Z) : bool :=
  match n with
  | Some z => negb (z =? 0)%Z
  | None => false
  end.

(** A list that is given and not empty. *)
Definition nonEmpty (l : option (list string)) : bool :=
  match l with
  | Some (_ :: _) => true
  | _ => false
  end.

Definition given {A} (x : option A) : bool :=
  match x with
  | Some _ => true
  | None => false
  end.

Definition grantRoles (newRoles : list string) : UserRoleTools.RolesUpdateArgs :=
  {| UserRoleTools.r_domain := "data.x.org"; UserRoleTools.r_userId := "u1";
     UserRoleTools.roles := newRoles; UserRoleTools.r_format := json |}.

(* ================================================================== *)
(** * Properties *)
(* ================================================================== *)

Example stringify2_sample :
  stringify2 (Obj [("a", Num 1); ("u", Undefined); ("l", Arr [Str "x"; Undefined; Arr []])])
  = Some ("{" ++ newline ++ "  " ++ quote "a" ++ ": 1," ++ newline
          ++ "  " ++ quote "l" ++ ": [" ++ newline
          ++ "    " ++ quote "x" ++ "," ++ newline
          ++ "    null," ++ newline
          ++ "    []" ++ newline
          ++ "  ]" ++ newline ++ "}").
Proof. reflexivity. Qed.

(** ** Records as association lists *)

Section Fields.

Implicit Types (k : string) (v : value) (fs : list (string * value)).

Lemma lookup_setProp_same k v fs : lookup k (setProp k v fs) = Some v.
Proof.
  induction fs as [|[k' v'] fs IH]; simpl.
  - now rewrite String.eqb_refl.
  - destruct (k' =? k) eqn:E; simpl.
    + now rewrite String.eqb_refl.
    + now rewrite E.
Qed.

Lemma lookup_setProp_other k k' v fs :
  k <> k' -> lookup k' (setProp k v fs) = lookup k' fs.
Proof.
  intros Hk. induction fs as [|[k0 v0] fs IH]; simpl.
  - destruct (k =? k') eqn:E; [apply String.eqb_eq in E; contradiction | reflexivity].
  - destruct (k0 =? k) eqn:E; simpl.
    + apply String.eqb_eq in E. subst k0.
      destruct (k =? k') eqn:E'; [apply String.eqb_eq in E'; contradiction | reflexivity].
    + now rewrite IH.
Qed.

(** Assignment keeps every property where it was; at most one name is
    added, at the end. *)
Lemma setProp_keys k v fs :
  map fst (setProp k v fs)
  = if existsb (String.eqb k) (map fst fs) then map fst fs
    else (map fst fs ++ [k])%list.
Proof.
  induction fs as [|[k0 v0] fs IH]; simpl; [reflexivity|].
  rewrite (String.eqb_sym k k0).
  destruct (k0 =? k) eqn:E; simpl.
  - apply String.eqb_eq in E. now subst.
  - rewrite IH. now destruct (existsb (String.eqb k) (map fst fs)).
Qed.

Lemma lookup_app_l k fs gs x :
  lookup k fs = Some x -> lookup k (fs ++ gs)%list = Some x.
Proof.
  induction fs as [|[k0 v0] fs IH]; simpl; [discriminate|].
  destruct (k0 =? k); auto.
Qed.

Lemma lookup_app_r k fs gs :
  lookup k fs = None -> lookup k (fs ++ gs)%list = lookup k gs.
Proof.
  induction fs as [|[k0 v0] fs IH]; simpl; [reflexivity|].
  destruct (k0 =? k); [discriminate | auto].
Qed.

End Fields.

(** ** Domain guard *)

Lemma includes_In allowed domain : includes allowed domain = true <-> In domain allowed.
Proof.
  unfold includes. rewrite existsb_exists. split.
  - intros (x & Hx & E). apply String.eqb_eq in E. now subst.
  - intros H. exists domain. split; [assumption | apply String.eqb_refl].
Qed.

(** C9.  With an empty allowlist, or one that holds the domain as the very
    same string, [validateDomain] succeeds; with a non-empty allowlist that
    does not hold it, [validateDomain] throws the allowlist error, whose
    message quotes the rejected domain and lists the whole allowlist. *)
Theorem validateDomain_allowlist (allowed : list string) (domain : string) :
  (allowed = [] \/ In domain allowed -> validateDomain allowed domain = Ok tt)
  /\ (allowed <> [] /\ ~ In domain allowed ->
      validateDomain allowed domain
      = Throw ("Domain " ++ String dquote domain ++ String dquote
                 " is not in the allowlist. Allowed domains: " ++ join ", " allowed)).
Proof.
  unfold validateDomain. split.
  - intros [-> | Hin]; [reflexivity|].
    apply includes_In in Hin. rewrite Hin. simpl. now rewrite andb_false_r.
  - intros [Hne Hnot].
    destruct allowed as [|a allowed]; [contradiction|].
    destruct (includes (a :: allowed) domain) eqn:E.
    + apply includes_In in E. contradiction.
    + reflexivity.
Qed.

Lemma validateDomain_allowlist_witness :
  validateDomain ["data.x.org"] "data.x.org" = Ok tt
  /\ validateDomain [] "data.y.org" = Ok tt
  /\ validateDomain ["data.x.org"] "data.y.org"
     = Throw ("Domain " ++ String dquote "data.y.org" ++ String dquote
                " is not in the allowlist. Allowed domains: data.x.org").
Proof.
  split; [|split].
  - apply (validateDomain_allowlist ["data.x.org"] "data.x.org"). right. simpl. auto.
  - apply (validateDomain_allowlist [] "data.y.org"). left. reflexivity.
  - apply (validateDomain_allowlist ["data.x.org"] "data.y.org"). split.
    + discriminate.
    + simpl. intros [H | []]. discriminate.
Defined.

(** The allowlist test is case-sensitive and does no normalisation. *)
Example validateDomain_case_sensitive :
  validateDomain ["data.x.org"] "Data.X.org" <> Ok tt
  /\ validateDomain ["data.x.org"] "data.x.org " <> Ok tt
  /\ validateDomain ["*.x.org"] "data.x.org" <> Ok tt.
Proof. repeat split; discriminate. Qed.

(** ** Comma-separated arguments *)

Lemma omitted_appendIfTruthy k k' param searchParams :
  omitted k searchParams -> (k' <> k \/ param = None) ->
  omitted k (UserTools.appendIfTruthy k' param searchParams).
Proof.
  unfold omitted, UserTools.appendIfTruthy. intros H Hk.
  destruct param as [s|]; [|assumption].
  destruct (s =? ""); [assumption|].
  rewrite map_app, in_app_iff. simpl.
  destruct Hk as [Hk | Hk]; [|discriminate]. intuition.
Qed.

Lemma omitted_appendFlag k k' flag searchParams :
  omitted k searchParams -> k' <> k ->
  omitted k (UserTools.appendFlag k' flag searchParams).
Proof.
  unfold omitted, UserTools.appendFlag. intros H Hk.
  destruct flag; [|assumption].
  rewrite map_app, in_app_iff. simpl. intuition.
Qed.

Lemma omitted_paging k searchParams l o :
  omitted k searchParams -> "limit" <> k -> "offset" <> k ->
  omitted k (searchParams ++ [("limit", l); ("offset", o)])%list.
Proof.
  unfold omitted. intros H H1 H2. rewrite map_app, in_app_iff. simpl. intuition.
Qed.

Lemma normalize_empty value :
  emptyArgument value -> normalizeToCommaSeparated value = None.
Proof. now intros [-> | [-> | ->]]. Qed.

Local Ltac omit_step :=
  first [ apply omitted_paging; [|discriminate|discriminate]
        | apply omitted_appendFlag; [|discriminate]
        | apply omitted_appendIfTruthy;
          [|first [left; discriminate | right; apply normalize_empty; assumption]] ].

(** C10.  [normalizeToCommaSeparated] sends a missing argument, the empty
    string and the empty array to [undefined]; a non-empty array is joined
    with commas in element order and a non-empty string is returned as it
    is.  In user and team search an empty [ids], [emails], [roles] or
    [names] argument therefore leaves that query parameter out of the
    request. *)
Theorem normalizeToCommaSeparated_empty_omitted :
  normalizeToCommaSeparated None = None
  /\ normalizeToCommaSeparated (Some (OneString "")) = None
  /\ normalizeToCommaSeparated (Some (ManyStrings [])) = None
  /\ (forall l, l <> [] ->
        normalizeToCommaSeparated (Some (ManyStrings l)) = Some (String.concat "," l))
  /\ (forall s, s <> "" -> normalizeToCommaSeparated (Some (OneString s)) = Some s)
  /\ (forall args,
        (emptyArgument (UserTools.u_ids args) ->
         omitted "ids" (UserTools.userSearchParams args))
        /\ (emptyArgument (UserTools.emails args) ->
            omitted "emails" (UserTools.userSearchParams args))
        /\ (emptyArgument (UserTools.roles args) ->
            omitted "roles" (UserTools.userSearchParams args)))
  /\ (forall args,
        (emptyArgument (UserTools.t_ids args) ->
         omitted "ids" (UserTools.teamSearchParams args))
        /\ (emptyArgument (UserTools.names args) ->
            omitted "names" (UserTools.teamSearchParams args))).
Proof.
  split; [reflexivity|]. split; [reflexivity|]. split; [reflexivity|].
  split. { intros [|x l] H; [contradiction | reflexivity]. }
  split.
  { intros s H. simpl. destruct (s =? "") eqn:E; [|reflexivity].
    apply String.eqb_eq in E. contradiction. }
  split; intros args; repeat split; intros H;
    unfold UserTools.userSearchParams, UserTools.teamSearchParams;
    repeat omit_step; unfold omitted; simpl; intuition discriminate.
Qed.

Lemma normalizeToCommaSeparated_empty_omitted_witness :
  normalizeToCommaSeparated (Some (ManyStrings ["a"; "b"; "c"])) = Some "a,b,c"
  /\ normalizeToCommaSeparated (Some (OneString "a,b")) = Some "a,b"
  /\ UserTools.userSearchParams
       {| UserTools.u_domain := "data.x.org";
          UserTools.u_ids := Some (ManyStrings []);
          UserTools.emails := Some (ManyStrings ["a@x.org"; "b@x.org"]);
          UserTools.roles := Some (OneString "");
          UserTools.disabled := Some false;
          UserTools.future := None;
          UserTools.u_limit := 100;
          UserTools.u_offset := 0 |}
     = [("domain", "data.x.org"); ("emails", "a@x.org,b@x.org");
        ("disabled", "f"); ("limit", "100"); ("offset", "0")]
  /\ omitted "ids"
       (UserTools.userSearchParams
          {| UserTools.u_domain := "data.x.org";
             UserTools.u_ids := Some (ManyStrings []);
             UserTools.emails := Some (ManyStrings ["a@x.org"; "b@x.org"]);
             UserTools.roles := Some (OneString "");
             UserTools.disabled := Some false;
             UserTools.future := None;
             UserTools.u_limit := 100;
             UserTools.u_offset := 0 |}).
Proof.
  destruct normalizeToCommaSeparated_empty_omitted
    as (_ & _ & _ & Harr & Hstr & Huser & _).
  split; [|split; [|split]].
  - apply (Harr ["a"; "b"; "c"]). discriminate.
  - apply (Hstr "a,b"). discriminate.
  - reflexivity.
  - apply Huser. simpl. right. right. reflexivity.
Defined.

(** ** Metadata merge *)

Lemma lookup_assign k x o k' :
  lookup k' (AssetTools.assign k x o)
  = if k' =? k then match x with Some v => Some v | None => lookup k' o end
    else lookup k' o.
Proof.
  unfold AssetTools.assign.
  destruct (k' =? k) eqn:E.
  - apply String.eqb_eq in E. subst k'.
    destruct x; [apply lookup_setProp_same | reflexivity].
  - destruct x; [|reflexivity].
    apply lookup_setProp_other. intros ->. now rewrite String.eqb_refl in E.
Qed.

(** C4.  The merged metadata document is the fetched document with the
    patch laid over it: a field the patch defines takes the patch's value,
    and every other field - one of the six left undefined, or any field the
    remote defines besides them - keeps the value it had. *)
Theorem mergeMetadata_sparse (currentMetadata : value) (args : AssetTools.MetadataArgs) :
  exists merged,
    AssetTools.mergeMetadata currentMetadata args = Obj merged
    /\ forall k,
         lookup k merged
         = match patchValue args k with
           | Some v => Some v
           | None => lookup k (ownEnumerable currentMetadata)
           end.
Proof.
  eexists. split; [reflexivity|].
  intros k. rewrite !lookup_assign. unfold patchValue.
  destruct (k =? "name") eqn:E1;
    [apply String.eqb_eq in E1; subst k; simpl;
     destruct (AssetTools.name args); reflexivity|].
  destruct (k =? "description") eqn:E2;
    [apply String.eqb_eq in E2; subst k; simpl;
     destruct (AssetTools.description args); reflexivity|].
  destruct (k =? "tags") eqn:E3;
    [apply String.eqb_eq in E3; subst k; simpl;
     destruct (AssetTools.tags args); reflexivity|].
  destruct (k =? "category") eqn:E4;
    [apply String.eqb_eq in E4; subst k; simpl;
     destruct (AssetTools.category args); reflexivity|].
  destruct (k =? "attribution") eqn:E5;
    [apply String.eqb_eq in E5; subst k; simpl;
     destruct (AssetTools.attribution args); reflexivity|].
  destruct (k =? "license") eqn:E6;
    [apply String.eqb_eq in E6; subst k; simpl;
     destruct (AssetTools.license args); reflexivity|].
  reflexivity.
Qed.

(** The example of the specification: only [name] is patched. *)
Example mergeMetadata_sample :
  AssetTools.mergeMetadata
    (Obj [("name", Str "A"); ("description", Str "d")])
    {| AssetTools.m_domain := "data.x.org"; AssetTools.m_assetId := "abcd-1234";
       AssetTools.name := Some "B"; AssetTools.description := None;
       AssetTools.tags := None; AssetTools.category := None;
       AssetTools.attribution := None; AssetTools.license := None;
       AssetTools.m_format := json |}
  = Obj [("name", Str "B"); ("description", Str "d")].
Proof. reflexivity. Qed.

(** What the handler writes back is the merged document. *)
Lemma assetMetadataUpdate_puts_merged env args current status statusText text :
  validateDomain (ALLOWED_DOMAINS env) (AssetTools.m_domain args) = Ok tt ->
  fetch env []
    {| method := "GET";
       url := AssetTools.viewUrl (AssetTools.m_domain args) (AssetTools.m_assetId args);
       body := None |}
  = Response status statusText text (Ok current) ->
  responseOk status = true ->
  snd (run (AssetTools.assetMetadataUpdateTool_handler env args))
  = [ {| method := "GET";
         url := AssetTools.viewUrl (AssetTools.m_domain args) (AssetTools.m_assetId args);
         body := None |};
      {| method := "PUT";
         url := AssetTools.viewUrl (AssetTools.m_domain args) (AssetTools.m_assetId args);
         body := stringify (AssetTools.mergeMetadata current args) |} ].
Proof.
  intros Hdom Hget Hok.
  unfold run, AssetTools.assetMetadataUpdateTool_handler, tryCatch, bind, lift,
    socrataGet, socrataPut, request.
  rewrite Hdom. simpl app. rewrite Hget, Hok.
  match goal with
  | |- context [fetch env ?l ?r] => destruct (fetch env l r) as [m | st stt t js]
  end; [reflexivity|].
  destruct (responseOk st); [|reflexivity].
  destruct js as [result | m]; [|reflexivity].
  destruct (formatResponse result _); reflexivity.
Qed.

(** ** Permission merge: replacing the grants *)

(** C5.  With [replaceUsers] set and a [users] patch given, the merged
    document's [users] is the patch's list and nothing else, whatever the
    current document held; an empty patch gives an empty list.  Besides
    [users], only [scope] can differ from the current document. *)
Theorem replaceUsers_discards_existing
  (currentPermissions : value) (args : AssetTools.PermissionsArgs)
  (incoming : list AssetTools.UserPermission) :
  AssetTools.users args = Some incoming ->
  AssetTools.replaceUsers args = true ->
  exists merged,
    AssetTools.mergePermissions currentPermissions args = Ok (Obj merged)
    /\ lookup "users" merged = Some (Arr (map AssetTools.userObject incoming))
    /\ forall k, k <> "users" -> k <> "scope" ->
         lookup k merged = lookup k (ownEnumerable currentPermissions).
Proof.
  intros Husers Hreplace. unfold AssetTools.mergePermissions.
  rewrite Husers, Hreplace. eexists. split; [reflexivity|].
  split; [apply lookup_setProp_same|].
  intros k Hu Hs. rewrite lookup_setProp_other by congruence.
  destruct (AssetTools.scope args); [|reflexivity].
  apply lookup_setProp_other. congruence.
Qed.

Lemma replaceUsers_discards_existing_witness :
  exists merged,
    AssetTools.mergePermissions
      (Obj [("scope", Str "private");
            ("users", Arr [Obj [("id", Str "A")]; Obj [("id", Str "B")]])])
      {| AssetTools.p_domain := "data.x.org"; AssetTools.p_assetId := "abcd-1234";
         AssetTools.scope := None;
         AssetTools.users :=
           Some [ {| AssetTools.id := Some "C"; AssetTools.email := None;
                     AssetTools.accessLevels := [] |} ];
         AssetTools.replaceUsers := true; AssetTools.p_format := json |}
    = Ok (Obj merged)
    /\ lookup "users" merged
       = Some (Arr [Obj [("id", Str "C"); ("accessLevels", Arr [])]]).
Proof.
  destruct (replaceUsers_discards_existing
              (Obj [("scope", Str "private");
                    ("users", Arr [Obj [("id", Str "A")]; Obj [("id", Str "B")]])])
              {| AssetTools.p_domain := "data.x.org"; AssetTools.p_assetId := "abcd-1234";
                 AssetTools.scope := None;
                 AssetTools.users :=
                   Some [ {| AssetTools.id := Some "C"; AssetTools.email := None;
                             AssetTools.accessLevels := [] |} ];
                 AssetTools.replaceUsers := true; AssetTools.p_format := json |}
              [ {| AssetTools.id := Some "C"; AssetTools.email := None;
                   AssetTools.accessLevels := [] |} ]
              eq_refl eq_refl) as (merged & Hm & Hu & _).
  exists merged. split; [exact Hm | exact Hu].
Defined.

(** Revoking every grant: the patch is the empty list. *)
Example replaceUsers_empty :
  AssetTools.mergePermissions
    (Obj [("scope", Str "private");
          ("users", Arr [Obj [("id", Str "A")]; Obj [("id", Str "B")]])])
    {| AssetTools.p_domain := "data.x.org"; AssetTools.p_assetId := "abcd-1234";
       AssetTools.scope := None; AssetTools.users := Some [];
       AssetTools.replaceUsers := true; AssetTools.p_format := json |}
  = Ok (Obj [("scope", Str "private"); ("users", Arr [])]).
Proof. reflexivity. Qed.

(** What the handler writes back is the merged document. *)
Lemma assetPermissionsUpdate_puts_merged env args current merged status statusText text :
  validateDomain (ALLOWED_DOMAINS env) (AssetTools.p_domain args) = Ok tt ->
  fetch env []
    {| method := "GET";
       url := AssetTools.permissionsUrl (AssetTools.p_domain args) (AssetTools.p_assetId args);
       body := None |}
  = Response status statusText text (Ok current) ->
  responseOk status = true ->
  AssetTools.mergePermissions current args = Ok merged ->
  snd (run (AssetTools.assetPermissionsUpdateTool_handler env args))
  = [ {| method := "GET";
         url := AssetTools.permissionsUrl (AssetTools.p_domain args)
                  (AssetTools.p_assetId args);
         body := None |};
      {| method := "PUT";
         url := AssetTools.permissionsUrl (AssetTools.p_domain args)
                  (AssetTools.p_assetId args);
         body := stringify merged |} ].
Proof.
  intros Hdom Hget Hok Hmerge.
  unfold run, AssetTools.assetPermissionsUpdateTool_handler, tryCatch, bind, lift,
    socrataGet, socrataPut, request.
  rewrite Hdom. simpl app. rewrite Hget, Hok, Hmerge.
  match goal with
  | |- context [fetch env ?l ?r] => destruct (fetch env l r) as [m | st stt t js]
  end; [reflexivity|].
  destruct (responseOk st); [|reflexivity].
  destruct js as [result | m]; [|reflexivity].
  destruct (formatResponse result _); reflexivity.
Qed.

(** ** Permission merge: the per-grant upsert *)

Section Upsert.

Import AssetTools.

Implicit Types (u : value) (existing : list value) (n newUser : UserPermission).

Lemma sameField_pure x u k :
  isNullish u = false -> sameField x u k = Ok (sameFieldOf x u k).
Proof.
  intros Hu. unfold sameField, sameFieldOf.
  destruct x as [s|]; [|reflexivity].
  destruct (s =? ""); [reflexivity|].
  destruct u; simpl in *; try discriminate; reflexivity.
Qed.

Lemma matchesUser_pure n u :
  isNullish u = false -> matchesUser n u = Ok (matchesEntry n u).
Proof.
  intros Hu. unfold matchesUser, matchesEntry.
  rewrite !sameField_pure by assumption. simpl.
  now destruct (sameFieldOf (id n) u "id").
Qed.

Lemma findIndexFrom_pure n i existing :
  Forall (fun u => isNullish u = false) existing ->
  findIndexFrom (matchesUser n) i existing = Ok (firstMatchFrom n i existing).
Proof.
  intros H. revert i. induction H as [|u rest Hu _ IH]; intros i; simpl.
  - reflexivity.
  - rewrite matchesUser_pure by assumption. simpl.
    destruct (matchesEntry n u); [reflexivity | apply IH].
Qed.

Lemma firstMatchFrom_bounds n i existing j :
  firstMatchFrom n i existing = Some j -> i <= j < i + List.length existing.
Proof.
  revert i. induction existing as [|u rest IH]; intros i; simpl.
  - discriminate.
  - destruct (matchesEntry n u).
    + intros [= <-]. lia.
    + intros H. apply IH in H. lia.
Qed.

(** The first match is a match, and nothing before it is. *)
Lemma firstMatchFrom_spec n i existing j :
  firstMatchFrom n i existing = Some (i + j) <->
  (exists u, nth_error existing j = Some u /\ matchesEntry n u = true)
  /\ (forall j' u', j' < j -> nth_error existing j' = Some u' ->
        matchesEntry n u' = false).
Proof.
  revert i j. induction existing as [|u rest IH]; intros i j; simpl.
  - split; [discriminate|]. intros [(u & Hu & _) _]. now destruct j.
  - destruct (matchesEntry n u) eqn:E.
    + split.
      * intros [= H]. assert (j = 0) by lia. subst j. split.
        -- exists u. now split.
        -- intros j' u' Hlt. lia.
      * intros [_ Hbefore]. destruct j as [|j]; [f_equal; lia|].
        specialize (Hbefore 0 u (Nat.lt_0_succ j) eq_refl). congruence.
    + destruct j as [|j].
      * split.
        -- intros H. apply firstMatchFrom_bounds in H. lia.
        -- intros [(u0 & [= ->] & Hm) _]. congruence.
      * replace (i + S j) with (S i + j) by lia. rewrite IH. split.
        -- intros [Hex Hbefore]. split; [exact Hex|].
           intros [|j'] u' Hlt Hnth; simpl in Hnth.
           ++ now injection Hnth as <-.
           ++ apply (Hbefore j'); [lia | assumption].
        -- intros [Hex Hbefore]. split; [exact Hex|].
           intros j' u' Hlt Hnth. apply (Hbefore (S j')); [lia | assumption].
Qed.

Variable target : UserPermission -> option nat.

Lemma upsertedFrom_length j existing incoming :
  List.length (upsertedFrom target j existing incoming) = List.length existing.
Proof.
  revert j. induction existing as [|u rest IH]; intros j; simpl; [reflexivity|].
  now rewrite IH.
Qed.

Lemma upsertedFrom_nil j existing : upsertedFrom target j existing [] = existing.
Proof.
  revert j. induction existing as [|u rest IH]; intros j; simpl; [reflexivity|].
  now rewrite IH.
Qed.

(** A grant aimed elsewhere leaves a stretch of entries as it was. *)
Lemma upsertedFrom_elsewhere j existing processed n :
  (forall i, target n = Some i -> i < j \/ j + List.length existing <= i) ->
  upsertedFrom target j existing (processed ++ [n])
  = upsertedFrom target j existing processed.
Proof.
  revert j. induction existing as [|u rest IH]; intros j Hout; simpl; [reflexivity|].
  rewrite filter_app. simpl.
  assert (Hno : aimedAt target j n = false).
  { unfold aimedAt. destruct (target n) as [i|] eqn:E; [|reflexivity].
    apply Nat.eqb_neq. specialize (Hout i eq_refl). simpl in Hout. lia. }
  rewrite Hno, app_nil_r. f_equal.
  apply IH. intros i Hi. specialize (Hout i Hi). simpl in Hout. lia.
Qed.

(** A grant aimed at the entry [i] places further on merges over that
    entry, where it stands. *)
Lemma upsertedFrom_aimed j existing processed n i :
  target n = Some (j + i) -> i < List.length existing ->
  replaceAt i
    (mergeOver (nth i (upsertedFrom target j existing processed) Undefined) n)
    (upsertedFrom target j existing processed)
  = upsertedFrom target j existing (processed ++ [n]).
Proof.
  revert j i. induction existing as [|u rest IH]; intros j i Ht Hlt; simpl in *; [lia|].
  rewrite filter_app. simpl.
  assert (Haim : aimedAt target j n = (j + i =? j)%nat)
    by (unfold aimedAt; now rewrite Ht).
  rewrite Haim. clear Haim.
  destruct i as [|i]; simpl.
  - replace (j + 0 =? j)%nat with true by (symmetry; apply Nat.eqb_eq; lia).
    unfold mergedEntry. rewrite fold_left_app. simpl. f_equal.
    symmetry. apply upsertedFrom_elsewhere.
    intros i Hi. rewrite Ht in Hi. injection Hi as <-. lia.
  - replace (j + S i =? j)%nat with false by (symmetry; apply Nat.eqb_neq; lia).
    rewrite app_nil_r. f_equal.
    apply IH; [rewrite Ht; f_equal; lia | lia].
Qed.

Lemma replaceAt_app i x (l l' : list value) :
  i < List.length l -> replaceAt i x (l ++ l')%list = (replaceAt i x l ++ l')%list.
Proof.
  revert i. induction l as [|y l IH]; intros i Hlt; simpl in *; [lia|].
  destruct i; simpl; [reflexivity|]. f_equal. apply IH. lia.
Qed.

End Upsert.

Section UpsertAll.

Import AssetTools.

Variable existing : list value.
Hypothesis records : Forall (fun u => isNullish u = false) existing.

(** One turn of the loop takes the upsert of the grants seen so far to the
    upsert with this grant added. *)
Lemma upsertUser_upserted processed n :
  upsertUser existing (upserted existing processed) n
  = Ok (upserted existing (processed ++ [n])).
Proof using records.
  unfold upsertUser, findIndex. rewrite findIndexFrom_pure by exact records.
  simpl. fold (firstMatch existing n).
  destruct (firstMatch existing n) as [i|] eqn:Ht.
  - assert (Hlt : i < List.length existing).
    { unfold firstMatch in Ht. apply firstMatchFrom_bounds in Ht. lia. }
    f_equal. unfold upserted.
    rewrite replaceAt_app by (now rewrite upsertedFrom_length).
    rewrite app_nth1 by (now rewrite upsertedFrom_length).
    assert (Hun : unmatched (firstMatch existing) n = false)
      by (unfold unmatched; now rewrite Ht).
    rewrite filter_app. simpl. rewrite Hun, app_nil_r. f_equal.
    apply (upsertedFrom_aimed (firstMatch existing) 0 existing processed n i); assumption.
  - f_equal. unfold upserted.
    rewrite upsertedFrom_elsewhere by (intros i Hi; congruence).
    assert (Hun : unmatched (firstMatch existing) n = true)
      by (unfold unmatched; now rewrite Ht).
    rewrite filter_app. simpl. rewrite Hun.
    now rewrite map_app, app_assoc.
Qed.

Lemma upsertAll_upserted processed incoming :
  upsertAll existing (upserted existing processed) incoming
  = Ok (upserted existing (processed ++ incoming)).
Proof using records.
  revert processed. induction incoming as [|n rest IH]; intros processed; simpl.
  - now rewrite app_nil_r.
  - rewrite upsertUser_upserted. simpl. rewrite IH. now rewrite <- app_assoc.
Qed.

Lemma upserted_nil : upserted existing [] = existing.
Proof. unfold upserted. simpl. now rewrite upsertedFrom_nil, app_nil_r. Qed.

Lemma mergeUsers_upserted incoming :
  mergeUsers (Arr existing) incoming = Ok (Arr (upserted existing incoming)).
Proof using records.
  unfold mergeUsers. simpl.
  pose proof (upsertAll_upserted [] incoming) as H.
  rewrite upserted_nil in H. now rewrite H.
Qed.

End UpsertAll.

Section UpsertReading.

Import AssetTools.

Lemma nth_error_nth_default (l : list value) j u :
  nth_error l j = Some u -> nth j l Undefined = u.
Proof.
  revert j. induction l as [|y l IH]; intros [|j]; simpl; try discriminate.
  - now intros [= ->].
  - apply IH.
Qed.

(** The upsert of one grant: merged over its first match, or appended. *)
Lemma upserted_single existing n :
  upserted existing [n]
  = match firstMatch existing n with
    | Some j => replaceAt j (mergeOver (nth j existing Undefined) n) existing
    | None => (existing ++ [userObject n])%list
    end.
Proof.
  unfold upserted. simpl filter.
  destruct (firstMatch existing n) as [j|] eqn:Ht.
  - assert (Hun : unmatched (firstMatch existing) n = false)
      by (unfold unmatched; now rewrite Ht).
    rewrite Hun. simpl. rewrite app_nil_r.
    assert (Hlt : j < List.length existing).
    { unfold firstMatch in Ht. apply firstMatchFrom_bounds in Ht. lia. }
    pose proof (upsertedFrom_aimed (firstMatch existing) 0 existing [] n j Ht Hlt) as H.
    rewrite upsertedFrom_nil in H. simpl in H. now rewrite H.
  - assert (Hun : unmatched (firstMatch existing) n = true)
      by (unfold unmatched; now rewrite Ht).
    rewrite Hun. simpl. f_equal.
    pose proof (upsertedFrom_elsewhere (firstMatch existing) 0 existing [] n) as H.
    simpl in H. rewrite H by (intros i Hi; congruence).
    apply upsertedFrom_nil.
Qed.

(** Only [existing || []] matters to the merge. *)
Lemma mergeUsers_or_else v existing incoming :
  or_else v (Arr []) = Arr existing ->
  mergeUsers v incoming = mergeUsers (Arr existing) incoming.
Proof. unfold mergeUsers. now intros ->. Qed.

Lemma upserted_length existing incoming :
  List.length (upserted existing incoming)
  = List.length existing
    + List.length (filter (unmatched (firstMatch existing)) incoming).
Proof.
  unfold upserted. now rewrite length_app, upsertedFrom_length, length_map.
Qed.

End UpsertReading.

(** C1, as the code has it.  With [replaceUsers] false and [existing] the
    current [users] list (empty when the document has none), none of its
    entries being [null], the merged [users] list is the upsert of the
    incoming grants: each grant is aimed at the first entry of the
    pre-merge list that matches it by [id] or by [email] (one scan, either
    test), is shallow-merged over that entry where it stands, and is
    appended at the end when no entry matches; the list grows by one per
    unmatched grant.  An entry whose [id] is the grant's is the one updated
    when no entry before it matches the grant. *)
Theorem upsert_first_match
  (currentPermissions : value) (args : AssetTools.PermissionsArgs)
  (incoming : list AssetTools.UserPermission) (existing : list value) :
  AssetTools.users args = Some incoming ->
  AssetTools.replaceUsers args = false ->
  or_else (getOwn (Obj (ownEnumerable currentPermissions)) "users") (Arr []) = Arr existing ->
  Forall (fun u => isNullish u = false) existing ->
  (exists merged,
     AssetTools.mergePermissions currentPermissions args = Ok (Obj merged)
     /\ lookup "users" merged = Some (Arr (upserted existing incoming)))
  /\ List.length (upserted existing incoming)
     = List.length existing
       + List.length (filter (unmatched (firstMatch existing)) incoming)
  /\ (forall newUser,
        upserted existing [newUser]
        = match firstMatch existing newUser with
          | Some j =>
              AssetTools.replaceAt j
                (mergeOver (nth j existing Undefined) newUser) existing
          | None => (existing ++ [AssetTools.userObject newUser])%list
          end)
  /\ (forall newUser j u,
        nth_error existing j = Some u ->
        sameFieldOf (AssetTools.id newUser) u "id" = true ->
        (forall j' u', j' < j -> nth_error existing j' = Some u' ->
           matchesEntry newUser u' = false) ->
        upserted existing [newUser]
        = AssetTools.replaceAt j (mergeOver u newUser) existing).
Proof.
  intros Husers Hreplace Hcur Hrec.
  split; [|split; [apply upserted_length | split; [apply upserted_single|]]].
  - unfold AssetTools.mergePermissions. rewrite Husers, Hreplace.
    assert (Hread :
              getOwn (Obj match AssetTools.scope args with
                          | Some s => setProp "scope" (Str (AssetTools.scopeName s))
                                        (ownEnumerable currentPermissions)
                          | None => ownEnumerable currentPermissions
                          end) "users"
              = getOwn (Obj (ownEnumerable currentPermissions)) "users").
    { unfold getOwn. simpl ownEnumerable.
      destruct (AssetTools.scope args); [|reflexivity].
      now rewrite lookup_setProp_other by discriminate. }
    rewrite Hread, (mergeUsers_or_else _ _ _ Hcur).
    rewrite mergeUsers_upserted by assumption. simpl.
    eexists. split; [reflexivity | apply lookup_setProp_same].
  - intros newUser j u Hnth Hid Hbefore.
    rewrite upserted_single.
    assert (Ht : firstMatch existing newUser = Some j).
    { unfold firstMatch. apply (firstMatchFrom_spec newUser 0 existing j). split.
      - exists u. split; [assumption|]. unfold matchesEntry. now rewrite Hid.
      - assumption. }
    rewrite Ht. now rewrite (nth_error_nth_default _ _ _ Hnth).
Qed.

Lemma upsert_first_match_witness :
  exists merged,
    AssetTools.mergePermissions
      (Obj [("scope", Str "private");
            ("users",
             Arr [Obj [("id", Str "u1");
                       ("accessLevels",
                        Arr [Obj [("name", Str "viewer"); ("version", Str "all")]])]])])
      {| AssetTools.p_domain := "data.x.org"; AssetTools.p_assetId := "abcd-1234";
         AssetTools.scope := None;
         AssetTools.users :=
           Some [ {| AssetTools.id := Some "u1"; AssetTools.email := None;
                     AssetTools.accessLevels :=
                       [ {| AssetTools.levelName := "editor";
                            AssetTools.version := "all" |} ] |};
                  {| AssetTools.id := None; AssetTools.email := Some "new@x.org";
                     AssetTools.accessLevels := [] |} ];
         AssetTools.replaceUsers := false; AssetTools.p_format := json |}
    = Ok (Obj merged)
    /\ lookup "users" merged
       = Some (Arr [Obj [("id", Str "u1");
                         ("accessLevels",
                          Arr [Obj [("name", Str "editor"); ("version", Str "all")]])];
                    Obj [("email", Str "new@x.org"); ("accessLevels", Arr [])]]).
Proof.
  destruct (upsert_first_match
              (Obj [("scope", Str "private");
                    ("users",
                     Arr [Obj [("id", Str "u1");
                               ("accessLevels",
                                Arr [Obj [("name", Str "viewer");
                                          ("version", Str "all")]])]])])
              {| AssetTools.p_domain := "data.x.org"; AssetTools.p_assetId := "abcd-1234";
                 AssetTools.scope := None;
                 AssetTools.users :=
                   Some [ {| AssetTools.id := Some "u1"; AssetTools.email := None;
                             AssetTools.accessLevels :=
                               [ {| AssetTools.levelName := "editor";
                                    AssetTools.version := "all" |} ] |};
                          {| AssetTools.id := None; AssetTools.email := Some "new@x.org";
                             AssetTools.accessLevels := [] |} ];
                 AssetTools.replaceUsers := false; AssetTools.p_format := json |}
              _ _ eq_refl eq_refl eq_refl
              ltac:(repeat constructor))
    as ((merged & Hm & Hu) & _).
  exists merged. split; [exact Hm | exact Hu].
Defined.

(** C1, as the claim has it: an [id] match does not take priority.  The
    incoming grant carries the [id] of the second entry and the [email] of
    the first; the scan stops at the first entry, which is merged over,
    and the entry with the grant's [id] is left as it was. *)
Lemma upsert_id_match_not_preferred :
  ~ idMatchUpdated
      [Obj [("email", Str "a@x.org"); ("accessLevels", Arr [])];
       Obj [("id", Str "u1"); ("accessLevels", Arr [])]]
      {| AssetTools.id := Some "u1"; AssetTools.email := Some "a@x.org";
         AssetTools.accessLevels :=
           [ {| AssetTools.levelName := "editor"; AssetTools.version := "all" |} ] |}.
Proof.
  intros H.
  destruct (H "u1" 1 (Obj [("id", Str "u1"); ("accessLevels", Arr [])])
              eq_refl eq_refl eq_refl) as (updated & Hrun & Hnth).
  vm_compute in Hrun. injection Hrun as <-.
  vm_compute in Hnth. discriminate Hnth.
Qed.

(** What the code returns on that input. *)
Example upsert_email_match_first :
  AssetTools.mergeUsers
    (Arr [Obj [("email", Str "a@x.org"); ("accessLevels", Arr [])];
          Obj [("id", Str "u1"); ("accessLevels", Arr [])]])
    [ {| AssetTools.id := Some "u1"; AssetTools.email := Some "a@x.org";
         AssetTools.accessLevels :=
           [ {| AssetTools.levelName := "editor"; AssetTools.version := "all" |} ] |} ]
  = Ok (Arr [Obj [("email", Str "a@x.org");
                  ("accessLevels",
                   Arr [Obj [("name", Str "editor"); ("version", Str "all")]]);
                  ("id", Str "u1")];
             Obj [("id", Str "u1"); ("accessLevels", Arr [])]]).
Proof. reflexivity. Qed.

(** ** Truncation *)

Lemma setProp_absent k v fs :
  lookup k fs = None -> setProp k v fs = (fs ++ [(k, v)])%list.
Proof.
  induction fs as [|[k0 v0] fs IH]; simpl; [reflexivity|].
  destruct (k0 =? k); [discriminate|]. intros H. now rewrite IH.
Qed.

(** C3, as the code has it.  Data whose serialization fits the limit is
    returned as it is.  Data whose serialization is longer is not cut: the
    result is a record with the flag [_truncated: true] and, under
    [_message], a message with the limit and the original length, which
    holds every top-level field of the data that is named neither
    [_truncated] nor [_message] with its value; the data's fields come
    first, in their order, and a field of the data that has one of the two
    names keeps its place and takes the marker's value. *)
Theorem truncateResponse_all_or_nothing (data : value) (jsonString : string) :
  stringify2 data = Some jsonString ->
  ((Z.of_nat (String.length jsonString) <= CHARACTER_LIMIT)%Z ->
   truncateResponse data = Ok data)
  /\ ((CHARACTER_LIMIT < Z.of_nat (String.length jsonString))%Z ->
      exists marker,
        truncateResponse data = Ok (Obj marker)
        /\ lookup "_truncated" marker = Some (Bool true)
        /\ lookup "_message" marker
           = Some (Str ("Response truncated at 25000 characters. Original length: "
                          ++ numberToString (Z.of_nat (String.length jsonString))))
        /\ (forall k, k <> "_truncated" -> k <> "_message" ->
              lookup k marker = lookup k (ownEnumerable data))
        /\ exists added, map fst marker = (map fst (ownEnumerable data) ++ added)%list).
Proof.
  intros Hs. unfold truncateResponse, truncateResponseAt. rewrite Hs. split.
  - intros Hle. apply Z.leb_le in Hle. now rewrite Hle.
  - intros Hgt. apply Z.leb_gt in Hgt. rewrite Hgt.
    eexists. split; [reflexivity|].
    split; [|split; [|split]].
    + rewrite lookup_setProp_other by discriminate. apply lookup_setProp_same.
    + apply lookup_setProp_same.
    + intros k H1 H2. rewrite !lookup_setProp_other by congruence. reflexivity.
    + rewrite !setProp_keys.
      repeat match goal with
             | |- context [if ?b then _ else _] => destruct b
             end; rewrite <- ?app_assoc; eexists; try reflexivity.
      symmetry. apply app_nil_r.
Qed.

(** *** Length of serializations *)

Lemma length_append (a b : string) :
  String.length (a ++ b) = String.length a + String.length b.
Proof. induction a as [|c a IH]; simpl; [reflexivity | now rewrite IH]. Qed.

Lemma append_assoc (a b c : string) : (a ++ b) ++ c = a ++ (b ++ c).
Proof. induction a as [|x a IH]; simpl; [reflexivity | now rewrite IH]. Qed.

Lemma concat_app_nonempty sep (p q : list string) :
  p <> [] -> q <> [] ->
  String.concat sep (p ++ q) = String.concat sep p ++ sep ++ String.concat sep q.
Proof.
  intros Hp Hq. induction p as [|x p IH]; [contradiction|].
  destruct p as [|y p].
  - simpl. destruct q; [contradiction | reflexivity].
  - change ((x :: y :: p) ++ q)%list with (x :: (y :: p) ++ q)%list.
    change (String.concat sep (x :: (y :: p) ++ q))
      with (x ++ sep ++ String.concat sep ((y :: p) ++ q)).
    rewrite IH by discriminate.
    change (String.concat sep (x :: y :: p))
      with (x ++ sep ++ String.concat sep (y :: p)).
    now rewrite !append_assoc.
Qed.

(** Adding members makes an indented array or object longer. *)
Lemma wrap_grows gap indent opening closing (p q : list string) :
  gap <> "" -> q <> [] ->
  String.length (wrap gap indent opening closing p)
  < String.length (wrap gap indent opening closing (p ++ q)).
Proof.
  intros Hgap Hq. unfold wrap.
  apply String.eqb_neq in Hgap. rewrite Hgap.
  destruct p as [|x p].
  - simpl app. destruct q as [|y q]; [contradiction|].
    rewrite !length_append. simpl. lia.
  - change ((x :: p) ++ q)%list with (x :: (p ++ q))%list. cbv iota.
    unfold join.
    change (x :: (p ++ q))%list with ((x :: p) ++ q)%list.
    rewrite concat_app_nonempty by (assumption || discriminate).
    rewrite !length_append. simpl. lia.
Qed.

Lemma members_app gap indent (fs gs : list (string * value)) :
  serialize gap indent (Obj (fs ++ gs))
  = Some (wrap gap indent "{" "}"
            (flat_map (fun kv =>
                         match serialize gap (indent ++ gap) (snd kv) with
                         | Some s =>
                             [quote (fst kv) ++ ":"
                                ++ (if gap =? "" then "" else " ") ++ s]
                         | None => []
                         end) fs
             ++ flat_map (fun kv =>
                            match serialize gap (indent ++ gap) (snd kv) with
                            | Some s =>
                                [quote (fst kv) ++ ":"
                                   ++ (if gap =? "" then "" else " ") ++ s]
                            | None => []
                            end) gs)).
Proof. simpl. now rewrite flat_map_app. Qed.

(** The marker record of a record without marker fields is longer than the
    record it stands for. *)
Lemma truncateResponse_grows (fields : list (string * value)) (jsonString : string) :
  lookup "_truncated" fields = None ->
  lookup "_message" fields = None ->
  stringify2 (Obj fields) = Some jsonString ->
  (CHARACTER_LIMIT < Z.of_nat (String.length jsonString))%Z ->
  exists shaped shapedString,
    truncateResponse (Obj fields) = Ok shaped
    /\ stringify2 shaped = Some shapedString
    /\ String.length jsonString < String.length shapedString.
Proof.
  intros Ht Hm Hs Hgt.
  unfold truncateResponse, truncateResponseAt. rewrite Hs.
  apply Z.leb_gt in Hgt. rewrite Hgt. simpl ownEnumerable.
  rewrite (setProp_absent "_truncated") by assumption.
  rewrite (setProp_absent "_message")
    by (rewrite lookup_app_r by assumption; reflexivity).
  rewrite <- app_assoc. simpl app.
  eexists. eexists. split; [reflexivity|].
  split; [unfold stringify2; apply members_app|].
  unfold stringify2 in Hs. simpl in Hs. injection Hs as <-.
  apply wrap_grows; discriminate.
Qed.

Lemma quoteBody_repeat n : quoteBody (repeatChar "x" n) = repeatChar "x" n.
Proof. induction n as [|n IH]; simpl; [reflexivity | now rewrite IH]. Qed.

Lemma length_repeatChar c n : String.length (repeatChar c n) = n.
Proof. induction n as [|n IH]; simpl; [reflexivity | now rewrite IH]. Qed.

Lemma stringify2_recordOfSize n :
  stringify2 (recordOfSize n)
  = Some ("{" ++ newline ++ "  " ++ quote "a" ++ ": "
            ++ quote (repeatChar "x" n) ++ newline ++ "}").
Proof. reflexivity. Qed.

Lemma length_recordOfSize n :
  String.length ("{" ++ newline ++ "  " ++ quote "a" ++ ": "
                   ++ quote (repeatChar "x" n) ++ newline ++ "}")
  = n + 13.
Proof.
  unfold quote at 2. rewrite quoteBody_repeat.
  rewrite !length_append. simpl. rewrite length_append, length_repeatChar.
  simpl. lia.
Qed.

Lemma longRecord_over_limit :
  (CHARACTER_LIMIT
   < Z.of_nat (String.length ("{" ++ newline ++ "  " ++ quote "a" ++ ": "
                                ++ quote (repeatChar "x" (Z.to_nat 25000))
                                ++ newline ++ "}")))%Z.
Proof. rewrite length_recordOfSize. unfold CHARACTER_LIMIT. lia. Qed.

Lemma truncateResponse_all_or_nothing_witness :
  truncateResponse (Obj [("name", Str "n")]) = Ok (Obj [("name", Str "n")])
  /\ exists marker,
       truncateResponse longRecord = Ok (Obj marker)
       /\ lookup "_truncated" marker = Some (Bool true).
Proof.
  split.
  - apply (truncateResponse_all_or_nothing
             (Obj [("name", Str "n")])
             (interpolate (stringify2 (Obj [("name", Str "n")])))
             eq_refl).
    vm_compute. discriminate.
  - destruct (proj2 (truncateResponse_all_or_nothing longRecord _
                       (stringify2_recordOfSize (Z.to_nat 25000)))
                longRecord_over_limit)
      as (marker & Hrun & Hflag & _).
    exists marker. split; [exact Hrun | exact Hflag].
Defined.

(** *** A record that is already flagged *)

Lemma stringify2_flaggedRecordOfSize n :
  stringify2 (flaggedRecordOfSize n)
  = Some ("{" ++ newline ++ "  " ++ quote "_truncated" ++ ": false," ++ newline
            ++ "  " ++ quote "a" ++ ": " ++ quote (repeatChar "x" n) ++ newline ++ "}").
Proof. reflexivity. Qed.

Lemma length_flaggedRecordOfSize n :
  String.length ("{" ++ newline ++ "  " ++ quote "_truncated" ++ ": false," ++ newline
                   ++ "  " ++ quote "a" ++ ": " ++ quote (repeatChar "x" n)
                   ++ newline ++ "}")
  = n + 36.
Proof.
  unfold quote at 3. rewrite quoteBody_repeat.
  rewrite !length_append. simpl. rewrite length_append, length_repeatChar.
  simpl. lia.
Qed.

(** C3, as the claim has it: the marker record does not preserve every
    top-level field.  [flaggedRecord] has the field [_truncated: false] and
    a serialization of 25,036 characters; in the result the field is
    [true]. *)
Lemma truncation_overwrites_marker_fields :
  exists shaped,
    truncateResponse flaggedRecord = Ok shaped
    /\ ~ keepsTopLevelFields flaggedRecord shaped.
Proof.
  unfold truncateResponse, truncateResponseAt, flaggedRecord.
  rewrite stringify2_flaggedRecordOfSize.
  assert (Hgt : (Z.of_nat (String.length
                   ("{" ++ newline ++ "  " ++ quote "_truncated" ++ ": false," ++ newline
                      ++ "  " ++ quote "a" ++ ": "
                      ++ quote (repeatChar "x" (Z.to_nat 25000)) ++ newline ++ "}"))
                 <=? CHARACTER_LIMIT)%Z = false).
  { rewrite length_flaggedRecordOfSize. apply Z.leb_gt. unfold CHARACTER_LIMIT. lia. }
  rewrite Hgt. eexists. split; [reflexivity|].
  intros Hkeeps. specialize (Hkeeps "_truncated" (Bool false) eq_refl).
  unfold getOwn in Hkeeps. cbn [ownEnumerable] in Hkeeps.
  rewrite lookup_setProp_other in Hkeeps by discriminate.
  rewrite lookup_setProp_same in Hkeeps. discriminate Hkeeps.
Qed.

(** C2 fails on the code.  The marker record keeps every field of the
    data, so it is not smaller than the data: for [longRecord], whose
    serialization has 25,013 characters, the shaped result has an even
    longer serialization, above the limit of 25,000. *)
Theorem truncateResponse_not_bounded :
  exists jsonString shaped shapedString,
    stringify2 longRecord = Some jsonString
    /\ Z.of_nat (String.length jsonString) = 25013%Z
    /\ truncateResponse longRecord = Ok shaped
    /\ stringify2 shaped = Some shapedString
    /\ (CHARACTER_LIMIT < Z.of_nat (String.length jsonString))%Z
    /\ String.length jsonString < String.length shapedString.
Proof.
  destruct (truncateResponse_grows
              [("a", Str (repeatChar "x" (Z.to_nat 25000)))] _
              eq_refl eq_refl
              (stringify2_recordOfSize (Z.to_nat 25000))
              longRecord_over_limit)
    as (shaped & shapedString & Hrun & Hshaped & Hlonger).
  eexists. exists shaped, shapedString.
  split; [apply (stringify2_recordOfSize (Z.to_nat 25000))|].
  split; [rewrite length_recordOfSize; lia|].
  split; [exact Hrun|].
  split; [exact Hshaped|].
  split; [exact longRecord_over_limit | exact Hlonger].
Qed.

(** ** Concise projection *)

Section Indices.

Lemma indexToString_inj i j : indexToString i = indexToString j -> i = j.
Proof.
  unfold indexToString. intros H.
  apply DecimalNat.Unsigned.to_uint_inj.
  assert (Hnn : forall n, Nat.to_uint n <> Decimal.Nil).
  { intros n. rewrite <- (DecimalNat.Unsigned.of_to n) at 1.
    rewrite DecimalNat.Unsigned.to_of. apply DecimalFacts.unorm_nonnil. }
  apply (f_equal NilZero.uint_of_string) in H.
  rewrite !NilZero.usu in H by apply Hnn. now injection H.
Qed.

Lemma indexToString_digit i : startsWithDigit (indexToString i) = true.
Proof. unfold indexToString. now destruct (Nat.to_uint i). Qed.

Lemma indexToString_neq i k : startsWithDigit k = false -> indexToString i <> k.
Proof. intros Hk <-. rewrite indexToString_digit in Hk. discriminate. Qed.

Lemma lookup_indexed start (l : list value) i :
  lookup (indexToString (start + i)) (indexed start l) = nth_error l i.
Proof.
  revert start i. induction l as [|x l IH]; intros start i; simpl.
  - now destruct i.
  - destruct i as [|i]; simpl.
    + rewrite Nat.add_0_r. now rewrite String.eqb_refl.
    + destruct (indexToString start =? indexToString (start + S i)) eqn:E.
      * apply String.eqb_eq, indexToString_inj in E. lia.
      * replace (start + S i) with (S start + i) by lia. apply IH.
Qed.

Lemma lookup_indexed0 (l : list value) i :
  lookup (indexToString i) (indexed 0 l) = nth_error l i.
Proof. exact (lookup_indexed 0 l i). Qed.

Lemma lookup_indexed_other start (l : list value) k :
  startsWithDigit k = false -> lookup k (indexed start l) = None.
Proof.
  intros Hk. revert start. induction l as [|x l IH]; intros start; simpl.
  - reflexivity.
  - destruct (indexToString start =? k) eqn:E; [|apply IH].
    apply String.eqb_eq in E. now apply indexToString_neq in E.
Qed.

End Indices.

Lemma serialize_defined gap indent v :
  isDefined v = true -> exists s, serialize gap indent v = Some s.
Proof.
  destruct v as [| |[|]| | | |]; simpl; try discriminate; intros _; eexists; reflexivity.
Qed.

(** Properties whose value is [undefined] do not show in the output. *)
Lemma serialize_drops_undefined gap indent fields :
  serialize gap indent (Obj fields)
  = serialize gap indent (Obj (filter (fun kv => isDefined (snd kv)) fields)).
Proof.
  simpl. do 2 f_equal.
  induction fields as [|[k v] fields IH]; simpl; [reflexivity|].
  destruct (isDefined v) eqn:E; simpl.
  - now rewrite IH.
  - destruct v; try discriminate. simpl. apply IH.
Qed.

Lemma getOwn_Arr_named items k :
  startsWithDigit k = false -> k <> "length" -> getOwn (Arr items) k = Undefined.
Proof.
  intros Hk Hlen. unfold getOwn. simpl ownEnumerable.
  rewrite lookup_indexed_other by assumption.
  apply String.eqb_neq in Hlen. now rewrite Hlen.
Qed.

Lemma truncateResponse_Arr items :
  exists shaped,
    truncateResponse (Arr items) = Ok shaped
    /\ (forall i item, nth_error items i = Some item ->
          getOwn shaped (indexToString i) = item)
    /\ (forall s, stringify2 (Arr items) = Some s ->
          (Z.of_nat (String.length s) <= CHARACTER_LIMIT)%Z -> shaped = Arr items).
Proof.
  assert (Hsome : exists js, stringify2 (Arr items) = Some js)
    by (eexists; reflexivity).
  destruct Hsome as (js & Hjs).
  unfold truncateResponse, truncateResponseAt. rewrite Hjs.
  destruct (Z.of_nat (String.length js) <=? CHARACTER_LIMIT)%Z eqn:E.
  - exists (Arr items). split; [reflexivity|]. split; [|reflexivity].
    intros i item Hnth. unfold getOwn. simpl ownEnumerable.
    now rewrite lookup_indexed0, Hnth.
  - eexists. split; [reflexivity|]. split.
    + intros i item Hnth. unfold getOwn. simpl ownEnumerable.
      rewrite !lookup_setProp_other
        by (intros H; symmetry in H; revert H; now apply indexToString_neq).
      now rewrite lookup_indexed0, Hnth.
    + intros s Hs Hle. injection Hs as <-.
      apply Z.leb_le in Hle. congruence.
Qed.

(** C8, as the code has it.  With [detail = concise], every element of a
    sequence is replaced by its concise view, in place.  The concise view of
    a record holds the five fields with the record's values; a field the
    record lacks is [undefined], so the output shows exactly those of the
    five fields that the record has, and no other field.  A string, number,
    boolean or [null] is its own concise view.  An element that is itself a
    sequence is treated like a record: its concise view is a record in which
    all five fields are [undefined].  Data that is not a sequence, and any
    data when [detail] is not [concise], is not projected. *)
Theorem formatResponse_concise_projection :
  (forall items fmt,
     exists shaped,
       formatResponse (Arr items) {| format := fmt; detail := Some concise |} = Ok shaped
       /\ (forall i item, nth_error items i = Some item ->
             getOwn shaped (indexToString i) = conciseItem item)
       /\ (forall s, stringify2 (Arr (map conciseItem items)) = Some s ->
             (Z.of_nat (String.length s) <= CHARACTER_LIMIT)%Z ->
             shaped = Arr (map conciseItem items)))
  /\ (forall fields,
        exists projected,
          conciseItem (Obj fields) = Obj projected
          /\ map fst projected = conciseFields
          /\ (forall k, In k conciseFields ->
                lookup k projected = Some (getOwn (Obj fields) k))
          /\ (forall k, ~ In k conciseFields -> lookup k projected = None)
          /\ (forall gap indent,
                serialize gap indent (Obj projected)
                = serialize gap indent (Obj (presentOf (Obj fields)))))
  /\ (forall items,
        conciseItem (Arr items) = Obj (map (fun k => (k, Undefined)) conciseFields))
  /\ (forall item, isObject item = false -> conciseItem item = item)
  /\ (forall data opts,
        detail opts <> Some concise \/ (forall items, data <> Arr items) ->
        formatResponse data opts = truncateResponse data).
Proof.
  split; [|split; [|split; [|split]]].
  - intros items fmt. unfold formatResponse. simpl.
    destruct (truncateResponse_Arr (map conciseItem items)) as (shaped & Hrun & Hnth & Hfit).
    exists shaped. split; [exact Hrun|]. split; [|exact Hfit].
    intros i item Hi. apply Hnth. rewrite nth_error_map, Hi. reflexivity.
  - intros fields. eexists. split; [reflexivity|].
    split; [reflexivity|]. split; [|split].
    + intros k Hk. simpl in Hk.
      destruct Hk as [<- | [<- | [<- | [<- | [<- | []]]]]]; reflexivity.
    + intros k Hk. simpl in Hk. cbn [lookup].
      repeat match goal with
             | |- context [?a =? k] =>
                 destruct (String.eqb_spec a k); [exfalso; apply Hk; subst; tauto|]
             end.
      reflexivity.
    + intros gap indent. apply serialize_drops_undefined.
  - intros items. unfold conciseItem. simpl isObject. cbv iota.
    rewrite !getOwn_Arr_named by (reflexivity || discriminate). reflexivity.
  - intros item H. unfold conciseItem. now rewrite H.
  - intros data opts H. unfold formatResponse.
    destruct (detail opts) as [[|]|]; try reflexivity.
    destruct data; try reflexivity.
    destruct H as [H | H]; [now contradiction H | now contradiction (H items)].
Qed.

Lemma formatResponse_concise_projection_witness :
  formatResponse
    (Arr [Obj [("id", Num 1); ("name", Str "n"); ("title", Str "t");
               ("description", Str "d"); ("domain", Str "x"); ("extra", Str "y")];
          Str "plain"])
    {| format := None; detail := Some concise |}
  = Ok (Arr [Obj [("id", Num 1); ("name", Str "n"); ("title", Str "t");
                  ("description", Str "d"); ("domain", Str "x")];
             Str "plain"])
  /\ conciseItem (Num 7) = Num 7
  /\ formatResponse (Obj [("extra", Str "y")]) {| format := None; detail := Some concise |}
     = truncateResponse (Obj [("extra", Str "y")]).
Proof.
  destruct formatResponse_concise_projection as (Hseq & _ & _ & Hprim & Hother).
  split; [|split].
  - destruct (Hseq [Obj [("id", Num 1); ("name", Str "n"); ("title", Str "t");
                         ("description", Str "d"); ("domain", Str "x");
                         ("extra", Str "y")];
                    Str "plain"] None) as (shaped & Hrun & _ & Hfit).
    rewrite Hrun. f_equal.
    apply (Hfit (interpolate (stringify2
                   (Arr (map conciseItem
                           [Obj [("id", Num 1); ("name", Str "n"); ("title", Str "t");
                                 ("description", Str "d"); ("domain", Str "x");
                                 ("extra", Str "y")];
                            Str "plain"])))) eq_refl).
    vm_compute. discriminate.
  - apply Hprim. reflexivity.
  - apply Hother. right. discriminate.
Defined.

(** C8, as the claim has it: an element that is itself a sequence is not a
    record, yet it does not pass through; it is replaced by a record of
    undefined fields, which prints as an empty record. *)
Lemma concise_replaces_nested_sequence :
  ~ nonRecordsPassThrough [Arr [Num 1; Num 2]].
Proof.
  intros H.
  specialize (H (Arr [conciseItem (Arr [Num 1; Num 2])]) 0 (Arr [Num 1; Num 2])
                eq_refl eq_refl eq_refl).
  vm_compute in H. discriminate H.
Qed.

Example concise_nested_sequence_output :
  bindR (formatResponse (Arr [Arr [Num 1; Num 2]; Num 3]) conciseOptions)
    (fun shaped => Ok (stringify shaped))
  = Ok (Some "[{},3]").
Proof. reflexivity. Qed.

(** ** Schedule resolver: the two modes *)

Section DirectMode.

Import PublishingTools.

Lemma supplied_whenTruthy x f : whenTruthy x = Some f -> supplied x = true.
Proof. unfold supplied. now intros ->. Qed.

Lemma supplied_false x : supplied x = false -> whenTruthy x = None.
Proof. unfold supplied. now destruct (whenTruthy x). Qed.

(** A formatted schedule is one record with [dataset] and [schedule]. *)
Lemma formatScheduleResponse_shape env scheduleData assetInfo summary :
  formatScheduleResponse env scheduleData assetInfo = Ok summary ->
  exists dataset schedule last,
    summary = Obj [("dataset", dataset); ("schedule", schedule); last].
Proof.
  unfold formatScheduleResponse.
  destruct (truthy scheduleData); simpl.
  - destruct (generateScheduleSummary env _) as [text | m]; simpl; [|discriminate].
    intros [= <-]. now eexists _, _, _.
  - intros [= <-]. now eexists _, _, _.
Qed.

(** The run of the handler when [fxf] is truthy. *)
Lemma direct_run env args f :
  whenTruthy (fxf args) = Some f ->
  run (publishingScheduleGetTool_handler env args)
  = match validateDomain (ALLOWED_DOMAINS env) (s_domain args) with
    | Throw m => (Throw (failedToGet (s_domain args) m), [])
    | Ok _ =>
        match fetch env [] (GET (scheduleUrl (s_domain args) f)) with
        | Rejected m =>
            (Throw (failedToGet (s_domain args) m),
             [GET (scheduleUrl (s_domain args) f)])
        | Response status statusText text parsed =>
            (match (if responseOk status then parsed
                    else Throw (apiError status statusText text)) with
             | Throw m => Throw (failedToGet (s_domain args) m)
             | Ok scheduleData =>
                 match formatScheduleResponse env scheduleData None with
                 | Throw m => Throw (failedToGet (s_domain args) m)
                 | Ok summary =>
                     Ok (render (s_format args) (directHeading (s_domain args) f) summary)
                 end
             end,
             [GET (scheduleUrl (s_domain args) f)])
        end
    end.
Proof.
  intros Hf.
  unfold run, publishingScheduleGetTool_handler, tryCatch, bind at 1.
  rewrite (supplied_whenTruthy _ _ Hf). cbn [negb andb]. unfold lift at 1.
  destruct (validateDomain (ALLOWED_DOMAINS env) (s_domain args)) as [[]|m] eqn:Hd;
    [|reflexivity].
  rewrite Hf.
  unfold directMode, directSummary, getSchedule, socrataGet, request, bind, lift, ret, throw.
  rewrite Hd. cbn [toString]. simpl app. fold (GET (scheduleUrl (s_domain args) f)).
  destruct (fetch env [] (GET (scheduleUrl (s_domain args) f)))
    as [m | status statusText text parsed]; [reflexivity|].
  destruct (responseOk status); [|reflexivity].
  destruct parsed as [scheduleData | m]; [|reflexivity].
  destruct (formatScheduleResponse env scheduleData None); reflexivity.
Qed.

End DirectMode.

(** C6, as the code has it.  With neither a truthy [fxf] nor a truthy
    [assetName] the call fails with the invalid-arguments message and no
    request is made.  With a truthy [fxf], whether or not [assetName] is
    given, the only request the call can make is the schedule request for
    that identifier, so the catalog is not queried; a result, when there is
    one, is the text of a single summary record; and the call does return
    when the domain is allowed, the fetch succeeds and the schedule can be
    formatted. *)
Theorem schedule_resolver_modes (env : Env) (args : PublishingTools.ScheduleArgs) :
  (PublishingTools.supplied (PublishingTools.fxf args) = false ->
   PublishingTools.supplied (PublishingTools.assetName args) = false ->
   run (PublishingTools.publishingScheduleGetTool_handler env args)
   = (Throw (PublishingTools.failedToGet (PublishingTools.s_domain args)
               PublishingTools.invalidArguments), []))
  /\ (forall f,
        PublishingTools.whenTruthy (PublishingTools.fxf args) = Some f ->
        (snd (run (PublishingTools.publishingScheduleGetTool_handler env args)) = []
         \/ snd (run (PublishingTools.publishingScheduleGetTool_handler env args))
            = [GET (PublishingTools.scheduleUrl (PublishingTools.s_domain args) f)])
        /\ (forall text,
              fst (run (PublishingTools.publishingScheduleGetTool_handler env args)) = Ok text ->
              exists dataset schedule last,
                text = render (PublishingTools.s_format args)
                         (PublishingTools.directHeading (PublishingTools.s_domain args) f)
                         (Obj [("dataset", dataset); ("schedule", schedule); last]))
        /\ (forall status statusText body scheduleData summary,
              validateDomain (ALLOWED_DOMAINS env) (PublishingTools.s_domain args) = Ok tt ->
              fetch env [] (GET (PublishingTools.scheduleUrl
                                   (PublishingTools.s_domain args) f))
              = Response status statusText body (Ok scheduleData) ->
              responseOk status = true ->
              PublishingTools.formatScheduleResponse env scheduleData None = Ok summary ->
              run (PublishingTools.publishingScheduleGetTool_handler env args)
              = (Ok (render (PublishingTools.s_format args)
                       (PublishingTools.directHeading (PublishingTools.s_domain args) f)
                       summary),
                 [GET (PublishingTools.scheduleUrl
                         (PublishingTools.s_domain args) f)]))).
Proof.
  split.
  - intros Hf Hn.
    unfold run, PublishingTools.publishingScheduleGetTool_handler, tryCatch.
    now rewrite Hf, Hn.
  - intros f Hf. rewrite (direct_run env args f Hf).
    split; [|split].
    + destruct (validateDomain _ _); [|now left].
      destruct (fetch env [] _); now right.
    + intros text.
      destruct (validateDomain _ _); [|discriminate].
      destruct (fetch env [] _) as [m | status statusText body parsed]; [discriminate|].
      simpl fst.
      destruct (if responseOk status then parsed else _) as [scheduleData | m];
        [|discriminate].
      destruct (PublishingTools.formatScheduleResponse env scheduleData None)
        as [summary | m] eqn:Hfmt; [|discriminate].
      intros [= <-].
      destruct (formatScheduleResponse_shape _ _ _ _ Hfmt) as (d & sc & l & ->).
      now exists d, sc, l.
    + intros status statusText body scheduleData summary Hd Hfetch Hok Hfmt.
      now rewrite Hd, Hfetch, Hok, Hfmt.
Qed.

Lemma schedule_resolver_modes_witness :
  run (PublishingTools.publishingScheduleGetTool_handler busEnv
         (scheduleArgs None (Some "") detailed))
  = (Throw (PublishingTools.failedToGet "data.x.org" PublishingTools.invalidArguments), [])
  /\ exists summary,
       run (PublishingTools.publishingScheduleGetTool_handler busEnv
              (scheduleArgs (Some "aaaa-1111") (Some "bus") detailed))
       = (Ok (render json (PublishingTools.directHeading "data.x.org" "aaaa-1111")
                (Obj summary)),
          [GET (PublishingTools.scheduleUrl "data.x.org" "aaaa-1111")]).
Proof.
  split.
  - apply (proj1 (schedule_resolver_modes busEnv (scheduleArgs None (Some "") detailed)));
      reflexivity.
  - destruct (proj2 (schedule_resolver_modes busEnv
                       (scheduleArgs (Some "aaaa-1111") (Some "bus") detailed))
                "aaaa-1111" eq_refl) as (_ & _ & Hrun).
    eexists.
    apply (Hrun 200%Z "OK" ""
             (Obj [("cadence", Str "Daily"); ("enabled", Bool true)])
             _ eq_refl eq_refl eq_refl eq_refl).
Defined.

(** C6, as the claim has it: an [fxf] that is given but empty does not win.
    The call goes on to search mode and queries the catalog. *)
Lemma empty_fxf_queries_catalog :
  ~ fxfWins offlineEnv (scheduleArgs (Some "") (Some "bus") detailed).
Proof.
  intros H.
  specialize (H "" (GET (PublishingTools.catalogUrl "data.x.org" "bus")) eq_refl).
  assert (Hreq : GET (PublishingTools.catalogUrl "data.x.org" "bus")
                 = GET (PublishingTools.scheduleUrl "data.x.org" ""))
    by (apply H; vm_compute; left; reflexivity).
  vm_compute in Hreq. discriminate Hreq.
Qed.

Example empty_fxf_requests :
  snd (run (PublishingTools.publishingScheduleGetTool_handler offlineEnv
              (scheduleArgs (Some "") (Some "bus") detailed)))
  = [GET "https://data.x.org/api/catalog/v1?domains=data.x.org&q=bus"].
Proof. reflexivity. Qed.

(** ** Schedule resolver: search mode *)

Section SearchMode.

Import PublishingTools.

Variable env : Env.
Variable domain : string.
Hypothesis allowed : validateDomain (ALLOWED_DOMAINS env) domain = Ok tt.

Lemma resourceOr_pure asset k :
  isNullish asset = false -> resourceOr asset k = Ok (resourceField asset k).
Proof. destruct asset; simpl; try discriminate; reflexivity. Qed.

(** Every asset the filter looked at is an object. *)
Lemma filterR_isDataset_objects assets datasets :
  filterR isDataset assets = Ok datasets ->
  Forall (fun a => isNullish a = false) datasets.
Proof.
  revert datasets. induction assets as [|a assets IH]; intros datasets; simpl.
  - intros [= <-]. constructor.
  - destruct (isNullish a) eqn:Ha.
    + destruct a; try discriminate Ha; discriminate.
    + destruct (isDataset a) as [keep | m]; simpl; [|discriminate].
      destruct (filterR isDataset assets) as [rest | m]; simpl; [|discriminate].
      intros [= <-]. specialize (IH rest eq_refl).
      destruct keep; [constructor|]; assumption.
Qed.

Lemma filterR_nil_of_nil (p : value -> result bool) datasets :
  filterR p [] = Ok datasets -> datasets = [].
Proof. now intros [= <-]. Qed.

Lemma failed_is_failedSummary asset message : failedSummary (failed asset message).
Proof.
  split; [reflexivity|].
  exists (fetchFailed message). split; [reflexivity | discriminate].
Qed.

(** The run of one turn of the loop. *)
Lemma scheduleOf_run asset log :
  isNullish asset = false ->
  scheduleOf env domain asset log
  = match toString (resourceField asset "id") with
    | Throw m => (Ok (failed asset m), log)
    | Ok text =>
        (match fetch env log (GET (scheduleUrl domain text)) with
         | Rejected m => Ok (failed asset m)
         | Response status statusText body parsed =>
             match (if responseOk status then parsed
                    else Throw (apiError status statusText body)) with
             | Throw m => Ok (failed asset m)
             | Ok scheduleData =>
                 match formatScheduleResponse env scheduleData (Some (datasetOf asset)) with
                 | Ok summary => Ok summary
                 | Throw m => Ok (failed asset m)
                 end
             end
         end,
         (log ++ [GET (scheduleUrl domain text)])%list)
    end.
Proof using allowed.
  intros Ha.
  unfold scheduleOf, tryCatch, bind, lift, ret, getSchedule, socrataGet, request.
  rewrite !resourceOr_pure by assumption. rewrite allowed.
  unfold bind, lift. fold (datasetOf asset).
  destruct (toString (resourceField asset "id")) as [text | m]; [|reflexivity].
  fold (GET (scheduleUrl domain text)).
  destruct (fetch env log (GET (scheduleUrl domain text)))
    as [m | status statusText body parsed]; [reflexivity|].
  destruct (responseOk status); [|reflexivity].
  destruct parsed as [scheduleData | m]; [|reflexivity].
  destruct (formatScheduleResponse env scheduleData (Some (datasetOf asset)));
    reflexivity.
Qed.

Lemma formatScheduleResponse_cases scheduleData info summary :
  formatScheduleResponse env scheduleData (Some info) = Ok summary ->
  getOwn summary "dataset" = info
  /\ (truthy scheduleData = false -> failedSummary summary)
  /\ (truthy scheduleData = true -> populatedSummary summary).
Proof.
  unfold formatScheduleResponse.
  destruct (truthy scheduleData); simpl.
  - destruct (generateScheduleSummary env _) as [text | m]; simpl; [|discriminate].
    intros [= <-]. split; [reflexivity|]. split; [discriminate|].
    intros _. now eexists _, _, _.
  - intros [= <-]. split; [reflexivity|]. split; [|discriminate].
    intros _. split; [reflexivity|].
    exists noScheduleData. split; [reflexivity | discriminate].
Qed.

(** A turn that ends in the [catch] block, after a request to [u]. *)
Lemma failed_summaryOf asset text message :
  toString (resourceField asset "id") = Ok text ->
  (forall data,
     fetchGives env (GET (scheduleUrl domain text)) data ->
     truthy data = true ->
     formatScheduleResponse env data (Some (datasetOf asset)) = Throw message
     \/ False) ->
  summaryOf env domain asset (failed asset message).
Proof.
  intros Hid Hno.
  split; [reflexivity|]. split; [left; apply failed_is_failedSummary|].
  split; [intros m Hm; congruence|].
  split; [intros t _ _; apply failed_is_failedSummary|].
  intros t data formatted Ht Hgives Htrue Hformatted.
  assert (t = text) as -> by congruence.
  destruct (Hno data Hgives Htrue) as [Hthrow | []]. congruence.
Qed.

Lemma scheduleOf_summary asset log :
  isNullish asset = false ->
  exists summary,
    scheduleOf env domain asset log
    = (Ok summary, (log ++ scheduleRequests domain asset)%list)
    /\ summaryOf env domain asset summary.
Proof using allowed.
  intros Ha. rewrite scheduleOf_run by assumption. unfold scheduleRequests.
  destruct (toString (resourceField asset "id")) as [text | message] eqn:Hid.
  - destruct (fetch env log (GET (scheduleUrl domain text)))
      as [m | status statusText body parsed] eqn:Hfetch.
    + eexists. split; [reflexivity|].
      apply (failed_summaryOf _ text); [exact Hid|].
      intros data Hgives. destruct (Hgives log) as (st & stt & t & Hg & _). congruence.
    + destruct (responseOk status) eqn:Hok.
      * destruct parsed as [scheduleData | m].
        -- destruct (formatScheduleResponse env scheduleData (Some (datasetOf asset)))
             as [summary | m] eqn:Hfmt.
           ++ exists summary. split; [reflexivity|].
              destruct (formatScheduleResponse_cases _ _ _ Hfmt) as (Hds & Hfalsy & Htruthy).
              split; [exact Hds|]. split.
              { destruct (truthy scheduleData); [right | left]; auto. }
              split; [intros m Hm; congruence|]. split.
              { intros t Ht Hfails. assert (t = text) as -> by congruence.
                specialize (Hfails log). rewrite Hfetch in Hfails.
                destruct Hfails as [Hno | (m & Hm)]; congruence. }
              intros t data formatted Ht Hgives Htrue Hformatted.
              assert (t = text) as -> by congruence.
              destruct (Hgives log) as (st & stt & b & Hg & _).
              rewrite Hfetch in Hg. injection Hg as -> -> -> ->.
              rewrite Hfmt in Hformatted. injection Hformatted as <-.
              split; [reflexivity | now apply Htruthy].
           ++ eexists. split; [reflexivity|].
              apply (failed_summaryOf _ text); [exact Hid|].
              intros data Hgives Htrue. left.
              destruct (Hgives log) as (st & stt & b & Hg & _).
              rewrite Hfetch in Hg. injection Hg as -> -> -> ->. exact Hfmt.
        -- eexists. split; [reflexivity|].
           apply (failed_summaryOf _ text); [exact Hid|].
           intros data Hgives. destruct (Hgives log) as (st & stt & b & Hg & _).
           rewrite Hfetch in Hg. discriminate Hg.
      * eexists. split; [reflexivity|].
        apply (failed_summaryOf _ text); [exact Hid|].
        intros data Hgives. destruct (Hgives log) as (st & stt & b & Hg & Hok').
        rewrite Hfetch in Hg. injection Hg as -> -> -> ->. congruence.
  - eexists. split; [now rewrite app_nil_r|].
    split; [reflexivity|]. split; [left; apply failed_is_failedSummary|].
    split; [intros m Hm; congruence|].
    split; [intros t Ht; congruence|].
    intros t data formatted Ht. congruence.
Qed.

(** The loop never throws: it returns one summary per match, in order. *)
Lemma scheduleAll_summaries datasets log :
  Forall (fun a => isNullish a = false) datasets ->
  exists summaries log',
    scheduleAll env domain datasets log = (Ok summaries, log')
    /\ Forall2 (summaryOf env domain) datasets summaries.
Proof using allowed.
  intros H. revert log. induction H as [|a rest Ha _ IH]; intros log; simpl.
  - exists [], log. split; [reflexivity | constructor].
  - destruct (scheduleOf_summary a log Ha) as (summary & Hrun & Hsum).
    destruct (IH (log ++ scheduleRequests domain a)%list) as (summaries & log' & Hall & Hf).
    exists (summary :: summaries), log'. split.
    + unfold bind. rewrite Hrun, Hall. reflexivity.
    + now constructor.
Qed.

End SearchMode.

Lemma formatResponse_defined data options :
  isDefined data = true -> exists shaped, formatResponse data options = Ok shaped.
Proof.
  intros Hd. unfold formatResponse, truncateResponse, truncateResponseAt.
  match goal with
  | |- context [stringify2 ?v] =>
      assert (Hs : exists s, stringify2 v = Some s)
  end.
  { apply serialize_defined.
    destruct (detail options) as [[|]|]; destruct data; try discriminate; reflexivity. }
  destruct Hs as (s & ->).
  destruct (_ <=? _)%Z; eexists; reflexivity.
Qed.

Lemma getOwn_Arr_length items :
  getOwn (Arr items) "length" = Num (Z.of_nat (List.length items)).
Proof.
  unfold getOwn. simpl ownEnumerable.
  now rewrite lookup_indexed_other by reflexivity.
Qed.

Lemma summaryOf_defined env domain asset summary :
  summaryOf env domain asset summary -> isDefined summary = true.
Proof. intros (Hds & _). now destruct summary. Qed.

(** The loop of search mode.  Once the catalog has answered and at least
    one match is a dataset, the call succeeds whatever happens to the
    schedule fetches.  There is one summary per dataset match, in the order
    of the matches, each carrying the name and identifier of its own match:
    a match whose identifier cannot be put into the URL, or whose fetch
    fails, gets a summary with [schedule: null] and a non-empty [error]; a
    match whose fetch gives schedule data that can be formatted gets the
    populated summary.  One summary is handed on unwrapped, two or more as
    a sequence.  What is handed on then goes through the response shaper:
    with [detail = detailed], and when it fits the character limit, the
    result is returned as it is. *)
Theorem search_partial_failure
  (env : Env) (args : PublishingTools.ScheduleArgs) (name : string)
  (status : Z) (statusText body : string) (response : value)
  (assets datasets : list value) :
  PublishingTools.whenTruthy (PublishingTools.fxf args) = None ->
  PublishingTools.whenTruthy (PublishingTools.assetName args) = Some name ->
  validateDomain (ALLOWED_DOMAINS env) (PublishingTools.s_domain args) = Ok tt ->
  fetch env [] (GET (PublishingTools.catalogUrl (PublishingTools.s_domain args) name))
  = Response status statusText body (Ok response) ->
  responseOk status = true ->
  getProp response "results" = Ok (Arr assets) ->
  PublishingTools.filterR PublishingTools.isDataset assets = Ok datasets ->
  datasets <> [] ->
  exists summaries formatted log,
    run (PublishingTools.publishingScheduleGetTool_handler env args)
    = (Ok (render (PublishingTools.s_format args)
             (PublishingTools.searchHeading (PublishingTools.s_domain args) name
                (List.length summaries))
             formatted),
       log)
    /\ Forall2 (summaryOf env (PublishingTools.s_domain args)) datasets summaries
    /\ formatResponse (PublishingTools.unwrapSingle summaries)
         {| format := Some (PublishingTools.s_format args);
            detail := Some (PublishingTools.s_detail args) |}
       = Ok formatted
    /\ (PublishingTools.s_detail args = detailed ->
        forall s,
          stringify2 (PublishingTools.unwrapSingle summaries) = Some s ->
          (Z.of_nat (String.length s) <= CHARACTER_LIMIT)%Z ->
          formatted = PublishingTools.unwrapSingle summaries)
    /\ (forall only, summaries = [only] -> PublishingTools.unwrapSingle summaries = only)
    /\ (2 <= List.length summaries ->
        PublishingTools.unwrapSingle summaries = Arr summaries).
Proof.
  intros Hfxf Hname Hallowed Hcatalog Hok Hresults Hfilter Hnonempty.
  pose proof (filterR_isDataset_objects _ _ Hfilter) as Hobjects.
  destruct (scheduleAll_summaries env (PublishingTools.s_domain args) Hallowed datasets
              [GET (PublishingTools.catalogUrl (PublishingTools.s_domain args) name)]
              Hobjects)
    as (summaries & log & Hall & Hsummaries).
  assert (Hdefined : isDefined (PublishingTools.unwrapSingle summaries) = true).
  { destruct Hsummaries as [|a s1 rest srest Hs Hrest]; [reflexivity|].
    destruct Hrest; [|reflexivity].
    simpl. eapply summaryOf_defined; eassumption. }
  destruct (formatResponse_defined (PublishingTools.unwrapSingle summaries)
              {| format := Some (PublishingTools.s_format args);
                 detail := Some (PublishingTools.s_detail args) |} Hdefined)
    as (formatted & Hformatted).
  exists summaries, formatted, log.
  split; [|split; [exact Hsummaries | split; [exact Hformatted | split; [|split]]]].
  - unfold run, PublishingTools.publishingScheduleGetTool_handler, tryCatch.
    assert (Hsup : PublishingTools.supplied (PublishingTools.assetName args) = true)
      by (eapply supplied_whenTruthy; eassumption).
    rewrite Hsup, andb_false_r.
    unfold bind at 1, lift at 1. rewrite Hallowed, Hfxf, Hname.
    unfold PublishingTools.searchMode, bind at 1.
    assert (Hsearch :
              PublishingTools.searchResults env args name []
              = (Ok (formatted, List.length summaries), log)).
    { unfold PublishingTools.searchResults, bind at 1.
      unfold PublishingTools.searchCatalog, bind, lift, ret, socrataGet, request.
      rewrite Hallowed. simpl app.
      fold (GET (PublishingTools.catalogUrl (PublishingTools.s_domain args) name)).
      rewrite Hcatalog, Hok, Hresults.
      change (or_else (Arr assets) (Arr [])) with (Arr assets).
      change (truthy (Arr assets)) with true. cbn [negb orb].
      rewrite getOwn_Arr_length. cbn [strictEq].
      destruct assets as [|a assets'].
      { apply filterR_nil_of_nil in Hfilter. contradiction. }
      assert (Hz : (Z.of_nat (List.length (a :: assets')) =? 0)%Z = false)
        by (apply Z.eqb_neq; simpl List.length; lia).
      rewrite Hz, Hfilter.
      destruct datasets as [|d ds]; [contradiction|].
      rewrite Hall, Hformatted. reflexivity. }
    rewrite Hsearch. reflexivity.
  - intros Hdetail s Hs Hle.
    unfold formatResponse in Hformatted. rewrite Hdetail in Hformatted. simpl in Hformatted.
    unfold truncateResponse, truncateResponseAt in Hformatted.
    rewrite Hs in Hformatted. apply Z.leb_le in Hle. rewrite Hle in Hformatted.
    now injection Hformatted.
  - now intros only ->.
  - intros Hlen. destruct summaries as [|s1 [|s2 rest]]; simpl in Hlen; try lia.
    reflexivity.
Qed.

Lemma search_partial_failure_witness :
  exists summaries formatted log,
    run (PublishingTools.publishingScheduleGetTool_handler busEnv (busArgs detailed))
    = (Ok (render json
             (PublishingTools.searchHeading "data.x.org" "bus" (List.length summaries))
             formatted),
       log)
    /\ Forall2 (summaryOf busEnv "data.x.org")
         [Obj [("resource",
                Obj [("type", Str "dataset"); ("name", Str "Bus routes");
                     ("id", Str "aaaa-1111")])];
          Obj [("resource",
                Obj [("type", Str "dataset"); ("name", Str "Bus stops");
                     ("id", Str "bbbb-2222")])]]
         summaries.
Proof.
  destruct (search_partial_failure busEnv (busArgs detailed) "bus"
              200%Z "OK" "" twoBusDatasets
              [Obj [("resource",
                     Obj [("type", Str "dataset"); ("name", Str "Bus routes");
                          ("id", Str "aaaa-1111")])];
               Obj [("resource",
                     Obj [("type", Str "dataset"); ("name", Str "Bus stops");
                          ("id", Str "bbbb-2222")])]]
              [Obj [("resource",
                     Obj [("type", Str "dataset"); ("name", Str "Bus routes");
                          ("id", Str "aaaa-1111")])];
               Obj [("resource",
                     Obj [("type", Str "dataset"); ("name", Str "Bus stops");
                          ("id", Str "bbbb-2222")])]]
              eq_refl eq_refl eq_refl eq_refl eq_refl eq_refl eq_refl
              ltac:(discriminate))
    as (summaries & formatted & log & Hrun & Hsummaries & _).
  exists summaries, formatted, log. split; [exact Hrun | exact Hsummaries].
Defined.


(* ================================================================== *)
(** * Further properties of the code *)
(* ================================================================== *)

(** ** The allowlist variable *)

Section Allowlist.

Lemma split_nonempty sep s : split sep s <> [].
Proof.
  destruct s as [|c s]; simpl; [discriminate|].
  destruct (Ascii.eqb c sep); [discriminate|].
  destruct (split sep s); discriminate.
Qed.

(** Joining what [split] gave restores the text. *)
Lemma join_split sep s : join (String sep EmptyString) (split sep s) = s.
Proof.
  unfold join. induction s as [|c s IH]; [reflexivity|].
  simpl split. destruct (Ascii.eqb_spec c sep) as [-> | Hne].
  - pose proof (split_nonempty sep s) as Hs.
    destruct (split sep s) as [|t ts]; [contradiction|].
    simpl in *. now rewrite IH.
  - pose proof (split_nonempty sep s) as Hs.
    destruct (split sep s) as [|t ts]; [contradiction|].
    destruct ts; simpl in *; now rewrite <- IH.
Qed.

Lemma split_no_separator sep x :
  allChars (fun c => negb (Ascii.eqb c sep)) x = true -> split sep x = [x].
Proof.
  induction x as [|c x IH]; simpl; [reflexivity|].
  intros H. apply andb_prop in H. destruct H as [Hc Hx].
  apply negb_true_iff in Hc. rewrite Hc. now rewrite IH.
Qed.

Lemma split_app_separator sep x rest :
  allChars (fun c => negb (Ascii.eqb c sep)) x = true ->
  split sep (x ++ String sep rest) = x :: split sep rest.
Proof.
  induction x as [|c x IH]; simpl.
  - intros _. now rewrite Ascii.eqb_refl.
  - intros H. apply andb_prop in H. destruct H as [Hc Hx].
    apply negb_true_iff in Hc. rewrite Hc. now rewrite IH.
Qed.

(** Splitting a joined list of separator-free names restores the list. *)
Lemma split_join sep names :
  names <> [] ->
  Forall (fun x => allChars (fun c => negb (Ascii.eqb c sep)) x = true) names ->
  split sep (join (String sep EmptyString) names) = names.
Proof.
  unfold join. intros Hne H. induction H as [|x l Hx Hl IH]; [contradiction|].
  destruct l as [|y l].
  - simpl. now apply split_no_separator.
  - change (String.concat (String sep "") (x :: y :: l))
      with (x ++ String sep (String.concat (String sep "") (y :: l))).
    rewrite split_app_separator by assumption.
    now rewrite IH by discriminate.
Qed.

Lemma trimEnd_idempotent s : trimEnd (trimEnd s) = trimEnd s.
Proof.
  induction s as [|c s IH]; [reflexivity|].
  simpl. destruct (trimEnd s) as [|a t] eqn:E.
  - destruct (isWhiteSpace c) eqn:Hc; [reflexivity|]. simpl. now rewrite Hc.
  - simpl. simpl in IH. now rewrite IH.
Qed.

Lemma trimEnd_keeps_first c s :
  isWhiteSpace c = false -> trimEnd (String c s) = String c (trimEnd s).
Proof. intros Hc. simpl. destruct (trimEnd s); [now rewrite Hc | reflexivity]. Qed.

Lemma trimStart_first s c :
  firstChar (trimStart s) = Some c -> isWhiteSpace c = false.
Proof.
  induction s as [|a s IH]; simpl; [discriminate|].
  destruct (isWhiteSpace a) eqn:Ha; [exact IH|].
  simpl. now intros [= <-].
Qed.

Lemma trimEnd_last s c :
  lastChar (trimEnd s) = Some c -> isWhiteSpace c = false.
Proof.
  induction s as [|a s IH]; simpl; [discriminate|].
  destruct (trimEnd s) as [|b t] eqn:E.
  - destruct (isWhiteSpace a) eqn:Ha; simpl; [discriminate|]. now intros [= <-].
  - exact IH.
Qed.

Lemma trim_idempotent s : trim (trim s) = trim s.
Proof.
  unfold trim.
  destruct (trimStart s) as [|c r] eqn:E; [reflexivity|].
  assert (Hc : isWhiteSpace c = false) by (apply (trimStart_first s); now rewrite E).
  rewrite trimEnd_keeps_first by assumption.
  simpl trimStart. rewrite Hc.
  rewrite trimEnd_keeps_first by assumption.
  now rewrite trimEnd_idempotent.
Qed.

Lemma trim_first s c : firstChar (trim s) = Some c -> isWhiteSpace c = false.
Proof.
  unfold trim.
  destruct (trimStart s) as [|a r] eqn:E; [discriminate|].
  assert (Ha : isWhiteSpace a = false) by (apply (trimStart_first s); now rewrite E).
  rewrite trimEnd_keeps_first by assumption. simpl. now intros [= <-].
Qed.

End Allowlist.

(** X1.  When [SOCRATA_DOMAIN] is a comma-separated list of names, the
    allowlist is the list of the trimmed names, in order, and a domain
    passes the guard exactly when it is one of the trimmed names. *)
Theorem allowlist_of_joined_names (env : Env) (names : list string) :
  SOCRATA_DOMAIN env = Some (join "," names) ->
  Forall (fun x => commaFree x = true) names ->
  join "," names <> "" ->
  ALLOWED_DOMAINS env = map trim names
  /\ forall domain,
       validateDomain (ALLOWED_DOMAINS env) domain = Ok tt <-> In domain (map trim names).
Proof.
  intros Henv Hfree Hne.
  assert (Hnames : names <> []) by (intros ->; now apply Hne).
  assert (Hall : ALLOWED_DOMAINS env = map trim names).
  { unfold ALLOWED_DOMAINS. rewrite Henv.
    apply String.eqb_neq in Hne. rewrite Hne.
    now rewrite (split_join "," names Hnames Hfree). }
  split; [exact Hall|].
  intros domain. rewrite Hall. unfold validateDomain.
  destruct names as [|x l]; [contradiction|]. simpl List.length. simpl Nat.ltb.
  cbn [andb].
  destruct (includes (map trim (x :: l)) domain) eqn:E; cbn [negb].
  - apply includes_In in E. tauto.
  - split; [discriminate|]. intros Hin. apply includes_In in Hin. congruence.
Qed.

Lemma allowlist_of_joined_names_witness :
  ALLOWED_DOMAINS
    {| SOCRATA_DOMAIN := Some "data.x.org, data.y.org ";
       fetch := fun _ _ => Rejected "fetch failed";
       toLocaleDateString := fun _ => "1/1/2024" |}
  = ["data.x.org"; "data.y.org"].
Proof.
  apply (allowlist_of_joined_names
           {| SOCRATA_DOMAIN := Some "data.x.org, data.y.org ";
              fetch := fun _ _ => Rejected "fetch failed";
              toLocaleDateString := fun _ => "1/1/2024" |}
           ["data.x.org"; " data.y.org "] eq_refl).
  - repeat constructor.
  - discriminate.
Defined.

(** X2.  Every entry of the allowlist is trimmed: trimming it again changes
    nothing, and it neither starts nor ends with white space. *)
Theorem allowlist_entries_trimmed (env : Env) (entry : string) :
  In entry (ALLOWED_DOMAINS env) ->
  trim entry = entry
  /\ (forall c, firstChar entry = Some c -> isWhiteSpace c = false)
  /\ (forall c, lastChar entry = Some c -> isWhiteSpace c = false).
Proof.
  unfold ALLOWED_DOMAINS.
  destruct (SOCRATA_DOMAIN env) as [s|]; [|contradiction].
  destruct (s =? ""); [contradiction|].
  intros Hin. apply in_map_iff in Hin. destruct Hin as (x & <- & _).
  split; [apply trim_idempotent|]. split.
  - apply trim_first.
  - intros c. unfold trim. apply trimEnd_last.
Qed.

Lemma allowlist_entries_trimmed_witness :
  trim "data.y.org" = "data.y.org".
Proof.
  apply (allowlist_entries_trimmed
           {| SOCRATA_DOMAIN := Some "data.x.org, data.y.org ";
              fetch := fun _ _ => Rejected "fetch failed";
              toLocaleDateString := fun _ => "1/1/2024" |}
           "data.y.org").
  simpl. right. left. reflexivity.
Defined.

(** ** Percent-encoding of the search text *)

Section Encoding.

Import PublishingTools.

Lemma allChars_app p a b : allChars p (a ++ b) = allChars p a && allChars p b.
Proof.
  induction a as [|c a IH]; simpl; [reflexivity|].
  now rewrite IH, andb_assoc.
Qed.

Lemma upperHexDigit_unreserved n : unreservedChar (upperHexDigit n) = true.
Proof. do 17 (destruct n as [|n]; [reflexivity|]). reflexivity. Qed.

Lemma percent_safe n : allChars uriSafe (percent n) = true.
Proof.
  unfold percent. cbn [allChars]. unfold uriSafe at 2 3.
  fold (unreservedChar (upperHexDigit (n / 16))).
  fold (unreservedChar (upperHexDigit (n mod 16))).
  now rewrite !upperHexDigit_unreserved.
Qed.

End Encoding.

(** X3.  [encodeURIComponent] only produces unreserved characters and
    percent signs: whatever the text, its encoding holds none of the
    characters that structure a URL, so the search text cannot add or end a
    query parameter. *)
Theorem encodeURIComponent_safe (s : string) :
  allChars uriSafe (PublishingTools.encodeURIComponent s) = true
  /\ forall c, In c ["&"; "="; "#"; "?"; "/"; "+"; " "; ":"; "@"]%char -> uriSafe c = false.
Proof.
  split.
  - induction s as [|c s IH]; [reflexivity|].
    cbn [PublishingTools.encodeURIComponent]. rewrite allChars_app, IH, andb_true_r.
    destruct (PublishingTools.isUnreserved (nat_of_ascii c)) eqn:E.
    + cbn [allChars]. unfold uriSafe. now rewrite E.
    + destruct (nat_of_ascii c <? 128)%nat.
      * apply percent_safe.
      * now rewrite allChars_app, !percent_safe.
  - intros c Hc. simpl in Hc.
    repeat (destruct Hc as [<- | Hc]; [reflexivity|]). contradiction.
Qed.

(** X4.  A text made of unreserved characters only, such as a dataset
    identifier, is its own encoding. *)
Theorem encodeURIComponent_unreserved (s : string) :
  allChars unreservedChar s = true -> PublishingTools.encodeURIComponent s = s.
Proof.
  induction s as [|c s IH]; [reflexivity|].
  cbn [allChars]. intros H. apply andb_prop in H. destruct H as [Hc Hs].
  cbn [PublishingTools.encodeURIComponent]. unfold unreservedChar in Hc.
  rewrite Hc, IH by assumption. reflexivity.
Qed.

Lemma encodeURIComponent_unreserved_witness :
  PublishingTools.encodeURIComponent "abcd-1234" = "abcd-1234".
Proof. apply (encodeURIComponent_unreserved "abcd-1234"). reflexivity. Defined.

Example encodeURIComponent_sample :
  PublishingTools.encodeURIComponent "bus & rail?" = "bus%20%26%20rail%3F".
Proof. reflexivity. Qed.

(** ** Formatting a schedule *)

Section ScheduleFormat.

Import PublishingTools.

Variable env : Env.

Lemma dateOr_default v missing :
  dateOr env (or_else v Null) missing = dateOr env v missing.
Proof. unfold dateOr, or_else. now destruct (truthy v) eqn:E; [rewrite E|]. Qed.

(** A falsy value is a primitive: it can be converted. *)
Lemma falsy_printable v : truthy v = false -> printable v = true.
Proof.
  unfold printable. destruct v as [| |[]| | | |]; simpl; try discriminate; reflexivity.
Qed.

(** The date of a field: its text when the value can be converted, the
    error of the conversion when it cannot. *)
Lemma dateOr_cases v missing :
  match toString v with
  | Ok _ => dateOr env v missing = Ok (dateText env v missing)
  | Throw m => dateOr env v missing = Throw m
  end.
Proof.
  unfold dateOr, localeDate, dateText.
  destruct (truthy v) eqn:Hv.
  - destruct (toString v); reflexivity.
  - pose proof (falsy_printable v Hv) as Hp. unfold printable in Hp.
    destruct (toString v); [reflexivity | discriminate Hp].
Qed.



(** The summary of the formatted schedule is told by the payload. *)
Lemma generateScheduleSummary_of_data scheduleData :
  generateScheduleSummary env (scheduleOfData scheduleData) = summaryOfData env scheduleData.
Proof.
  unfold generateScheduleSummary, summaryOfData.
  change (getOwn (scheduleOfData scheduleData) "enabled")
    with (or_else (getOwn scheduleData "enabled") (Bool false)).
  change (getOwn (scheduleOfData scheduleData) "cadence")
    with (or_else (getOwn scheduleData "cadence") (Str "Manual/None")).
  change (getOwn (scheduleOfData scheduleData) "lastRun")
    with (or_else (getOwn scheduleData "lastRun") Null).
  change (getOwn (scheduleOfData scheduleData) "nextRun")
    with (or_else (getOwn scheduleData "nextRun") Null).
  rewrite !dateOr_default.
  assert (He : truthy (or_else (getOwn scheduleData "enabled") (Bool false))
               = truthy (getOwn scheduleData "enabled")).
  { unfold or_else. now destruct (truthy (getOwn scheduleData "enabled")) eqn:E. }
  rewrite He.
  destruct (truthy (getOwn scheduleData "enabled")); [|reflexivity].
  cbn [negb orb].
  unfold or_else.
  destruct (truthy (getOwn scheduleData "cadence")) eqn:Hc; [|reflexivity].
  cbn [negb orb]. rewrite Hc.
  destruct (strictEq (getOwn scheduleData "cadence") (Str "Manual/None")); reflexivity.
Qed.

Lemma formatScheduleResponse_truthy scheduleData assetInfo :
  truthy scheduleData = true ->
  formatScheduleResponse env scheduleData assetInfo
  = bindR (summaryOfData env scheduleData) (fun summary =>
      Ok (Obj [("dataset",
                match assetInfo with
                | Some a => a
                | None =>
                    Obj [("name", or_else (getOwn scheduleData "name") (Str "Unknown"));
                         ("fxf", or_else (getOwn scheduleData "fxf") (Str "Unknown"))]
                end);
               ("schedule", scheduleOfData scheduleData);
               ("summary", Str summary)])).
Proof.
  intros H. unfold formatScheduleResponse. rewrite H. cbn [negb].
  fold (scheduleOfData scheduleData).
  now rewrite generateScheduleSummary_of_data.
Qed.

Lemma or_else_defined x d : isDefined d = true -> isDefined (or_else x d) = true.
Proof.
  intros Hd. unfold or_else. destruct (truthy x) eqn:E; [|exact Hd].
  destruct x; try discriminate; reflexivity.
Qed.

End ScheduleFormat.

(** X5.  The summary of a schedule payload.  A payload that is not enabled,
    or has no cadence, or has the cadence "Manual/None", is summarised as
    updated manually.  For an enabled payload with any other cadence text
    the two dates are converted first: when both can be converted, the
    summary is that cadence in lower case and the two dates, "Unknown" and
    "Not scheduled" standing for a missing last and next run; when the
    last run, or else the next run, cannot be converted, formatting fails
    with the error of that conversion. *)
Theorem formatScheduleResponse_summary
  (env : Env) (scheduleData : value) (assetInfo : option value) :
  truthy scheduleData = true ->
  (truthy (getOwn scheduleData "enabled") = false
   \/ truthy (getOwn scheduleData "cadence") = false
   \/ getOwn scheduleData "cadence" = Str "Manual/None" ->
   exists summary,
     PublishingTools.formatScheduleResponse env scheduleData assetInfo = Ok summary
     /\ getOwn summary "summary" = Str PublishingTools.manualSummary)
  /\ (forall c,
        truthy (getOwn scheduleData "enabled") = true ->
        getOwn scheduleData "cadence" = Str c ->
        c <> "" -> c <> "Manual/None" ->
        (printable (getOwn scheduleData "lastRun") = true ->
         printable (getOwn scheduleData "nextRun") = true ->
         exists summary,
           PublishingTools.formatScheduleResponse env scheduleData assetInfo = Ok summary
           /\ getOwn summary "summary"
              = Str ("Updates " ++ PublishingTools.toLowerCase c
                       ++ ", last updated: "
                       ++ dateText env (getOwn scheduleData "lastRun") "Unknown"
                       ++ ", next update: "
                       ++ dateText env (getOwn scheduleData "nextRun") "Not scheduled"))
        /\ (forall message,
              toString (getOwn scheduleData "lastRun") = Throw message ->
              PublishingTools.formatScheduleResponse env scheduleData assetInfo
              = Throw message)
        /\ (forall message,
              printable (getOwn scheduleData "lastRun") = true ->
              toString (getOwn scheduleData "nextRun") = Throw message ->
              PublishingTools.formatScheduleResponse env scheduleData assetInfo
              = Throw message)).
Proof.
  intros Hdata. rewrite formatScheduleResponse_truthy by assumption.
  unfold summaryOfData. split.
  - intros [He | [Hc | Hm]].
    + rewrite He. eexists. split; reflexivity.
    + rewrite Hc, orb_true_r. eexists. split; reflexivity.
    + rewrite Hm. cbn [strictEq]. rewrite String.eqb_refl, orb_true_r.
      eexists. split; reflexivity.
  - intros c He Hc Hne Hnm. rewrite He, Hc. cbn [truthy strictEq negb orb].
    apply String.eqb_neq in Hne, Hnm. rewrite Hne, Hnm. cbn [negb].
    pose proof (dateOr_cases env (getOwn scheduleData "lastRun") "Unknown") as Hlast.
    pose proof (dateOr_cases env (getOwn scheduleData "nextRun") "Not scheduled") as Hnext.
    unfold printable.
    destruct (toString (getOwn scheduleData "lastRun")) as [l | ml];
      destruct (toString (getOwn scheduleData "nextRun")) as [n | mn];
      rewrite Hlast, ?Hnext; cbn [bindR].
    + split; [intros _ _; eexists; split; reflexivity|].
      split; intros message; [|intros _]; discriminate.
    + split; [intros _; discriminate|].
      split; [intros message; discriminate|].
      now intros message _ [= <-].
    + split; [discriminate|].
      split; [now intros message [= <-] | intros message; discriminate].
    + split; [discriminate|].
      split; [now intros message [= <-] | intros message; discriminate].
Qed.

Lemma formatScheduleResponse_summary_witness :
  exists summary,
    PublishingTools.formatScheduleResponse offlineEnv
      (Obj [("cadence", Str "Weekly"); ("enabled", Bool true);
            ("lastRun", Str "2024-01-01T00:00:00Z")])
      None
    = Ok summary
    /\ getOwn summary "summary"
       = Str "Updates weekly, last updated: 1/1/2024, next update: Not scheduled".
Proof.
  apply (proj1 (proj2 (formatScheduleResponse_summary offlineEnv
                         (Obj [("cadence", Str "Weekly"); ("enabled", Bool true);
                               ("lastRun", Str "2024-01-01T00:00:00Z")])
                         None eq_refl)
                  "Weekly" eq_refl eq_refl ltac:(discriminate) ltac:(discriminate)));
    reflexivity.
Defined.

(** A last run that is an object with a field named [toString] cannot be
    made a date: formatting fails. *)
Example formatScheduleResponse_odd_date :
  PublishingTools.formatScheduleResponse offlineEnv
    (Obj [("cadence", Str "Daily"); ("enabled", Bool true);
          ("lastRun", Obj [("toString", Num 1)])])
    None
  = Throw cannotConvert.
Proof. reflexivity. Qed.



(** X7.  The third text of [generateScheduleSummary], "Schedule information
    available but status unclear", is never the summary of a formatted
    schedule: a payload without cadence is given the cadence "Manual/None"
    before the summary is made. *)
Theorem formatScheduleResponse_never_unclear
  (env : Env) (scheduleData : value) (assetInfo : option value) (summary : value) :
  PublishingTools.formatScheduleResponse env scheduleData assetInfo = Ok summary ->
  getOwn summary "summary" <> Str "Schedule information available but status unclear".
Proof.
  destruct (truthy scheduleData) eqn:Hdata.
  - rewrite formatScheduleResponse_truthy by assumption. unfold summaryOfData.
    destruct (_ || _).
    + intros [= <-]. discriminate.
    + destruct (PublishingTools.dateOr env (getOwn scheduleData "lastRun") "Unknown");
        [|discriminate].
      destruct (PublishingTools.dateOr env (getOwn scheduleData "nextRun") "Not scheduled");
        [|discriminate].
      cbn [bindR].
      destruct (getOwn scheduleData "cadence"); try discriminate.
      intros [= <-]. discriminate.
  - unfold PublishingTools.formatScheduleResponse. rewrite Hdata.
    intros [= <-]. discriminate.
Qed.

Lemma formatScheduleResponse_never_unclear_witness :
  getOwn (Obj [("dataset", PublishingTools.unknownDataset);
               ("schedule", scheduleOfData (Obj [("enabled", Bool true)]));
               ("summary", Str PublishingTools.manualSummary)]) "summary"
  <> Str "Schedule information available but status unclear".
Proof.
  apply (formatScheduleResponse_never_unclear offlineEnv
           (Obj [("enabled", Bool true)]) None).
  reflexivity.
Defined.

(** The same payload, handed to [generateScheduleSummary] without the
    defaults, does get the third text. *)
Example generateScheduleSummary_unclear :
  PublishingTools.generateScheduleSummary offlineEnv (Obj [("enabled", Bool true)])
  = Ok "Schedule information available but status unclear".
Proof. reflexivity. Qed.

(** X8.  The schedule of a formatted payload always has the same nine
    fields, in the same order, and none of them is undefined: each field
    has the payload's value when that value is truthy, and its default when
    the payload lacks the field or holds it with a falsy value. *)
Theorem formatScheduleResponse_fields
  (env : Env) (scheduleData : value) (assetInfo : option value) (summary : value) :
  truthy scheduleData = true ->
  PublishingTools.formatScheduleResponse env scheduleData assetInfo = Ok summary ->
  exists fields,
    getOwn summary "schedule" = Obj fields
    /\ map fst fields = scheduleFields
    /\ forallb (fun kv => isDefined (snd kv)) fields = true
    /\ (forall k, In k scheduleFields ->
          lookup k fields
          = Some (if truthy (getOwn scheduleData k) then getOwn scheduleData k
                  else scheduleDefault k)).
Proof.
  intros Hdata. rewrite formatScheduleResponse_truthy by assumption.
  destruct (summaryOfData env scheduleData) as [text | m]; [|discriminate].
  intros [= <-]. eexists. split; [reflexivity|]. split; [reflexivity|]. split.
  - cbn [forallb snd]. rewrite !or_else_defined by reflexivity. reflexivity.
  - intros k Hk. unfold scheduleFields in Hk. simpl in Hk.
    repeat (destruct Hk as [<- | Hk]; [reflexivity|]).
    contradiction.
Qed.

Lemma formatScheduleResponse_fields_witness :
  exists fields,
    getOwn (Obj [("dataset", PublishingTools.unknownDataset);
                 ("schedule", scheduleOfData (Obj [("rowCount", Num 12); ("status", Str "")]));
                 ("summary", Str PublishingTools.manualSummary)]) "schedule"
    = Obj fields
    /\ lookup "rowCount" fields = Some (Num 12)
    /\ lookup "status" fields = Some (Str "Unknown").
Proof.
  destruct (formatScheduleResponse_fields offlineEnv
              (Obj [("rowCount", Num 12); ("status", Str "")]) None
              _ eq_refl eq_refl) as (fields & H1 & _ & _ & H4).
  exists fields. split; [exact H1|]. split.
  - apply (H4 "rowCount"). simpl. tauto.
  - apply (H4 "status"). simpl. tauto.
Defined.

(** ** Search mode: what is requested, and when it gives up *)

Section SearchRequests.

Import PublishingTools.

Variable env : Env.
Variable args : ScheduleArgs.
Variable name : string.
Variables (status : Z) (statusText body : string) (response results : value).

Hypothesis no_fxf : whenTruthy (fxf args) = None.
Hypothesis by_name : whenTruthy (assetName args) = Some name.
Hypothesis allowed : validateDomain (ALLOWED_DOMAINS env) (s_domain args) = Ok tt.
Hypothesis catalog :
  fetch env [] (GET (catalogUrl (s_domain args) name))
  = Response status statusText body (Ok response).
Hypothesis catalog_ok : responseOk status = true.
Hypothesis catalog_results : getProp response "results" = Ok results.

(** The handler is search mode, and search mode starts with the catalog. *)
Lemma search_run :
  run (publishingScheduleGetTool_handler env args)
  = match searchResults env args name [] with
    | (Ok shaped, log) =>
        (Ok (render (s_format args) (searchHeading (s_domain args) name (snd shaped))
               (fst shaped)), log)
    | (Throw m, log) => (Throw (failedToGet (s_domain args) m), log)
    end.
Proof using no_fxf by_name allowed.
  unfold run, publishingScheduleGetTool_handler, tryCatch.
  rewrite (supplied_whenTruthy _ _ by_name), andb_false_r.
  unfold bind at 1, lift at 1. rewrite allowed, no_fxf, by_name.
  unfold searchMode, bind, ret.
  destruct (searchResults env args name []) as [[shaped | m] log]; reflexivity.
Qed.

Lemma searchCatalog_run :
  searchCatalog env (s_domain args) name []
  = (Ok (or_else results (Arr [])), [GET (catalogUrl (s_domain args) name)]).
Proof using allowed catalog catalog_ok catalog_results.
  unfold searchCatalog, bind, lift, ret, socrataGet, request.
  rewrite allowed. simpl app.
  fold (GET (catalogUrl (s_domain args) name)).
  now rewrite catalog, catalog_ok, catalog_results.
Qed.


End SearchRequests.

(** X9.  Search mode with no result.  When the catalog answers with an empty
    [results] list, or with no [results] at all, the call fails with the
    "No datasets found" message, and the catalog request is the only request
    it has made. *)
Theorem search_without_results
  (env : Env) (args : PublishingTools.ScheduleArgs) (name : string)
  (status : Z) (statusText body : string) (response results : value) :
  PublishingTools.whenTruthy (PublishingTools.fxf args) = None ->
  PublishingTools.whenTruthy (PublishingTools.assetName args) = Some name ->
  validateDomain (ALLOWED_DOMAINS env) (PublishingTools.s_domain args) = Ok tt ->
  fetch env [] (GET (PublishingTools.catalogUrl (PublishingTools.s_domain args) name))
  = Response status statusText body (Ok response) ->
  responseOk status = true ->
  getProp response "results" = Ok results ->
  truthy results = false \/ results = Arr [] ->
  run (PublishingTools.publishingScheduleGetTool_handler env args)
  = (Throw (PublishingTools.failedToGet (PublishingTools.s_domain args)
              ("No datasets found matching name: " ++ String dquote name
                 ++ String dquote
                      ". Try searching the catalog first to find available datasets.")),
     [GET (PublishingTools.catalogUrl (PublishingTools.s_domain args) name)]).
Proof.
  intros Hfxf Hname Hallowed Hcatalog Hok Hresults Hempty.
  rewrite (search_run env args name Hfxf Hname Hallowed).
  unfold PublishingTools.searchResults, bind at 1.
  rewrite (searchCatalog_run env args name _ _ _ _ _ Hallowed Hcatalog Hok Hresults).
  assert (Hnone : or_else results (Arr []) = Arr []).
  { destruct Hempty as [Hf | ->]; [|reflexivity]. unfold or_else. now rewrite Hf. }
  rewrite Hnone. reflexivity.
Qed.

Lemma search_without_results_witness :
  run (PublishingTools.publishingScheduleGetTool_handler
         {| SOCRATA_DOMAIN := None;
            fetch := fun _ _ => Response 200 "OK" "" (Ok (Obj [("resultSetSize", Num 0)]));
            toLocaleDateString := fun _ => "1/1/2024" |}
         (busArgs detailed))
  = (Throw (PublishingTools.failedToGet "data.x.org"
              (PublishingTools.noDatasetsFound "bus")),
     [GET (PublishingTools.catalogUrl "data.x.org" "bus")]).
Proof.
  apply (search_without_results
           {| SOCRATA_DOMAIN := None;
              fetch := fun _ _ =>
                Response 200 "OK" "" (Ok (Obj [("resultSetSize", Num 0)]));
              toLocaleDateString := fun _ => "1/1/2024" |}
           (busArgs detailed) "bus" 200%Z "OK" "" (Obj [("resultSetSize", Num 0)])
           Undefined eq_refl eq_refl eq_refl eq_refl eq_refl eq_refl).
  left. reflexivity.
Defined.





(** A match whose identifier is an object with a field named [toString]
    is not requested: its summary holds the error of the conversion. *)
Example search_skips_odd_identifier :
  snd (run (PublishingTools.publishingScheduleGetTool_handler oddIdEnv (busArgs detailed)))
  = [GET (PublishingTools.catalogUrl "data.x.org" "bus");
     GET (PublishingTools.scheduleUrl "data.x.org" "aaaa-1111")].
Proof. reflexivity. Qed.

(** ** The domain guard comes first *)

(** X12.  No tool sends anything to a domain the guard refuses: each of the
    ten handlers fails, and its log of requests is empty. *)
Theorem refused_domain_is_never_contacted (env : Env) (domain message : string) :
  validateDomain (ALLOWED_DOMAINS env) domain = Throw message ->
  (forall args, CatalogTools.c_domain args = domain ->
     refusedUnrequested (CatalogTools.catalogGetTool_handler env args))
  /\ (forall args, AssetReadTools.a_domain args = domain ->
        refusedUnrequested (AssetReadTools.assetMetadataGetTool_handler env args))
  /\ (forall args, AssetReadTools.a_domain args = domain ->
        refusedUnrequested (AssetReadTools.assetPermissionsGetTool_handler env args))
  /\ (forall args, AssetTools.m_domain args = domain ->
        refusedUnrequested (AssetTools.assetMetadataUpdateTool_handler env args))
  /\ (forall args, AssetTools.p_domain args = domain ->
        refusedUnrequested (AssetTools.assetPermissionsUpdateTool_handler env args))
  /\ (forall args, UserRoleTools.g_domain args = domain ->
        refusedUnrequested (UserRoleTools.userRolesGetTool_handler env args))
  /\ (forall args, UserRoleTools.r_domain args = domain ->
        refusedUnrequested (UserRoleTools.userRolesUpdateTool_handler env args))
  /\ (forall args, WorkflowTools.w_domain args = domain ->
        refusedUnrequested (WorkflowTools.workflowContextGetTool_handler env args))
  /\ (forall args, WorkflowTools.wu_domain args = domain ->
        refusedUnrequested (WorkflowTools.workflowContextUpdateTool_handler env args))
  /\ (forall args, PublishingTools.s_domain args = domain ->
        refusedUnrequested (PublishingTools.publishingScheduleGetTool_handler env args)).
Proof.
  intros Hrefused.
  repeat split; intros args <-; unfold refusedUnrequested, run.
  - unfold CatalogTools.catalogGetTool_handler, tryCatch, bind, lift.
    rewrite Hrefused. now eexists.
  - unfold AssetReadTools.assetMetadataGetTool_handler, tryCatch, bind, lift.
    rewrite Hrefused. now eexists.
  - unfold AssetReadTools.assetPermissionsGetTool_handler, tryCatch, bind, lift.
    rewrite Hrefused. now eexists.
  - unfold AssetTools.assetMetadataUpdateTool_handler, tryCatch, bind, lift.
    rewrite Hrefused. now eexists.
  - unfold AssetTools.assetPermissionsUpdateTool_handler, tryCatch, bind, lift.
    rewrite Hrefused. now eexists.
  - unfold UserRoleTools.userRolesGetTool_handler, tryCatch, bind, lift.
    rewrite Hrefused. now eexists.
  - unfold UserRoleTools.userRolesUpdateTool_handler, tryCatch, bind, lift.
    rewrite Hrefused. now eexists.
  - unfold WorkflowTools.workflowContextGetTool_handler, tryCatch, bind, lift.
    rewrite Hrefused. now eexists.
  - unfold WorkflowTools.workflowContextUpdateTool_handler, tryCatch, bind, lift.
    rewrite Hrefused. now eexists.
  - unfold PublishingTools.publishingScheduleGetTool_handler, tryCatch.
    destruct (negb _ && negb _); [now eexists|].
    unfold bind, lift. rewrite Hrefused. now eexists.
Qed.

Lemma refused_domain_is_never_contacted_witness :
  refusedUnrequested
    (AssetTools.assetPermissionsUpdateTool_handler
       {| SOCRATA_DOMAIN := Some "data.x.org";
          fetch := fun _ _ => Response 200 "OK" "" (Ok (Obj []));
          toLocaleDateString := fun _ => "1/1/2024" |}
       {| AssetTools.p_domain := "data.y.org"; AssetTools.p_assetId := "abcd-1234";
          AssetTools.scope := Some AssetTools.public; AssetTools.users := None;
          AssetTools.replaceUsers := false; AssetTools.p_format := json |}).
Proof.
  destruct (refused_domain_is_never_contacted
              {| SOCRATA_DOMAIN := Some "data.x.org";
                 fetch := fun _ _ => Response 200 "OK" "" (Ok (Obj []));
                 toLocaleDateString := fun _ => "1/1/2024" |}
              "data.y.org" _ eq_refl) as (_ & _ & _ & _ & H & _).
  apply H. reflexivity.
Defined.

(** ** Read, merge, write *)

(** X13.  The two update tools write only what they merged from a
    successful read.  Their requests are: none; or the read alone, when the
    read fails or, for permissions, when the merge fails; or the read
    followed by one write to the same URL whose body is the serialization of
    the merged document. *)
Theorem update_writes_only_the_merge (env : Env) :
  (forall args,
     let u := AssetTools.viewUrl (AssetTools.m_domain args) (AssetTools.m_assetId args) in
     snd (run (AssetTools.assetMetadataUpdateTool_handler env args)) = []
     \/ snd (run (AssetTools.assetMetadataUpdateTool_handler env args)) = [GET u]
        /\ (forall status statusText text current,
              fetch env [] (GET u) = Response status statusText text (Ok current) ->
              responseOk status = false)
     \/ exists status statusText text current,
          fetch env [] (GET u) = Response status statusText text (Ok current)
          /\ responseOk status = true
          /\ snd (run (AssetTools.assetMetadataUpdateTool_handler env args))
             = [GET u; PUT u (AssetTools.mergeMetadata current args)])
  /\ (forall args,
        let u := AssetTools.permissionsUrl (AssetTools.p_domain args)
                   (AssetTools.p_assetId args) in
        snd (run (AssetTools.assetPermissionsUpdateTool_handler env args)) = []
        \/ snd (run (AssetTools.assetPermissionsUpdateTool_handler env args)) = [GET u]
           /\ (forall status statusText text current merged,
                 fetch env [] (GET u) = Response status statusText text (Ok current) ->
                 responseOk status = true ->
                 AssetTools.mergePermissions current args <> Ok merged)
        \/ exists status statusText text current merged,
             fetch env [] (GET u) = Response status statusText text (Ok current)
             /\ responseOk status = true
             /\ AssetTools.mergePermissions current args = Ok merged
             /\ snd (run (AssetTools.assetPermissionsUpdateTool_handler env args))
                = [GET u; PUT u merged]).
Proof.
  split; intros args u.
  - unfold run, AssetTools.assetMetadataUpdateTool_handler, tryCatch, bind, lift,
      socrataGet, socrataPut, request.
    destruct (validateDomain _ _) as [[]|m]; [|now left]. right.
    simpl app. fold u. fold (GET u).
    destruct (fetch env [] (GET u)) as [m | status statusText text parsed] eqn:Hget.
    + left. split; [reflexivity|]. intros; discriminate.
    + destruct (responseOk status) eqn:Hok.
      * destruct parsed as [current | m].
        -- right. exists status, statusText, text, current.
           split; [reflexivity|]. split; [assumption|].
           fold (PUT u (AssetTools.mergeMetadata current args)).
           destruct (fetch env _ (PUT u _)) as [m | st stt t js]; [reflexivity|].
           destruct (responseOk st); [|reflexivity].
           destruct js as [result | m]; [|reflexivity].
           destruct (formatResponse result _); reflexivity.
        -- left. split; [reflexivity|]. intros; discriminate.
      * left. split; [reflexivity|]. intros ? ? ? ? [= -> _ _ _]. assumption.
  - unfold run, AssetTools.assetPermissionsUpdateTool_handler, tryCatch, bind, lift,
      socrataGet, socrataPut, request.
    destruct (validateDomain _ _) as [[]|m]; [|now left]. right.
    simpl app. fold u. fold (GET u).
    destruct (fetch env [] (GET u)) as [m | status statusText text parsed] eqn:Hget.
    + left. split; [reflexivity|]. intros; discriminate.
    + destruct (responseOk status) eqn:Hok.
      * destruct parsed as [current | m].
        -- destruct (AssetTools.mergePermissions current args) as [merged | m] eqn:Hmerge.
           ++ right. exists status, statusText, text, current, merged.
              split; [reflexivity|]. split; [assumption|]. split; [assumption|].
              fold (PUT u merged).
              destruct (fetch env _ (PUT u _)) as [m | st stt t js]; [reflexivity|].
              destruct (responseOk st); [|reflexivity].
              destruct js as [result | m]; [|reflexivity].
              destruct (formatResponse result _); reflexivity.
           ++ left. split; [reflexivity|].
              intros ? ? ? ? ? [= _ _ _ <-] _. congruence.
        -- left. split; [reflexivity|]. intros; discriminate.
      * left. split; [reflexivity|]. intros ? ? ? ? ? [= -> _ _ _]. congruence.
Qed.

Lemma update_writes_only_the_merge_witness :
  snd (run (AssetTools.assetMetadataUpdateTool_handler
              (constantEnv (Obj [("name", Str "A"); ("description", Str "d")]))
              (renameArgs "B")))
  = [GET "https://data.x.org/api/views/abcd-1234.json";
     PUT "https://data.x.org/api/views/abcd-1234.json"
       (Obj [("name", Str "B"); ("description", Str "d")])].
Proof.
  destruct (proj1 (update_writes_only_the_merge
                     (constantEnv (Obj [("name", Str "A"); ("description", Str "d")])))
              (renameArgs "B")) as [H | [[H _] | (st & stt & t & current & Hget & _ & H)]].
  - discriminate H.
  - discriminate H.
  - injection Hget as _ _ _ <-. exact H.
Defined.

(** ** Metadata merge: applying a patch twice *)

Lemma setProp_same_value k v fs : lookup k fs = Some v -> setProp k v fs = fs.
Proof.
  induction fs as [|[k0 v0] fs IH]; simpl; [discriminate|].
  destruct (String.eqb_spec k0 k) as [-> | Hne].
  - now intros [= ->].
  - intros H. now rewrite IH.
Qed.

Lemma assign_absorbed k x fs :
  (forall v, x = Some v -> lookup k fs = Some v) -> AssetTools.assign k x fs = fs.
Proof.
  destruct x as [v|]; [|reflexivity].
  intros H. simpl. apply setProp_same_value. now apply H.
Qed.

(** X14.  The metadata merge is idempotent: merging the same patch into the
    merged document gives the merged document again. *)
Theorem mergeMetadata_idempotent (currentMetadata : value) (args : AssetTools.MetadataArgs) :
  AssetTools.mergeMetadata (AssetTools.mergeMetadata currentMetadata args) args
  = AssetTools.mergeMetadata currentMetadata args.
Proof.
  unfold AssetTools.mergeMetadata at 1.
  remember (AssetTools.mergeMetadata currentMetadata args) as merged eqn:Hm.
  unfold AssetTools.mergeMetadata in Hm.
  match type of Hm with _ = Obj ?fs => set (fields := fs) in * end.
  subst merged. simpl ownEnumerable.
  assert (Hname : forall v, option_map Str (AssetTools.name args) = Some v ->
                            lookup "name" fields = Some v).
  { intros v Hv. subst fields. rewrite !lookup_assign. simpl. now rewrite Hv. }
  assert (Hdesc : forall v, option_map Str (AssetTools.description args) = Some v ->
                            lookup "description" fields = Some v).
  { intros v Hv. subst fields. rewrite !lookup_assign. simpl. now rewrite Hv. }
  assert (Htags : forall v,
             option_map (fun l => Arr (map Str l)) (AssetTools.tags args) = Some v ->
             lookup "tags" fields = Some v).
  { intros v Hv. subst fields. rewrite !lookup_assign. simpl. now rewrite Hv. }
  assert (Hcat : forall v, option_map Str (AssetTools.category args) = Some v ->
                           lookup "category" fields = Some v).
  { intros v Hv. subst fields. rewrite !lookup_assign. simpl. now rewrite Hv. }
  assert (Hattr : forall v, option_map Str (AssetTools.attribution args) = Some v ->
                            lookup "attribution" fields = Some v).
  { intros v Hv. subst fields. rewrite !lookup_assign. simpl. now rewrite Hv. }
  assert (Hlic : forall v, option_map Str (AssetTools.license args) = Some v ->
                           lookup "license" fields = Some v).
  { intros v Hv. subst fields. rewrite !lookup_assign. simpl. now rewrite Hv. }
  clearbody fields.
  rewrite (assign_absorbed "name") by assumption.
  rewrite (assign_absorbed "description") by assumption.
  rewrite (assign_absorbed "tags") by assumption.
  rewrite (assign_absorbed "category") by assumption.
  rewrite (assign_absorbed "attribution") by assumption.
  rewrite (assign_absorbed "license") by assumption.
  reflexivity.
Qed.

(** ** Permission merge: grants without identity, and what a merge keeps *)

Section Anonymous.

Import AssetTools.

Lemma anonymous_never_matches newUser u :
  anonymous newUser = true -> matchesUser newUser u = Ok false.
Proof.
  unfold anonymous, PublishingTools.supplied, PublishingTools.whenTruthy,
    matchesUser, sameField.
  destruct (id newUser) as [i|]; destruct (email newUser) as [e|];
    try destruct (i =? ""); try destruct (e =? ""); simpl; try discriminate; reflexivity.
Qed.

Lemma anonymous_findIndex newUser i existing :
  anonymous newUser = true ->
  findIndexFrom (matchesUser newUser) i existing = Ok None.
Proof.
  intros H. revert i. induction existing as [|u rest IH]; intros i; simpl.
  - reflexivity.
  - rewrite anonymous_never_matches by assumption. simpl. apply IH.
Qed.

Lemma anonymous_upsertAll existing updated incoming :
  forallb anonymous incoming = true ->
  upsertAll existing updated incoming = Ok (updated ++ map userObject incoming)%list.
Proof.
  revert updated. induction incoming as [|n rest IH]; intros updated; simpl.
  - intros _. now rewrite app_nil_r.
  - intros H. apply andb_prop in H. destruct H as [Hn Hrest].
    unfold upsertUser, findIndex. rewrite anonymous_findIndex by assumption. simpl.
    rewrite IH by assumption. now rewrite <- app_assoc.
Qed.

End Anonymous.

(** X15.  Grants that carry neither a non-empty [id] nor a non-empty [email]
    are new unconditionally: whatever the current list holds, even [null]
    entries, the merge succeeds, keeps the list as it was and appends the
    grants in order. *)
Theorem anonymous_grants_are_appended
  (existing : list value) (incoming : list AssetTools.UserPermission) :
  forallb anonymous incoming = true ->
  AssetTools.mergeUsers (Arr existing) incoming
  = Ok (Arr (existing ++ map AssetTools.userObject incoming)).
Proof.
  intros H. unfold AssetTools.mergeUsers. simpl.
  now rewrite anonymous_upsertAll.
Qed.

Lemma anonymous_grants_are_appended_witness :
  AssetTools.mergeUsers (Arr [Null; Obj [("id", Str "u1")]])
    [ {| AssetTools.id := Some ""; AssetTools.email := None;
         AssetTools.accessLevels := [] |} ]
  = Ok (Arr [Null; Obj [("id", Str "u1")];
             Obj [("id", Str ""); ("accessLevels", Arr [])]]).
Proof.
  apply (anonymous_grants_are_appended [Null; Obj [("id", Str "u1")]]
           [ {| AssetTools.id := Some ""; AssetTools.email := None;
                AssetTools.accessLevels := [] |} ]).
  reflexivity.
Defined.

(** X16.  The merge of a grant over a matched entry is shallow: each field
    the grant carries ([id] and [email] when given, [accessLevels] always)
    takes the grant's value, and every other field of the entry keeps its
    value. *)
Theorem merged_entry_fields
  (entry : list (string * value)) (newUser : AssetTools.UserPermission) (k : string) :
  lookup k (AssetTools.spreadOver entry (AssetTools.userFields newUser))
  = match lookup k (AssetTools.userFields newUser) with
    | Some v => Some v
    | None => lookup k entry
    end.
Proof.
  unfold AssetTools.spreadOver, AssetTools.userFields, AssetTools.optionalField.
  destruct (AssetTools.id newUser) as [i|]; destruct (AssetTools.email newUser) as [e|];
    cbn [app fold_left fst snd lookup].
  - destruct (String.eqb_spec "id" k) as [<- | H1].
    { rewrite !lookup_setProp_other by discriminate. apply lookup_setProp_same. }
    destruct (String.eqb_spec "email" k) as [<- | H2].
    { rewrite lookup_setProp_other by discriminate. apply lookup_setProp_same. }
    destruct (String.eqb_spec "accessLevels" k) as [<- | H3].
    { apply lookup_setProp_same. }
    now rewrite !lookup_setProp_other by assumption.
  - destruct (String.eqb_spec "id" k) as [<- | H1].
    { rewrite !lookup_setProp_other by discriminate. apply lookup_setProp_same. }
    destruct (String.eqb_spec "accessLevels" k) as [<- | H3].
    { apply lookup_setProp_same. }
    now rewrite !lookup_setProp_other by assumption.
  - destruct (String.eqb_spec "email" k) as [<- | H2].
    { rewrite lookup_setProp_other by discriminate. apply lookup_setProp_same. }
    destruct (String.eqb_spec "accessLevels" k) as [<- | H3].
    { apply lookup_setProp_same. }
    now rewrite !lookup_setProp_other by assumption.
  - destruct (String.eqb_spec "accessLevels" k) as [<- | H3].
    { apply lookup_setProp_same. }
    now rewrite !lookup_setProp_other by assumption.
Qed.

Section NullEntry.

Import AssetTools.

Lemma findIndexFrom_skip newUser i scanned rest :
  Forall (fun u => isNullish u = false) scanned ->
  firstMatchFrom newUser i scanned = None ->
  findIndexFrom (matchesUser newUser) i (scanned ++ rest)
  = findIndexFrom (matchesUser newUser) (i + List.length scanned) rest.
Proof.
  intros H. revert i. induction H as [|u l Hu _ IH]; intros i; simpl.
  - intros _. now rewrite Nat.add_0_r.
  - rewrite matchesUser_pure by assumption. simpl.
    destruct (matchesEntry newUser u); [discriminate|].
    intros Hnone. rewrite IH by assumption. f_equal. lia.
Qed.

End NullEntry.

(** X17.  A [null] entry in the current list stops the scan of a grant that
    has an [id] or an [email] and matches no entry before it: reading the
    field of [null] throws, and the whole merge fails with that error
    instead of appending the grant. *)
Theorem null_entry_fails_the_merge
  (scanned rest : list value)
  (newUser : AssetTools.UserPermission) (others : list AssetTools.UserPermission) :
  anonymous newUser = false ->
  Forall (fun u => isNullish u = false) scanned ->
  firstMatch scanned newUser = None ->
  AssetTools.mergeUsers (Arr (scanned ++ Null :: rest)) (newUser :: others)
  = Throw ("Cannot read properties of null (reading '"
             ++ (if PublishingTools.supplied (AssetTools.id newUser) then "id" else "email")
             ++ "')").
Proof.
  intros Hanon Hscanned Hnone.
  unfold AssetTools.mergeUsers.
  change (or_else (Arr (scanned ++ Null :: rest)) (Arr []))
    with (Arr (scanned ++ Null :: rest)).
  cbv iota beta.
  cbn [AssetTools.upsertAll]. unfold AssetTools.upsertUser, AssetTools.findIndex.
  rewrite findIndexFrom_skip by assumption.
  cbn [AssetTools.findIndexFrom].
  unfold anonymous, PublishingTools.supplied, PublishingTools.whenTruthy in *.
  unfold AssetTools.matchesUser, AssetTools.sameField.
  destruct (AssetTools.id newUser) as [i|]; destruct (AssetTools.email newUser) as [e|];
    try destruct (i =? ""); try destruct (e =? ""); simpl in *;
    try discriminate; reflexivity.
Qed.

Lemma null_entry_fails_the_merge_witness :
  AssetTools.mergeUsers (Arr [Obj [("id", Str "u1")]; Null; Obj [("id", Str "u2")]])
    [ {| AssetTools.id := Some "u2"; AssetTools.email := None;
         AssetTools.accessLevels := [] |} ]
  = Throw "Cannot read properties of null (reading 'id')".
Proof.
  apply (null_entry_fails_the_merge [Obj [("id", Str "u1")]] [Obj [("id", Str "u2")]]
           {| AssetTools.id := Some "u2"; AssetTools.email := None;
              AssetTools.accessLevels := [] |} []).
  - reflexivity.
  - repeat constructor.
  - reflexivity.
Defined.

(** ** The shaper: what it returns can be printed *)

(** X18.  The shaper fails on [undefined] and on nothing else, and what it
    returns always has a serialization, so the text of a tool result is
    never the word "undefined". *)
Theorem formatResponse_printable (data : value) (options : FormatOptions) :
  ((exists message, formatResponse data options = Throw message) <-> data = Undefined)
  /\ (forall shaped,
        formatResponse data options = Ok shaped ->
        exists text,
          stringify2 shaped = Some text
          /\ forall fmt heading,
               render fmt heading shaped
               = match fmt with
                 | markdown =>
                     heading ++ newline ++ newline ++ "```json" ++ newline ++ text
                       ++ newline ++ "```"
                 | json => text
                 end).
Proof.
  assert (Hcases :
            data = Undefined /\ (exists m, formatResponse data options = Throw m)
            \/ data <> Undefined
               /\ exists shaped text,
                    formatResponse data options = Ok shaped
                    /\ stringify2 shaped = Some text).
  { destruct (isDefined data) eqn:Hd.
    - right. split; [now destruct data|].
      unfold formatResponse, truncateResponse, truncateResponseAt.
      match goal with
      | |- context [stringify2 ?v] =>
          assert (Hs : exists s, stringify2 v = Some s);
          [apply serialize_defined;
           destruct (detail options) as [[|]|]; destruct data; try discriminate; reflexivity|]
      end.
      destruct Hs as (s & Hs). rewrite Hs.
      destruct (_ <=? _)%Z.
      + eexists _, s. split; [reflexivity | exact Hs].
      + eexists _, _. split; reflexivity.
    - left. destruct data; try discriminate. split; [reflexivity|].
      unfold formatResponse. destruct (detail options) as [[|]|]; now eexists. }
  split.
  - destruct Hcases as [[Hu Hthrow] | [Hd (shaped & text & Hrun & _)]].
    + tauto.
    + split; [|contradiction]. intros (m & Hm). congruence.
  - intros shaped Hshaped.
    destruct Hcases as [[_ (m & Hm)] | [_ (shaped' & text & Hrun & Htext)]]; [congruence|].
    rewrite Hrun in Hshaped. injection Hshaped as <-.
    exists text. split; [exact Htext|].
    intros fmt heading. unfold render, fenced. rewrite Htext. now destruct fmt.
Qed.

Lemma formatResponse_printable_witness :
  exists text, stringify2 (Arr [Num 1; Str "a"]) = Some text.
Proof.
  destruct (proj2 (formatResponse_printable (Arr [Num 1; Str "a"]) conciseOptions)
              (Arr [Num 1; Str "a"]) eq_refl) as (text & Htext & _).
  exists text. exact Htext.
Defined.

(** X19.  The concise view is idempotent: the concise view of a concise view
    is that view again, so shaping a concise sequence once more changes
    nothing. *)
Theorem conciseItem_idempotent :
  (forall item, conciseItem (conciseItem item) = conciseItem item)
  /\ forall items, map conciseItem (map conciseItem items) = map conciseItem items.
Proof.
  assert (H : forall item, conciseItem (conciseItem item) = conciseItem item)
    by (intros item; destruct item; reflexivity).
  split; [exact H|].
  intros items. rewrite map_map. apply map_ext. exact H.
Qed.

(** ** The body of a write is one line *)

Section SingleLine.

(** Induction over values, through arrays and records. *)
Lemma value_nested_ind (P : value -> Prop) :
  P Undefined -> P Null -> (forall b, P (Bool b)) -> (forall n, P (Num n)) ->
  (forall s, P (Str s)) ->
  (forall items, Forall P items -> P (Arr items)) ->
  (forall fields, Forall (fun kv => P (snd kv)) fields -> P (Obj fields)) ->
  forall v, P v.
Proof.
  intros HU HN HB HZ HS HA HO.
  fix IH 1.
  intros [| |b|n|s|items|fields];
    [exact HU | exact HN | apply HB | apply HZ | apply HS | | ].
  - apply HA. induction items as [|x items IHitems]; constructor; [apply IH | exact IHitems].
  - apply HO. induction fields as [|[k x] fields IHfields]; constructor;
      [apply IH | exact IHfields].
Qed.

Lemma allChars_concat p sep l :
  allChars p sep = true ->
  Forall (fun x => allChars p x = true) l ->
  allChars p (String.concat sep l) = true.
Proof.
  intros Hsep H. induction H as [|x l Hx Hl IH]; [reflexivity|].
  destruct l as [|y l]; [exact Hx|].
  change (String.concat sep (x :: y :: l)) with (x ++ sep ++ String.concat sep (y :: l)).
  now rewrite !allChars_app, Hx, Hsep, IH.
Qed.

Lemma quoteChar_notControl c : allChars notControl (quoteChar c) = true.
Proof. destruct c as [[] [] [] [] [] [] [] []]; reflexivity. Qed.

Lemma quote_notControl s : allChars notControl (quote s) = true.
Proof.
  unfold quote. cbn [allChars]. rewrite allChars_app.
  assert (H : allChars notControl (quoteBody s) = true).
  { induction s as [|c s IH]; [reflexivity|].
    simpl quoteBody. now rewrite allChars_app, quoteChar_notControl, IH. }
  now rewrite H.
Qed.

Lemma digits_notControl d : allChars notControl (NilEmpty.string_of_uint d) = true.
Proof. induction d; simpl; auto. Qed.

Lemma numberToString_notControl n : allChars notControl (numberToString n) = true.
Proof.
  unfold numberToString, NilZero.string_of_int, NilZero.string_of_uint.
  destruct (Z.to_int n) as [d | d]; destruct d; try reflexivity;
    try apply digits_notControl;
    cbn [allChars]; rewrite digits_notControl; reflexivity.
Qed.

Lemma wrap_compact_notControl indent opening closing partial :
  allChars notControl opening = true ->
  allChars notControl closing = true ->
  Forall (fun x => allChars notControl x = true) partial ->
  allChars notControl (wrap "" indent opening closing partial) = true.
Proof.
  intros Ho Hc Hp. unfold wrap.
  destruct partial as [|x l]; [now rewrite allChars_app, Ho, Hc|].
  cbn [String.eqb]. unfold join.
  now rewrite !allChars_app, Ho, Hc, (allChars_concat notControl "," (x :: l) eq_refl Hp).
Qed.

End SingleLine.

(** X20.  The compact serialization, which is the body of every write, holds
    no control character: it is a single line, with every line break, tab
    and other control character of a string written as an escape. *)
Theorem stringify_single_line (data : value) (text : string) :
  stringify data = Some text -> allChars notControl text = true.
Proof.
  unfold stringify. generalize "" at 2 as indent. revert text.
  induction data as [| |b|n|s|items IH|fields IH] using value_nested_ind;
    intros text indent; simpl.
  - discriminate.
  - now intros [= <-].
  - destruct b; now intros [= <-].
  - intros [= <-]. apply numberToString_notControl.
  - intros [= <-]. apply quote_notControl.
  - intros [= <-]. apply wrap_compact_notControl; try reflexivity.
    induction IH as [|x l Hx _ IHl]; constructor; [|exact IHl].
    destruct (serialize "" (indent ++ "") x) as [sx|] eqn:E; [|reflexivity].
    now apply (Hx sx (indent ++ "")).
  - intros [= <-]. apply wrap_compact_notControl; try reflexivity.
    induction IH as [|[k x] l Hx _ IHl]; [constructor|].
    cbn [flat_map fst snd].
    destruct (serialize "" (indent ++ "") x) as [sx|] eqn:E; [|exact IHl].
    cbn [app]. constructor; [|exact IHl].
    change (String dquote ((quoteBody k ++ String dquote "") ++ String ":" sx))
      with (quote k ++ String ":" sx).
    rewrite allChars_app, quote_notControl. cbn [allChars andb].
    simpl in Hx. now rewrite (Hx sx (indent ++ "") E).
Qed.

Lemma stringify_single_line_witness :
  allChars notControl
    ("{" ++ quote "a" ++ ":" ++ quote ("line" ++ newline ++ "break") ++ "}") = true.
Proof.
  apply (stringify_single_line (Obj [("a", Str ("line" ++ newline ++ "break"))])).
  reflexivity.
Defined.

(** ** Tools that read never write *)

Section ReadsOnly.

Lemma readsOnly_ret {A} (a : A) : readsOnly (ret a).
Proof. intros log H. exact H. Qed.

Lemma readsOnly_throw {A} m : readsOnly (@throw A m).
Proof. intros log H. exact H. Qed.

Lemma readsOnly_lift {A} (r : result A) : readsOnly (lift r).
Proof. intros log H. exact H. Qed.

Lemma readsOnly_bind {A B} (c : M A) (k : A -> M B) :
  readsOnly c -> (forall a, readsOnly (k a)) -> readsOnly (bind c k).
Proof.
  intros Hc Hk log Hlog. unfold bind. specialize (Hc log Hlog).
  destruct (c log) as [[a | m] log']; simpl in Hc; [now apply Hk | exact Hc].
Qed.

Lemma readsOnly_tryCatch {A} (c : M A) (handler : string -> M A) :
  readsOnly c -> (forall m, readsOnly (handler m)) -> readsOnly (tryCatch c handler).
Proof.
  intros Hc Hh log Hlog. unfold tryCatch. specialize (Hc log Hlog).
  destruct (c log) as [[a | m] log']; simpl in Hc; [exact Hc | now apply Hh].
Qed.

Lemma readsOnly_socrataGet env u : readsOnly (socrataGet env u).
Proof.
  intros log Hlog. unfold socrataGet, request.
  assert (H : forallb isGet (log ++ [{| method := "GET"; url := u; body := None |}])
              = true)
    by (rewrite forallb_app, Hlog; reflexivity).
  destruct (fetch env log _) as [m | status statusText text parsed]; [exact H|].
  destruct (responseOk status); exact H.
Qed.

Lemma readsOnly_present fmt heading formatted :
  readsOnly heading -> readsOnly (CatalogTools.present fmt heading formatted).
Proof.
  intros H. destruct fmt; simpl.
  - apply readsOnly_ret.
  - apply readsOnly_bind; [exact H | intros; apply readsOnly_ret].
Qed.

Lemma readsOnly_getSchedule env domain fxf :
  readsOnly (PublishingTools.getSchedule env domain fxf).
Proof.
  unfold PublishingTools.getSchedule.
  apply readsOnly_bind; [apply readsOnly_lift | intros _].
  apply readsOnly_bind; [apply readsOnly_lift | intros; apply readsOnly_socrataGet].
Qed.

Lemma readsOnly_scheduleOf env domain asset :
  readsOnly (PublishingTools.scheduleOf env domain asset).
Proof.
  unfold PublishingTools.scheduleOf.
  apply readsOnly_tryCatch.
  - apply readsOnly_bind; [apply readsOnly_lift | intros name].
    apply readsOnly_bind; [apply readsOnly_lift | intros assetFxf].
    apply readsOnly_bind; [apply readsOnly_getSchedule | intros; apply readsOnly_lift].
  - intros m.
    apply readsOnly_bind; [apply readsOnly_lift | intros name].
    apply readsOnly_bind; [apply readsOnly_lift | intros; apply readsOnly_ret].
Qed.

Lemma readsOnly_scheduleAll env domain assets :
  readsOnly (PublishingTools.scheduleAll env domain assets).
Proof.
  induction assets as [|a rest IH]; simpl.
  - apply readsOnly_ret.
  - apply readsOnly_bind; [apply readsOnly_scheduleOf | intros summary].
    apply readsOnly_bind; [exact IH | intros; apply readsOnly_ret].
Qed.

Lemma readsOnly_searchResults env args name :
  readsOnly (PublishingTools.searchResults env args name).
Proof.
  unfold PublishingTools.searchResults.
  apply readsOnly_bind.
  - unfold PublishingTools.searchCatalog.
    apply readsOnly_bind; [apply readsOnly_lift | intros _].
    apply readsOnly_bind; [apply readsOnly_socrataGet | intros response].
    apply readsOnly_bind; [apply readsOnly_lift | intros; apply readsOnly_ret].
  - intros catalogResponse.
    destruct (_ || _); [apply readsOnly_throw|].
    destruct catalogResponse; try apply readsOnly_throw.
    apply readsOnly_bind; [apply readsOnly_lift | intros datasetAssets].
    destruct datasetAssets;
      [apply readsOnly_bind; [apply readsOnly_lift | intros; apply readsOnly_throw]|].
    apply readsOnly_bind; [apply readsOnly_scheduleAll | intros scheduleResults].
    apply readsOnly_bind; [apply readsOnly_lift | intros; apply readsOnly_ret].
Qed.

Lemma readsOnly_schedule_handler env args :
  readsOnly (PublishingTools.publishingScheduleGetTool_handler env args).
Proof.
  unfold PublishingTools.publishingScheduleGetTool_handler.
  apply readsOnly_tryCatch; [|intros; apply readsOnly_throw].
  destruct (_ && _); [apply readsOnly_throw|].
  apply readsOnly_bind; [apply readsOnly_lift | intros _].
  destruct (PublishingTools.whenTruthy (PublishingTools.fxf args)) as [f|].
  - unfold PublishingTools.directMode, PublishingTools.directSummary.
    apply readsOnly_bind; [|intros; apply readsOnly_ret].
    apply readsOnly_bind; [apply readsOnly_getSchedule | intros; apply readsOnly_lift].
  - destruct (PublishingTools.whenTruthy (PublishingTools.assetName args)) as [n|];
      [|apply readsOnly_throw].
    unfold PublishingTools.searchMode.
    apply readsOnly_bind; [apply readsOnly_searchResults | intros; apply readsOnly_ret].
Qed.

(** The shape shared by the read tools: guard, one read, shaping, text. *)
Lemma readsOnly_read_tool {A} env domain u options fmt
  (heading : A -> M string) (project : value -> A) wrapMessage :
  (forall a, readsOnly (heading a)) ->
  readsOnly
    (tryCatch
       (lift (validateDomain (ALLOWED_DOMAINS env) domain) ;;;
        response <- socrataGet env u ;;
        formatted <- lift (formatResponse response options) ;;
        CatalogTools.present fmt (heading (project response)) formatted)
       (fun message => throw (wrapMessage message))).
Proof.
  intros Hh.
  apply readsOnly_tryCatch; [|intros; apply readsOnly_throw].
  apply readsOnly_bind; [apply readsOnly_lift | intros _].
  apply readsOnly_bind; [apply readsOnly_socrataGet | intros response].
  apply readsOnly_bind; [apply readsOnly_lift | intros formatted].
  apply readsOnly_present. apply Hh.
Qed.

End ReadsOnly.

(** X21.  The six tools that are declared read-only only ever read: every
    request of a call, whatever the remote answers, is a GET without a
    body. *)
Theorem read_tools_never_write (env : Env) :
  (forall args,
     forallb isGet (snd (run (PublishingTools.publishingScheduleGetTool_handler env args)))
     = true)
  /\ (forall args,
        forallb isGet (snd (run (CatalogTools.catalogGetTool_handler env args))) = true)
  /\ (forall args,
        forallb isGet (snd (run (AssetReadTools.assetMetadataGetTool_handler env args)))
        = true)
  /\ (forall args,
        forallb isGet (snd (run (AssetReadTools.assetPermissionsGetTool_handler env args)))
        = true)
  /\ (forall args,
        forallb isGet (snd (run (UserRoleTools.userRolesGetTool_handler env args))) = true)
  /\ (forall args,
        forallb isGet (snd (run (WorkflowTools.workflowContextGetTool_handler env args)))
        = true).
Proof.
  repeat split; intros args; unfold run.
  - now apply readsOnly_schedule_handler.
  - apply (readsOnly_read_tool env _ _ _ _ (fun response => _) (fun response => response));
      [|reflexivity].
    intros response.
    repeat (apply readsOnly_bind; [apply readsOnly_lift | intros ?]).
    apply readsOnly_ret.
  - apply (readsOnly_read_tool env _ _ _ _ (fun response => _) (fun response => response));
      [|reflexivity].
    intros response.
    repeat (apply readsOnly_bind; [apply readsOnly_lift | intros ?]).
    apply readsOnly_ret.
  - apply (readsOnly_read_tool env _ _ _ _ (fun response => _) (fun response => response));
      [|reflexivity].
    intros response.
    repeat (apply readsOnly_bind; [apply readsOnly_lift | intros ?]).
    apply readsOnly_ret.
  - unfold UserRoleTools.userRolesGetTool_handler.
    apply readsOnly_tryCatch; [|intros; apply readsOnly_throw|reflexivity].
    apply readsOnly_bind; [apply readsOnly_lift | intros _].
    apply readsOnly_bind; [apply readsOnly_socrataGet | intros roles].
    apply readsOnly_bind; [apply readsOnly_lift | intros; apply readsOnly_ret].
  - unfold WorkflowTools.workflowContextGetTool_handler, WorkflowTools.getWorkflowContext.
    apply readsOnly_tryCatch; [|intros; apply readsOnly_throw|reflexivity].
    apply readsOnly_bind; [apply readsOnly_lift | intros _].
    apply readsOnly_bind.
    + apply readsOnly_bind; [apply readsOnly_lift | intros; apply readsOnly_socrataGet].
    + intros context.
      apply readsOnly_bind; [apply readsOnly_lift | intros formatted].
      apply readsOnly_present.
      repeat (apply readsOnly_bind; [apply readsOnly_lift | intros ?]).
      apply readsOnly_ret.
Qed.

(** ** A role update is one blind write *)

Lemma stringify_rolesBody roles :
  stringify (UserRoleTools.rolesBody roles)
  = Some ("{" ++ quote "roles" ++ ":[" ++ join "," (map quote roles) ++ "]}").
Proof.
  unfold stringify, UserRoleTools.rolesBody.
  cbn [serialize flat_map snd fst String.eqb app].
  rewrite map_map. cbn [serialize].
  change (map (fun x => quote x) roles) with (map quote roles).
  destruct roles as [|r rest]; [reflexivity|].
  cbn [map wrap String.eqb join String.concat].
  f_equal. rewrite !append_assoc. reflexivity.
Qed.

(** X22.  On an allowed domain a role update sends exactly one request
    whatever the remote answers: a PUT to the roles of the user whose body
    holds the given roles and nothing else.  The roles the user had are
    never read. *)
Theorem roles_update_is_one_write (env : Env) (args : UserRoleTools.RolesUpdateArgs) :
  validateDomain (ALLOWED_DOMAINS env) (UserRoleTools.r_domain args) = Ok tt ->
  snd (run (UserRoleTools.userRolesUpdateTool_handler env args))
  = [{| method := "PUT";
        url := UserRoleTools.rolesUrl (UserRoleTools.r_domain args)
                 (UserRoleTools.r_userId args);
        body := Some ("{" ++ quote "roles" ++ ":["
                        ++ join "," (map quote (UserRoleTools.roles args)) ++ "]}") |}].
Proof.
  intros Hdom.
  unfold run, UserRoleTools.userRolesUpdateTool_handler, tryCatch, bind, lift,
    socrataPut, request.
  rewrite Hdom, stringify_rolesBody. simpl app.
  destruct (fetch env _ _) as [m | status statusText text parsed]; [reflexivity|].
  destruct (responseOk status); [|reflexivity].
  destruct parsed as [result | m]; [|reflexivity].
  destruct (formatResponse result _); reflexivity.
Qed.

Lemma roles_update_is_one_write_witness :
  snd (run (UserRoleTools.userRolesUpdateTool_handler offlineEnv
              (grantRoles ["viewer"; "editor"])))
  = [{| method := "PUT";
        url := "https://data.x.org/api/catalog/v1/users/u1/roles";
        body := Some ("{" ++ quote "roles" ++ ":["
                        ++ quote "viewer" ++ "," ++ quote "editor" ++ "]}") |}].
Proof.
  exact (roles_update_is_one_write offlineEnv (grantRoles ["viewer"; "editor"])
           eq_refl).
Defined.

(** ** The markdown view reads the body it prints *)

Section NullBody.

Variable env : Env.
Variable domain : string.
Variable data : value.
Hypothesis Hdomain : validateDomain (ALLOWED_DOMAINS env) domain = Ok tt.
Hypothesis Hanswers : answers env data.
Hypothesis Hdefined : isDefined data = true.

Lemma read_run u :
  socrataGet env u [] = (Ok data, [GET u]).
Proof.
  unfold socrataGet, request. fold (GET u).
  destruct (Hanswers u) as (status & statusText & text & -> & ->). reflexivity.
Qed.

Lemma getWorkflowContext_run workflowId :
  WorkflowTools.getWorkflowContext env domain workflowId []
  = (Ok data, [GET (WorkflowTools.contextUrl domain workflowId)]).
Proof.
  unfold WorkflowTools.getWorkflowContext, bind, lift. rewrite Hdomain.
  apply read_run.
Qed.

Lemma present_json heading formatted log :
  CatalogTools.present json heading formatted log
  = (Ok (render json "" formatted), log).
Proof. reflexivity. Qed.

Lemma returns_iff (r : result string) fmt (printed : bool) :
  (fmt = markdown -> (returns r = true <-> data <> Null /\ printed = true)) ->
  (fmt = json -> returns r = true) ->
  returns r = true <-> fmt = json \/ (data <> Null /\ printed = true).
Proof.
  intros Hm Hj. destruct fmt.
  - split; [now left | intros _; now apply Hj].
  - rewrite (Hm eq_refl). split; [now right | intros [H | H]; [discriminate | exact H]].
Qed.

End NullBody.

(** The conversion of [x || d] succeeds exactly when that of [x] does,
    for a default [d] that can be converted. *)
Lemma toString_or_else x d :
  printable d = true ->
  match toString (or_else x d) with
  | Ok _ => printable x = true
  | Throw _ => printable x = false
  end.
Proof.
  intros Hd. unfold or_else. destruct (truthy x) eqn:Hx.
  - unfold printable. now destruct (toString x).
  - rewrite (falsy_printable x Hx). unfold printable in Hd.
    now destruct (toString d).
Qed.

(** X23.  When the domain is allowed and the remote answers a read with a
    defined document, each of the four read tools whose heading is drawn
    from the document returns a text exactly when the JSON view is asked
    for, or the document is not [null] and the fields its heading prints
    can be converted to a string: the markdown view of a [null] body fails,
    and so does the markdown view of a document whose heading field is an
    object with a field named [toString]; the JSON view prints both. *)
Theorem markdown_view_fails_on_null_body (env : Env) (domain : string) (data : value) :
  validateDomain (ALLOWED_DOMAINS env) domain = Ok tt ->
  answers env data ->
  isDefined data = true ->
  (forall args, CatalogTools.c_domain args = domain ->
     returns (fst (run (CatalogTools.catalogGetTool_handler env args))) = true
     <-> CatalogTools.c_format args = json
         \/ (data <> Null /\ printable (getOwn data "resultSetSize") = true))
  /\ (forall args, AssetReadTools.a_domain args = domain ->
        returns (fst (run (AssetReadTools.assetMetadataGetTool_handler env args))) = true
        <-> AssetReadTools.a_format args = json
            \/ (data <> Null
                /\ printable (getOwn data "name") && printable (getOwn data "description")
                   = true))
  /\ (forall args, AssetReadTools.a_domain args = domain ->
        returns (fst (run (AssetReadTools.assetPermissionsGetTool_handler env args))) = true
        <-> AssetReadTools.a_format args = json
            \/ (data <> Null /\ printable (getOwn data "scope") = true))
  /\ (forall args, WorkflowTools.w_domain args = domain ->
        returns (fst (run (WorkflowTools.workflowContextGetTool_handler env args))) = true
        <-> WorkflowTools.w_format args = json
            \/ (data <> Null /\ printable (getOwn data "status") = true)).
Proof.
  intros Hdom Hans Hd.
  split; [|split; [|split]]; intros args <-.
  all: apply (returns_iff data); intros Hfmt.
  all: unfold run, CatalogTools.catalogGetTool_handler,
         AssetReadTools.assetMetadataGetTool_handler,
         AssetReadTools.assetPermissionsGetTool_handler,
         WorkflowTools.workflowContextGetTool_handler.
  all: unfold tryCatch, bind at 1 2; unfold lift at 1; rewrite Hdom.
  all: cbv beta zeta;
    first [ rewrite (read_run env data Hans)
          | rewrite (getWorkflowContext_run env _ data Hdom Hans) ].
  all: unfold bind at 1; unfold lift at 1.
  all: match goal with
       | |- context [formatResponse ?d ?o] =>
           destruct (formatResponse_defined d o Hd) as (shaped & ->)
       end.
  all: rewrite Hfmt; try reflexivity.
  all: unfold CatalogTools.present, bind, lift, ret, throw.
  all: destruct data as [| |b|n|t|items|fields] eqn:Hdata; try discriminate Hd.
  all: cbn [getProp].
  all: try (split; [discriminate | intros [H _]; now elim H]).
  all: repeat match goal with
         | |- context [toString (or_else ?x ?d)] =>
             let H := fresh "Hprint" in
             pose proof (toString_or_else x d eq_refl) as H;
             destruct (toString (or_else x d)); rewrite H
         end.
  all: split; [intros Hr | intros [_ Hp]];
    try (split; [discriminate | reflexivity]);
    try reflexivity; try discriminate Hr; try discriminate Hp.
Qed.

Lemma markdown_view_fails_on_null_body_witness :
  returns (fst (run (AssetReadTools.assetMetadataGetTool_handler (constantEnv Null)
                       (nullBodyArgs markdown)))) = false
  /\ returns (fst (run (AssetReadTools.assetMetadataGetTool_handler (constantEnv Null)
                          (nullBodyArgs json)))) = true.
Proof.
  assert (Hans : answers (constantEnv Null) Null).
  { intros u. exists 200%Z, "OK", "". split; reflexivity. }
  destruct (markdown_view_fails_on_null_body (constantEnv Null) "data.x.org" Null
              eq_refl Hans eq_refl) as (_ & Hmeta & _).
  split.
  - destruct (returns _) eqn:E; [|reflexivity].
    apply (Hmeta (nullBodyArgs markdown) eq_refl) in E.
    destruct E as [E | [E _]]; [discriminate E | now elim E].
  - apply (Hmeta (nullBodyArgs json) eq_refl). now left.
Defined.

(** A name that is an object with a field named [toString] cannot be
    printed in the heading: the markdown view fails, the JSON view does
    not. *)
Example markdown_view_fails_on_odd_name :
  fst (run (AssetReadTools.assetMetadataGetTool_handler
              (constantEnv (Obj [("name", Obj [("toString", Num 1)])]))
              (nullBodyArgs markdown)))
  = Throw ("Failed to get metadata for asset abcd-1234 on data.x.org: "
             ++ cannotConvert
             ++ ". Check if the asset ID is correct and publicly accessible.")
  /\ returns (fst (run (AssetReadTools.assetMetadataGetTool_handler
                          (constantEnv (Obj [("name", Obj [("toString", Num 1)])]))
                          (nullBodyArgs json)))) = true.
Proof. split; reflexivity. Qed.

(** ** Query parameters of the activity log and of the catalog search *)

Section QueryKeys.

Variable k : string.
Variable searchParams : list (string * string).

Lemma keys_appendIfTruthy param :
  map fst (UserTools.appendIfTruthy k param searchParams)
  = (map fst searchParams ++ if PublishingTools.supplied param then [k] else [])%list.
Proof.
  unfold UserTools.appendIfTruthy, PublishingTools.supplied, PublishingTools.whenTruthy.
  destruct param as [s|]; [destruct (s =? "")|];
    rewrite ?map_app, ?List.app_nil_r; reflexivity.
Qed.

Lemma keys_appendNumber n :
  map fst (ActivityTools.appendNumber k n searchParams)
  = (map fst searchParams ++ if nonZero n then [k] else [])%list.
Proof.
  unfold ActivityTools.appendNumber, nonZero.
  destruct n as [z|]; [destruct (z =? 0)%Z|];
    rewrite ?map_app, ?List.app_nil_r; reflexivity.
Qed.

Lemma keys_appendJoined l :
  map fst (CatalogTools.appendJoined k l searchParams)
  = (map fst searchParams ++ if nonEmpty l then [k] else [])%list.
Proof.
  unfold CatalogTools.appendJoined, nonEmpty.
  destruct l as [[|x rest]|]; rewrite ?map_app, ?List.app_nil_r; reflexivity.
Qed.

Variable first : string * string.
Hypothesis Hfirst : hd_error searchParams = Some first.

Lemma hd_app more : hd_error (searchParams ++ more)%list = Some first.
Proof. destruct searchParams; [discriminate Hfirst | exact Hfirst]. Qed.

Lemma hd_appendIfTruthy param :
  hd_error (UserTools.appendIfTruthy k param searchParams) = Some first.
Proof.
  unfold UserTools.appendIfTruthy.
  destruct param as [s|]; [destruct (s =? "")|]; try exact Hfirst. apply hd_app.
Qed.

Lemma hd_appendNumber n :
  hd_error (ActivityTools.appendNumber k n searchParams) = Some first.
Proof.
  unfold ActivityTools.appendNumber.
  destruct n as [z|]; [destruct (z =? 0)%Z|]; try exact Hfirst. apply hd_app.
Qed.

Lemma hd_appendJoined l :
  hd_error (CatalogTools.appendJoined k l searchParams) = Some first.
Proof.
  unfold CatalogTools.appendJoined.
  destruct l as [[|x rest]|]; try exact Hfirst. apply hd_app.
Qed.

End QueryKeys.

(** X24.  The query of the activity log starts with the asset, names no
    parameter twice, and carries each filter exactly when its value is
    truthy: a limit or an offset of zero is left out like one that is not
    given, and so is an empty date or type. *)
Theorem activity_filters_sent_when_truthy (assetId : string)
  (options : ActivityTools.ActivityOptions) :
  let searchParams := ActivityTools.activityLogParams assetId options in
  hd_error searchParams = Some ("asset_id", assetId)
  /\ distinct (map fst searchParams) = true
  /\ sent "limit" searchParams = nonZero (ActivityTools.limit options)
  /\ sent "offset" searchParams = nonZero (ActivityTools.offset options)
  /\ sent "start_date" searchParams
     = PublishingTools.supplied (ActivityTools.startDate options)
  /\ sent "end_date" searchParams
     = PublishingTools.supplied (ActivityTools.endDate options)
  /\ sent "activity_type" searchParams
     = PublishingTools.supplied (ActivityTools.activityType options).
Proof.
  cbv zeta. split.
  - unfold ActivityTools.activityLogParams.
    repeat first [ apply hd_appendIfTruthy | apply hd_appendNumber ]. reflexivity.
  - unfold sent, ActivityTools.activityLogParams.
    repeat first [ rewrite keys_appendIfTruthy | rewrite keys_appendNumber ].
    cbn [map fst].
    destruct (nonZero (ActivityTools.limit options)),
      (nonZero (ActivityTools.offset options)),
      (PublishingTools.supplied (ActivityTools.startDate options)),
      (PublishingTools.supplied (ActivityTools.endDate options)),
      (PublishingTools.supplied (ActivityTools.activityType options));
      repeat split; reflexivity.
Qed.

(** X25.  The query of the catalog search starts with the domain and names
    no parameter twice; the ordering, the limit and the offset are always
    part of it, a zero offset included; the text filters are part of it
    exactly when they are not empty, the list filters exactly when they
    have an element, the visibility exactly when it is given. *)
Theorem catalog_search_parameters (args : CatalogTools.CatalogSearchArgs) :
  let searchParams := CatalogTools.catalogSearchParams args in
  hd_error searchParams = Some ("domains", CatalogTools.cs_domain args)
  /\ distinct (map fst searchParams) = true
  /\ In ("order", CatalogTools.orderText (CatalogTools.order args)) searchParams
  /\ In ("limit", numberToString (CatalogTools.cs_limit args)) searchParams
  /\ In ("offset", numberToString (CatalogTools.cs_offset args)) searchParams
  /\ sent "q" searchParams = PublishingTools.supplied (CatalogTools.q args)
  /\ sent "categories" searchParams = nonEmpty (CatalogTools.categories args)
  /\ sent "tags" searchParams = nonEmpty (CatalogTools.tags args)
  /\ sent "attribution" searchParams
     = PublishingTools.supplied (CatalogTools.attribution args)
  /\ sent "provenance" searchParams
     = PublishingTools.supplied (CatalogTools.provenance args)
  /\ sent "visibility" searchParams = given (CatalogTools.visibility args).
Proof.
  cbv zeta. split; [|split; [|split; [|split; [|split]]]].
  - unfold CatalogTools.catalogSearchParams. apply hd_app.
    repeat first [ apply hd_appendIfTruthy | apply hd_appendJoined ]. reflexivity.
  - unfold CatalogTools.catalogSearchParams.
    rewrite map_app.
    repeat first [ rewrite keys_appendIfTruthy | rewrite keys_appendJoined ].
    cbn [map fst].
    destruct (PublishingTools.supplied (CatalogTools.q args)),
      (nonEmpty (CatalogTools.categories args)),
      (nonEmpty (CatalogTools.tags args)),
      (PublishingTools.supplied (CatalogTools.attribution args)),
      (PublishingTools.supplied (CatalogTools.provenance args)),
      (PublishingTools.supplied _);
      reflexivity.
  - apply in_or_app. right. simpl. tauto.
  - apply in_or_app. right. simpl. tauto.
  - apply in_or_app. right. simpl. tauto.
  - assert (Hv : PublishingTools.supplied
                   (option_map CatalogTools.visibilityText (CatalogTools.visibility args))
                 = given (CatalogTools.visibility args))
      by (destruct (CatalogTools.visibility args) as [[]|]; reflexivity).
    unfold sent, CatalogTools.catalogSearchParams.
    rewrite map_app.
    repeat first [ rewrite keys_appendIfTruthy | rewrite keys_appendJoined ].
    rewrite Hv. cbn [map fst].
    destruct (PublishingTools.supplied (CatalogTools.q args)),
      (nonEmpty (CatalogTools.categories args)),
      (nonEmpty (CatalogTools.tags args)),
      (PublishingTools.supplied (CatalogTools.attribution args)),
      (PublishingTools.supplied (CatalogTools.provenance args)),
      (given (CatalogTools.visibility args));
      repeat split; reflexivity.
Qed.
